(** * helpi: provider abstraction, router and session store

    A shallow embedding of the Go packages [internal/config] (the part the
    providers read), [internal/llm] and [internal/session], followed by the
    properties stated about them.

    Conventions.
    - A Go [string] is a [string]; a Go [int]/[int64] is a [Z] (no arithmetic
      in this code can overflow: the only subtraction is between a slice
      length and a smaller positive bound).
    - A Go [error] is an [option string]: [None] is [nil], [Some s] is an
      error whose [Error()] text is [s].  [fmt.Errorf("p: %w", err)] is
      [Some ("p: " +:+ s)].
    - A nil slice and an empty slice are both [[]].
    - The process environment read by [os.Getenv] is an explicit
      [gmap string string].
    - The two remote APIs are explicit: a computation that may talk to a
      backend lives in the [Net] monad, which threads the log of the
      requests issued so far.
    - The file system is an explicit [gmap string node] threaded through the
      session store.  The store's [sync.RWMutex] is not modelled: every
      operation holds the lock for its whole body, so the sequential
      reading below is the behaviour of each call. *)

From Stdlib Require Import ZArith Ascii DecimalString.
From stdpp Require Import base option list strings gmap.
From Stdlib Require DecimalZ DecimalPos.

Local Open Scope Z_scope.

(** ** Go runtime helpers *)

Module Go.

Definition error := option string.

(** [fmt.Errorf(prefix + "%w", err)]. *)
Definition Errorf_w (pre : string) (err : string) : error :=
  Some (pre +:+ err).

(** [fmt.Sprintf("%d", n)]. *)
Definition Sprintf_d (n : Z) : string :=
  NilZero.string_of_int (Z.to_int n).

(** [strings.Contains(s, sub)]. *)
Fixpoint Contains (s sub : string) : bool :=
  String.prefix sub s ||
  match s with
  | EmptyString => false
  | String _ s' => Contains s' sub
  end.

(** [os.Getenv]: the empty string when the variable is unset. *)
Definition Getenv (env : gmap string string) (key : string) : string :=
  default "" (env !! key).

(** [for i, x := range xs { arr[i] = f(x) }], the loop every
    OpenAI-compatible provider runs over a slice made with
    [make([]T, len(xs))].  [i] is the index of the head of [xs]. *)
Fixpoint range_assign {A B : Type} (f : A -> B) (i : nat) (xs : list A)
    (arr : list B) : list B :=
  match xs with
  | [] => arr
  | x :: rest => range_assign f (S i) rest (<[i := f x]> arr)
  end.

(** [make([]T, n)]: [n] zero values. *)
Definition make {B : Type} (zero : B) (n : nat) : list B := replicate n zero.

End Go.

(** ** package config (the part the llm package reads) *)

Module config.

Record ProviderConfig := {
  Enabled : bool;
  DefaultModel : string
}.

Record ProvidersConfig := {
  OpenAI : ProviderConfig;
  Anthropic : ProviderConfig;
  OpenRouter : ProviderConfig;
  OpenCode : ProviderConfig;
  Ollama : ProviderConfig
}.

Record MemoryConfig := {
  Path : string;
  MaxMessages : Z
}.

Record Config := {
  Providers : ProvidersConfig;
  Memory : MemoryConfig
}.

End config.

(** ** The two SDKs, as far as the providers use them *)

Module sdk.

(** [context.Context]: only whether it is already done matters to a
    backend; the providers pass it through untouched. *)
Record Context := { ctx_done : bool }.

Inductive RequestOption :=
| WithBaseURL (url : string)
| WithAPIKey (key : string)
| WithHeader (k v : string).

(** [openai.Client] / [anthropic.Client]: the options it was built with.
    The zero value ([var client openai.Client]) has none. *)
Record Client := { Options : list RequestOption }.

Definition NewClient (opts : list RequestOption) : Client :=
  {| Options := opts |}.

Definition zeroClient : Client := {| Options := [] |}.

(** [openai.ChatCompletionMessageParamUnion]; [OfNone] is its zero value. *)
Inductive ChatCompletionMessageParamUnion :=
| OfNone
| SystemMessage (content : string)
| UserMessage (content : string)
| AssistantMessage (content : string).

Record ChatCompletionNewParams := {
  cc_Model : string;
  cc_Messages : list ChatCompletionMessageParamUnion
}.

Record ChatCompletionChoice := { choice_Content : string }.

Record ChatCompletion := { Choices : list ChatCompletionChoice }.

(** [anthropic.MessageParam] with its single text block. *)
Record MessageParam := {
  mp_Role : string;
  mp_Content : list string
}.

Definition MessageParamRoleUser : string := "user".

Record MessageNewParams := {
  mn_Model : string;
  mn_MaxTokens : Z;
  mn_System : list string;
  mn_Messages : list MessageParam
}.

(** A content block of an Anthropic reply; [AsText] of a block that is
    not a text block is the zero [TextBlock], whose text is empty. *)
Inductive ContentBlockUnion :=
| TextBlock (text : string)
| OtherBlock.

Definition AsText (b : ContentBlockUnion) : string :=
  match b with
  | TextBlock t => t
  | OtherBlock => ""
  end.

Record AnthropicMessage := { am_Content : list ContentBlockUnion }.

(** One request on the wire. *)
Inductive Request :=
| ChatCompletionsNew (c : Client) (p : ChatCompletionNewParams)
| MessagesNew (c : Client) (p : MessageNewParams).

(** What the remote ends answer: a reply or the text of an error. *)
Record Remote := {
  chat_completions :
    Context -> Client -> ChatCompletionNewParams -> ChatCompletion + string;
  messages :
    Context -> Client -> MessageNewParams -> AnthropicMessage + string
}.

(** Computations that may issue requests: given the remote ends and the
    log of requests issued so far, a result and the extended log. *)
Definition Net (A : Type) : Type := Remote -> list Request -> A * list Request.

Definition ret {A : Type} (a : A) : Net A := fun _ log => (a, log).

Definition bind {A B : Type} (m : Net A) (k : A -> Net B) : Net B :=
  fun R log => let '(a, log') := m R log in k a R log'.

(** [client.Chat.Completions.New(ctx, params)] *)
Definition Chat_Completions_New (ctx : Context) (c : Client)
    (p : ChatCompletionNewParams) : Net (ChatCompletion + string) :=
  fun R log => (chat_completions R ctx c p, log ++ [ChatCompletionsNew c p]).

(** [client.Messages.New(ctx, params)] *)
Definition Messages_New (ctx : Context) (c : Client)
    (p : MessageNewParams) : Net (AnthropicMessage + string) :=
  fun R log => (messages R ctx c p, log ++ [MessagesNew c p]).

End sdk.

Notation "'let*' x ':=' m 'in' k" := (sdk.bind m (fun x => k))
  (at level 10, x name, m at level 100, k at level 200).

(** ** package llm *)

Module llm.
Import Go config sdk.

(** types.go *)
Record Message := { Role : string; Content : string }.

(** provider.go: a value of the [Provider] interface is its method set
    closed over the receiver.  No receiver in this package is mutated
    after construction, so [Name()] and [IsEnabled()] are constants of
    the value. *)
Record Provider := {
  Name : string;
  SendMessage : Context -> list Message -> Net (string * error);
  IsEnabled : bool
}.

(** *** openai.go *)

Record openAIProvider := {
  openai_client : Client;
  openai_model : string;
  openai_enabled : bool;
  openai_providerCfg : ProviderConfig
}.

Definition NewOpenAIProvider_struct (cfg : Config) (env : gmap string string)
    : openAIProvider :=
  let apiKey := Getenv env "OPENAI_API_KEY" in
  let enabled := Enabled (OpenAI (Providers cfg)) && negb (String.eqb apiKey "") in
  let client :=
    if enabled then NewClient [WithAPIKey apiKey] else zeroClient in
  {| openai_client := client;
     openai_model := DefaultModel (OpenAI (Providers cfg));
     openai_enabled := enabled;
     openai_providerCfg := OpenAI (Providers cfg) |}.

Definition openAIProvider_Name (p : openAIProvider) : string := "openai".

Definition openAIProvider_IsEnabled (p : openAIProvider) : bool :=
  openai_enabled p.

(** The body of the [switch msg.Role] of the translation loop. *)
Definition openAIProvider_turn (msg : Message) : ChatCompletionMessageParamUnion :=
  if String.eqb (Role msg) "system" then SystemMessage (Content msg)
  else if String.eqb (Role msg) "user" then UserMessage (Content msg)
  else if String.eqb (Role msg) "assistant" then AssistantMessage (Content msg)
  else UserMessage (Content msg).

Definition openAIProvider_SendMessage (p : openAIProvider) (ctx : Context)
    (messages : list Message) : Net (string * error) :=
  if negb (openai_enabled p) then
    ret ("", Some "openai: provider not enabled")
  else
    let openAIMessages :=
      range_assign openAIProvider_turn 0 messages
        (make OfNone (length messages)) in
    let* r := Chat_Completions_New ctx (openai_client p)
                {| cc_Model := openai_model p;
                   cc_Messages := openAIMessages |} in
    match r with
    | inr err => ret ("", Errorf_w "openai: " err)
    | inl resp =>
        match Choices resp with
        | [] => ret ("", None)
        | c :: _ => ret (choice_Content c, None)
        end
    end.

Definition openAIProvider_iface (p : openAIProvider) : Provider :=
  {| Name := openAIProvider_Name p;
     SendMessage := openAIProvider_SendMessage p;
     IsEnabled := openAIProvider_IsEnabled p |}.

Definition NewOpenAIProvider (cfg : Config) (env : gmap string string) : Provider :=
  openAIProvider_iface (NewOpenAIProvider_struct cfg env).

(** *** anthropic.go *)

Record anthropicProvider := {
  anthropic_client : Client;
  anthropic_model : string;
  anthropic_enabled : bool;
  anthropic_providerCfg : ProviderConfig
}.

Definition NewAnthropicProvider_struct (cfg : Config) (env : gmap string string)
    : anthropicProvider :=
  let apiKey := Getenv env "ANTHROPIC_API_KEY" in
  let enabled := Enabled (Anthropic (Providers cfg)) && negb (String.eqb apiKey "") in
  let client :=
    if enabled then NewClient [WithAPIKey apiKey] else zeroClient in
  {| anthropic_client := client;
     anthropic_model := DefaultModel (Anthropic (Providers cfg));
     anthropic_enabled := enabled;
     anthropic_providerCfg := Anthropic (Providers cfg) |}.

Definition anthropicProvider_Name (p : anthropicProvider) : string := "anthropic".

Definition anthropicProvider_IsEnabled (p : anthropicProvider) : bool :=
  anthropic_enabled p.

(** The [MessageParam] built for a message that is not a system message
    (the role choice and the struct literal of the loop body). *)
Definition anthropicProvider_turn (msg : Message) : MessageParam :=
  let role :=
    if String.eqb (Role msg) "assistant" then "assistant"
    else MessageParamRoleUser in
  {| mp_Role := role; mp_Content := [Content msg] |}.

(** One iteration of [for _, msg := range messages] over the loop state
    [(systemMsg, conversationMessages)]. *)
Definition anthropicProvider_step (st : string * list MessageParam)
    (msg : Message) : string * list MessageParam :=
  let '(systemMsg, conversationMessages) := st in
  if String.eqb (Role msg) "system" then
    (Content msg, conversationMessages)
  else
    let msgParam := anthropicProvider_turn msg in
    (systemMsg, conversationMessages ++ [msgParam]).

(** The request [SendMessage] builds: lines 52-90 of the method. *)
Definition anthropicProvider_params (p : anthropicProvider)
    (messages : list Message) : MessageNewParams :=
  let '(systemMsg, conversationMessages) :=
    fold_left anthropicProvider_step messages ("", []) in
  let params :=
    {| mn_Model := anthropic_model p; mn_MaxTokens := 1024;
       mn_System := []; mn_Messages := [] |} in
  let params :=
    if negb (String.eqb systemMsg "") then
      {| mn_Model := mn_Model params; mn_MaxTokens := mn_MaxTokens params;
         mn_System := [systemMsg]; mn_Messages := mn_Messages params |}
    else params in
  if (0 <? Z.of_nat (length conversationMessages)) then
    {| mn_Model := mn_Model params; mn_MaxTokens := mn_MaxTokens params;
       mn_System := mn_System params; mn_Messages := conversationMessages |}
  else params.

Definition anthropicProvider_SendMessage (p : anthropicProvider) (ctx : Context)
    (messages : list Message) : Net (string * error) :=
  if negb (anthropic_enabled p) then
    ret ("", Some "anthropic: provider not enabled")
  else
    let params := anthropicProvider_params p messages in
    let* r := Messages_New ctx (anthropic_client p) params in
    match r with
    | inr err => ret ("", Errorf_w "anthropic: " err)
    | inl message =>
        if (Z.of_nat (length (am_Content message)) =? 0) then ret ("", None)
        else
          let responseText :=
            fold_left (fun acc content => acc +:+ AsText content)
                      (am_Content message) "" in
          ret (responseText, None)
    end.

Definition anthropicProvider_iface (p : anthropicProvider) : Provider :=
  {| Name := anthropicProvider_Name p;
     SendMessage := anthropicProvider_SendMessage p;
     IsEnabled := anthropicProvider_IsEnabled p |}.

Definition NewAnthropicProvider (cfg : Config) (env : gmap string string) : Provider :=
  anthropicProvider_iface (NewAnthropicProvider_struct cfg env).

(** *** openrouter.go *)

Record openRouterProvider := {
  openrouter_client : Client;
  openrouter_model : string;
  openrouter_enabled : bool;
  openrouter_providerCfg : ProviderConfig
}.

Definition NewOpenRouterProvider_struct (cfg : Config) (env : gmap string string)
    : openRouterProvider :=
  let apiKey := Getenv env "OPENROUTER_API_KEY" in
  let enabled := Enabled (OpenRouter (Providers cfg)) && negb (String.eqb apiKey "") in
  let client :=
    if enabled then
      NewClient [WithBaseURL "https://openrouter.ai/api/v1";
                 WithAPIKey apiKey;
                 WithHeader "HTTP-Referer" "https://github.com/jrswab/helpi";
                 WithHeader "X-Title" "Helpi"]
    else zeroClient in
  {| openrouter_client := client;
     openrouter_model := DefaultModel (OpenRouter (Providers cfg));
     openrouter_enabled := enabled;
     openrouter_providerCfg := OpenRouter (Providers cfg) |}.

Definition openRouterProvider_Name (p : openRouterProvider) : string := "openrouter".

Definition openRouterProvider_IsEnabled (p : openRouterProvider) : bool :=
  openrouter_enabled p.

Definition openRouterProvider_turn (msg : Message) : ChatCompletionMessageParamUnion :=
  if String.eqb (Role msg) "system" then SystemMessage (Content msg)
  else if String.eqb (Role msg) "user" then UserMessage (Content msg)
  else if String.eqb (Role msg) "assistant" then AssistantMessage (Content msg)
  else UserMessage (Content msg).

Definition openRouterProvider_SendMessage (p : openRouterProvider) (ctx : Context)
    (messages : list Message) : Net (string * error) :=
  if negb (openrouter_enabled p) then
    ret ("", Some "openrouter: provider not enabled")
  else
    let openAIMessages :=
      range_assign openRouterProvider_turn 0 messages
        (make OfNone (length messages)) in
    let* r := Chat_Completions_New ctx (openrouter_client p)
                {| cc_Model := openrouter_model p;
                   cc_Messages := openAIMessages |} in
    match r with
    | inr err => ret ("", Errorf_w "openrouter: " err)
    | inl resp =>
        match Choices resp with
        | [] => ret ("", None)
        | c :: _ => ret (choice_Content c, None)
        end
    end.

Definition openRouterProvider_iface (p : openRouterProvider) : Provider :=
  {| Name := openRouterProvider_Name p;
     SendMessage := openRouterProvider_SendMessage p;
     IsEnabled := openRouterProvider_IsEnabled p |}.

Definition NewOpenRouterProvider (cfg : Config) (env : gmap string string) : Provider :=
  openRouterProvider_iface (NewOpenRouterProvider_struct cfg env).

(** *** opencode.go *)

Record openCodeProvider := {
  opencode_client : Client;
  opencode_model : string;
  opencode_enabled : bool;
  opencode_providerCfg : ProviderConfig
}.

Definition NewOpenCodeProvider_struct (cfg : Config) (env : gmap string string)
    : openCodeProvider :=
  let apiKey := Getenv env "OPENCODE_API_KEY" in
  let enabled := Enabled (OpenCode (Providers cfg)) && negb (String.eqb apiKey "") in
  let client :=
    if enabled then
      NewClient [WithBaseURL "https://opencode.ai/zen/v1"; WithAPIKey apiKey]
    else zeroClient in
  {| opencode_client := client;
     opencode_model := DefaultModel (OpenCode (Providers cfg));
     opencode_enabled := enabled;
     opencode_providerCfg := OpenCode (Providers cfg) |}.

Definition openCodeProvider_Name (p : openCodeProvider) : string := "opencode".

Definition openCodeProvider_IsEnabled (p : openCodeProvider) : bool :=
  opencode_enabled p.

Definition openCodeProvider_turn (msg : Message) : ChatCompletionMessageParamUnion :=
  if String.eqb (Role msg) "system" then SystemMessage (Content msg)
  else if String.eqb (Role msg) "user" then UserMessage (Content msg)
  else if String.eqb (Role msg) "assistant" then AssistantMessage (Content msg)
  else UserMessage (Content msg).

Definition openCodeProvider_SendMessage (p : openCodeProvider) (ctx : Context)
    (messages : list Message) : Net (string * error) :=
  if negb (opencode_enabled p) then
    ret ("", Some "opencode: provider not enabled")
  else
    let openAIMessages :=
      range_assign openCodeProvider_turn 0 messages
        (make OfNone (length messages)) in
    let* r := Chat_Completions_New ctx (opencode_client p)
                {| cc_Model := opencode_model p;
                   cc_Messages := openAIMessages |} in
    match r with
    | inr err => ret ("", Errorf_w "opencode: " err)
    | inl resp =>
        match Choices resp with
        | [] => ret ("", None)
        | c :: _ => ret (choice_Content c, None)
        end
    end.

Definition openCodeProvider_iface (p : openCodeProvider) : Provider :=
  {| Name := openCodeProvider_Name p;
     SendMessage := openCodeProvider_SendMessage p;
     IsEnabled := openCodeProvider_IsEnabled p |}.

Definition NewOpenCodeProvider (cfg : Config) (env : gmap string string) : Provider :=
  openCodeProvider_iface (NewOpenCodeProvider_struct cfg env).

(** *** ollama.go *)

Record ollamaProvider := {
  ollama_client : Client;
  ollama_model : string;
  ollama_baseURL : string;
  ollama_enabled : bool
}.

Definition NewOllamaProvider_struct (cfg : Config) (env : gmap string string)
    : ollamaProvider :=
  let enabled := Enabled (Ollama (Providers cfg)) in
  let baseURL := DefaultModel (Ollama (Providers cfg)) in
  let baseURL :=
    if String.eqb baseURL "" then "http://localhost:11434/v1" else baseURL in
  let client :=
    if enabled then NewClient [WithBaseURL baseURL; WithAPIKey "ollama"]
    else zeroClient in
  {| ollama_client := client;
     ollama_model := DefaultModel (Ollama (Providers cfg));
     ollama_baseURL := baseURL;
     ollama_enabled := enabled |}.

Definition ollamaProvider_Name (p : ollamaProvider) : string := "ollama".

Definition ollamaProvider_IsEnabled (p : ollamaProvider) : bool :=
  ollama_enabled p.

Definition ollamaProvider_turn (msg : Message) : ChatCompletionMessageParamUnion :=
  if String.eqb (Role msg) "system" then SystemMessage (Content msg)
  else if String.eqb (Role msg) "user" then UserMessage (Content msg)
  else if String.eqb (Role msg) "assistant" then AssistantMessage (Content msg)
  else UserMessage (Content msg).

Definition ollamaProvider_SendMessage (p : ollamaProvider) (ctx : Context)
    (messages : list Message) : Net (string * error) :=
  if negb (ollama_enabled p) then
    ret ("", Some "ollama: provider not enabled")
  else
    let openAIMessages :=
      range_assign ollamaProvider_turn 0 messages
        (make OfNone (length messages)) in
    let* r := Chat_Completions_New ctx (ollama_client p)
                {| cc_Model := ollama_model p;
                   cc_Messages := openAIMessages |} in
    match r with
    | inr err => ret ("", Errorf_w "ollama: " err)
    | inl resp =>
        match Choices resp with
        | [] => ret ("", None)
        | c :: _ => ret (choice_Content c, None)
        end
    end.

Definition ollamaProvider_iface (p : ollamaProvider) : Provider :=
  {| Name := ollamaProvider_Name p;
     SendMessage := ollamaProvider_SendMessage p;
     IsEnabled := ollamaProvider_IsEnabled p |}.

Definition NewOllamaProvider (cfg : Config) (env : gmap string string) : Provider :=
  ollamaProvider_iface (NewOllamaProvider_struct cfg env).

(** *** router.go *)

Record router := {
  providers : list Provider;
  defaultIdx : Z
}.

Definition newRouter (providers : list Provider) (defaultIdx : Z) : router :=
  {| providers := providers; defaultIdx := defaultIdx |}.

Definition errNoProvider : string := "no LLM provider enabled".

(** [for _, p := range r.providers { if p.IsEnabled() { return p, nil } }] *)
Fixpoint router_scan (ps : list Provider) : option Provider :=
  match ps with
  | [] => None
  | p :: rest => if IsEnabled p then Some p else router_scan rest
  end.

Definition router_GetProvider (r : router) : option Provider * error :=
  let fallback :=
    match router_scan (providers r) with
    | Some p => (Some p, None)
    | None => (None, Some errNoProvider)
    end in
  if (0 <=? defaultIdx r) && (defaultIdx r <? Z.of_nat (length (providers r))) then
    match providers r !! Z.to_nat (defaultIdx r) with
    | Some provider =>
        if IsEnabled provider then (Some provider, None) else fallback
    | None => fallback (* unreachable: the index is in range *)
    end
  else fallback.

Definition router_SendMessage (r : router) (ctx : Context)
    (messages : list Message) : Net (string * error) :=
  match router_GetProvider r with
  | (Some provider, None) => SendMessage provider ctx messages
  | (_, Some err) => ret ("", Some err)
  | (None, None) => ret ("", None) (* unreachable *)
  end.

(** *** factory.go *)

Definition NewProvider (cfg : Config) (env : gmap string string)
    (providerType : string) : option Provider * error :=
  if String.eqb providerType "openai" then (Some (NewOpenAIProvider cfg env), None)
  else if String.eqb providerType "anthropic" then (Some (NewAnthropicProvider cfg env), None)
  else if String.eqb providerType "ollama" then (Some (NewOllamaProvider cfg env), None)
  else if String.eqb providerType "openrouter" then (Some (NewOpenRouterProvider cfg env), None)
  else if String.eqb providerType "opencode" then (Some (NewOpenCodeProvider cfg env), None)
  else (None, Some ("unknown provider type: " +:+ providerType)).

(** One [if cfg.Providers.X.Enabled { ... }] block of [NewRouter], on the
    pair [(providers, defaultIdx)]. *)
Definition NewRouter_block (flag : bool) (mk : Provider)
    (st : list Provider * Z) : list Provider * Z :=
  let '(providers, defaultIdx) := st in
  if flag then
    let providers := providers ++ [mk] in
    let defaultIdx :=
      if defaultIdx =? -1 then Z.of_nat (length providers) - 1 else defaultIdx in
    (providers, defaultIdx)
  else (providers, defaultIdx).

(** The slice and index [NewRouter] has built when it reaches its
    [len(providers) == 0] test. *)
Definition NewRouter_built (cfg : Config) (env : gmap string string)
    : list Provider * Z :=
  let st := ([], -1) in
  let st := NewRouter_block (Enabled (OpenAI (Providers cfg)))
              (NewOpenAIProvider cfg env) st in
  let st := NewRouter_block (Enabled (Anthropic (Providers cfg)))
              (NewAnthropicProvider cfg env) st in
  let st := NewRouter_block (Enabled (Ollama (Providers cfg)))
              (NewOllamaProvider cfg env) st in
  let st := NewRouter_block (Enabled (OpenRouter (Providers cfg)))
              (NewOpenRouterProvider cfg env) st in
  let st := NewRouter_block (Enabled (OpenCode (Providers cfg)))
              (NewOpenCodeProvider cfg env) st in
  st.

Definition NewRouter (cfg : Config) (env : gmap string string)
    : option router * error :=
  let '(providers, defaultIdx) := NewRouter_built cfg env in
  if (Z.of_nat (length providers) =? 0) then (None, Some errNoProvider)
  else (Some (newRouter providers defaultIdx), None).

(** *** The five concrete types behind the interface *)

Inductive implementation :=
| ImplOpenAI (p : openAIProvider)
| ImplAnthropic (p : anthropicProvider)
| ImplOllama (p : ollamaProvider)
| ImplOpenRouter (p : openRouterProvider)
| ImplOpenCode (p : openCodeProvider).

Definition as_Provider (v : implementation) : Provider :=
  match v with
  | ImplOpenAI p => openAIProvider_iface p
  | ImplAnthropic p => anthropicProvider_iface p
  | ImplOllama p => ollamaProvider_iface p
  | ImplOpenRouter p => openRouterProvider_iface p
  | ImplOpenCode p => openCodeProvider_iface p
  end.

(** The four that speak the OpenAI chat-completions protocol. *)
Definition openai_compatible (v : implementation) : bool :=
  match v with
  | ImplAnthropic _ => false
  | _ => true
  end.

(** The turns of a request as (role, text) pairs, whichever SDK shaped it. *)
Definition union_turn (u : ChatCompletionMessageParamUnion) : option (string * string) :=
  match u with
  | OfNone => None
  | SystemMessage c => Some ("system", c)
  | UserMessage c => Some ("user", c)
  | AssistantMessage c => Some ("assistant", c)
  end.

Definition request_turns (req : Request) : list (option (string * string)) :=
  match req with
  | ChatCompletionsNew _ p => map union_turn (cc_Messages p)
  | MessagesNew _ p =>
      map (fun mp => Some (mp_Role mp, String.concat "" (mp_Content mp))) (mn_Messages p)
  end.

(** The text of the dedicated system field of a request ([None] for a
    protocol that has no such field). *)
Definition request_system (req : Request) : option string :=
  match req with
  | ChatCompletionsNew _ _ => None
  | MessagesNew _ p => Some (String.concat "" (mn_System p))
  end.

(** The system field as the specification words it: the contents of all
    system-role messages, concatenated in order. *)
Definition spec_system_concat (messages : list Message) : string :=
  String.concat "" (map Content (filter (fun m => Role m = "system") messages)).

(** *** router_test.go: the test double *)

Record mockProvider := {
  mock_name : string;
  mock_enabled : bool;
  mock_response : string;
  mock_err : error
}.

Definition mockProvider_iface (m : mockProvider) : Provider :=
  {| Name := mock_name m;
     SendMessage := fun _ _ => ret (mock_response m, mock_err m);
     IsEnabled := mock_enabled m |}.

End llm.

(** ** The operating system, as far as the session store uses it *)

Module os.

(** What a path names.  Directories are opaque: the store never looks
    inside one, it only trips over one. *)
Inductive node :=
| RegularFile (data : string)
| Directory.

Inductive Errno := ENOENT | EISDIR | ENOTDIR | ENOTEMPTY.

Definition Errno_Error (e : Errno) : string :=
  match e with
  | ENOENT => "no such file or directory"
  | EISDIR => "is a directory"
  | ENOTDIR => "not a directory"
  | ENOTEMPTY => "directory not empty"
  end.

(** [*fs.PathError] *)
Record PathError := { Op : string; Path : string; Err : Errno }.

Definition PathError_Error (e : PathError) : string :=
  Op e +:+ " " +:+ Path e +:+ ": " +:+ Errno_Error (Err e).

(** [os.IsNotExist(err)] *)
Definition IsNotExist (err : option PathError) : bool :=
  match err with
  | Some {| Err := ENOENT |} => true
  | _ => false
  end.

Definition ReadFile (fs : gmap string node) (name : string)
    : string * option PathError :=
  match fs !! name with
  | None => ("", Some {| Op := "open"; Path := name; Err := ENOENT |})
  | Some Directory => ("", Some {| Op := "read"; Path := name; Err := EISDIR |})
  | Some (RegularFile data) => (data, None)
  end.

(** [os.WriteFile(name, data, perm)]: creates or truncates. *)
Definition WriteFile (fs : gmap string node) (name : string) (data : string)
    : option PathError * gmap string node :=
  match fs !! name with
  | Some Directory => (Some {| Op := "open"; Path := name; Err := EISDIR |}, fs)
  | _ => (None, <[name := RegularFile data]> fs)
  end.

(** [os.Remove(name)]; a directory is taken to have entries. *)
Definition Remove (fs : gmap string node) (name : string)
    : option PathError * gmap string node :=
  match fs !! name with
  | None => (Some {| Op := "remove"; Path := name; Err := ENOENT |}, fs)
  | Some Directory => (Some {| Op := "remove"; Path := name; Err := ENOTEMPTY |}, fs)
  | Some (RegularFile _) => (None, delete name fs)
  end.

(** [os.MkdirAll(path, perm)], on a flat name space. *)
Definition MkdirAll (fs : gmap string node) (path : string)
    : option PathError * gmap string node :=
  match fs !! path with
  | Some (RegularFile _) => (Some {| Op := "mkdir"; Path := path; Err := ENOTDIR |}, fs)
  | Some Directory => (None, fs)
  | None => (None, <[path := Directory]> fs)
  end.

(** [filepath.Join(dir, file)] for a clean [dir] and a plain file name. *)
Definition filepath_Join (dir file : string) : string :=
  if String.eqb dir "" then file else dir +:+ "/" +:+ file.

End os.

(** ** encoding/json, as an interface *)

Module json.

(** [json.Marshal] and [json.Unmarshal] at type [[]llm.Message]: data or
    the text of an error. *)
Record Codec := {
  Marshal : list llm.Message -> string + string;
  Unmarshal : string -> list llm.Message + string
}.

(** The codec reads back what it wrote for [M]. *)
Definition roundtrips (c : Codec) (M : list llm.Message) : Prop :=
  exists data, Marshal c M = inl data /\ Unmarshal c data = inl M.

(** A small concrete codec used to run the store on examples: every
    character of a field is written after a [c], a role ends with [,] and
    a message with [;]. *)
Fixpoint tag_field (s : string) : string :=
  match s with
  | EmptyString => EmptyString
  | String x s' => String "c"%char (String x (tag_field s'))
  end.

Definition tag_message (m : llm.Message) : string :=
  tag_field (llm.Role m) +:+ "," +:+ tag_field (llm.Content m) +:+ ";".

Fixpoint untag (s : string) (done : list llm.Message) (role : option string)
    (cur : string) : list llm.Message + string :=
  match s with
  | EmptyString =>
      match role with
      | None => if String.eqb cur "" then inl done else inr "unexpected end of input"
      | Some _ => inr "unexpected end of input"
      end
  | String a rest =>
      if Ascii.eqb a "c"%char then
        match rest with
        | String x rest' => untag rest' done role (cur +:+ String x EmptyString)
        | EmptyString => inr "unexpected end of input"
        end
      else if Ascii.eqb a ","%char then
        match role with
        | None => untag rest done (Some cur) ""
        | Some _ => inr "invalid character"
        end
      else if Ascii.eqb a ";"%char then
        match role with
        | Some r => untag rest (done ++ [{| llm.Role := r; llm.Content := cur |}]) None ""
        | None => inr "invalid character"
        end
      else inr "invalid character"
  end.

Definition tagged : Codec :=
  {| Marshal := fun M => inl (String.concat "" (map tag_message M));
     Unmarshal := fun data => untag data [] None "" |}.

End json.

(** ** package session *)

Module session.
Import Go.

Record manager := {
  path : string;
  maxMessages : Z
}.

Definition NewManager (path : string) (maxMessages : Z) (fs : gmap string os.node)
    : (option manager * error) * gmap string os.node :=
  let path := if String.eqb path "" then "./data/sessions" else path in
  let maxMessages := if maxMessages =? 0 then 50 else maxMessages in
  match os.MkdirAll fs path with
  | (Some err, fs') =>
      ((None, Errorf_w "failed to create session directory: " (os.PathError_Error err)), fs')
  | (None, fs') =>
      ((Some {| path := path; maxMessages := maxMessages |}, None), fs')
  end.

Definition sessionPath (m : manager) (userID : Z) : string :=
  os.filepath_Join (path m) (Sprintf_d userID +:+ ".json").

Section Store.
Variable codec : json.Codec.

Definition Get (m : manager) (userID : Z) (fs : gmap string os.node)
    : list llm.Message * error :=
  let path := sessionPath m userID in
  let '(data, err) := os.ReadFile fs path in
  if os.IsNotExist err then ([], None)
  else
    match err with
    | Some e => ([], Errorf_w "failed to read session: " (os.PathError_Error e))
    | None =>
        match json.Unmarshal codec data with
        | inr e => ([], Errorf_w "failed to parse session: " e)
        | inl messages => (messages, None)
        end
    end.

Definition Save (m : manager) (userID : Z) (messages : list llm.Message)
    (fs : gmap string os.node) : error * gmap string os.node :=
  let messages :=
    if (0 <? maxMessages m) && (maxMessages m <? Z.of_nat (length messages)) then
      drop (Z.to_nat (Z.of_nat (length messages) - maxMessages m)) messages
    else messages in
  match json.Marshal codec messages with
  | inr e => (Errorf_w "failed to marshal session: " e, fs)
  | inl data =>
      let path := sessionPath m userID in
      match os.WriteFile fs path data with
      | (Some err, fs') =>
          (Errorf_w "failed to write session: " (os.PathError_Error err), fs')
      | (None, fs') => (None, fs')
      end
  end.

Definition Delete (m : manager) (userID : Z) (fs : gmap string os.node)
    : error * gmap string os.node :=
  let path := sessionPath m userID in
  let '(err, fs') := os.Remove fs path in
  if os.IsNotExist err then (None, fs')
  else
    match err with
    | Some e => (Errorf_w "failed to delete session: " (os.PathError_Error e), fs')
    | None => (None, fs')
    end.

End Store.

End session.


(** ** Concrete values the properties are run on *)

Module examples.
Import config sdk llm.

Definition background : Context := {| ctx_done := false |}.

(** A backend that answers every chat completion with zero choices and
    every Anthropic request with one text block. *)
Definition quiet : Remote :=
  {| chat_completions := fun _ _ _ => inl {| Choices := [] |};
     messages := fun _ _ _ => inl {| am_Content := [TextBlock "ok"] |} |}.

Definition off : ProviderConfig := {| Enabled := false; DefaultModel := "" |}.

Definition on (model : string) : ProviderConfig :=
  {| Enabled := true; DefaultModel := model |}.

Definition memory : MemoryConfig := {| Path := ""; MaxMessages := 50 |}.

(** Only the local server is switched on, and no credential is set. *)
Definition ollama_only : Config :=
  {| Providers := {| OpenAI := off; Anthropic := off; OpenRouter := off;
                     OpenCode := off; Ollama := on "llama2" |};
     Memory := memory |}.

Definition all_off : Config :=
  {| Providers := {| OpenAI := off; Anthropic := off; OpenRouter := off;
                     OpenCode := off; Ollama := off |};
     Memory := memory |}.

(** Two hosted backends switched on. *)
Definition two_hosted : Config :=
  {| Providers := {| OpenAI := on "gpt-4"; Anthropic := on "claude-3";
                     OpenRouter := off; OpenCode := off; Ollama := off |};
     Memory := memory |}.

Definition keys : gmap string string :=
  {[ "OPENAI_API_KEY" := "test-key"; "ANTHROPIC_API_KEY" := "test-key" ]}.

Definition claude : anthropicProvider := NewAnthropicProvider_struct two_hosted keys.

Definition gpt : openAIProvider := NewOpenAIProvider_struct two_hosted keys.

Definition gpt_off : openAIProvider := NewOpenAIProvider_struct two_hosted ∅.

Definition msg (role content : string) : Message :=
  {| Role := role; Content := content |}.

Definition five : list Message :=
  [msg "user" "msg1"; msg "assistant" "msg2"; msg "user" "msg3";
   msg "assistant" "msg4"; msg "user" "msg5"].

Definition mock (name : string) (enabled : bool) : Provider :=
  mockProvider_iface {| mock_name := name; mock_enabled := enabled;
                        mock_response := ""; mock_err := None |}.

(** "default disabled fallback to first enabled" of router_test.go. *)
Definition fallback_router : router :=
  newRouter [mock "openai" true; mock "anthropic" false] 1.

Definition store3 : session.manager :=
  {| session.path := "data"; session.maxMessages := 3 |}.

Definition store_neg : session.manager :=
  {| session.path := "data"; session.maxMessages := -1 |}.

End examples.

(** ** Vocabulary of the statements *)

Module spec.
Import config sdk llm.

(** A role outside the three-letter alphabet. *)
Definition unrecognized (role : string) : Prop :=
  role <> "system" /\ role <> "user" /\ role <> "assistant".

(** The index is set and the provider there reports enabled. *)
Definition default_usable (r : router) (p : Provider) : Prop :=
  0 <= defaultIdx r
  /\ providers r !! Z.to_nat (defaultIdx r) = Some p
  /\ IsEnabled p = true.

(** [p] is the first enabled provider of [ps], at position [i]. *)
Definition first_enabled (ps : list Provider) (i : nat) (p : Provider) : Prop :=
  ps !! i = Some p
  /\ IsEnabled p = true
  /\ forall j q, (j < i)%nat -> ps !! j = Some q -> IsEnabled q = false.

(** The backends in the order [NewRouter] visits them, each with its
    configured flag and its constructor. *)
Definition declaration_order (cfg : Config) (env : gmap string string)
    : list (bool * Provider) :=
  [ (Enabled (OpenAI (Providers cfg)), NewOpenAIProvider cfg env);
    (Enabled (Anthropic (Providers cfg)), NewAnthropicProvider cfg env);
    (Enabled (Ollama (Providers cfg)), NewOllamaProvider cfg env);
    (Enabled (OpenRouter (Providers cfg)), NewOpenRouterProvider cfg env);
    (Enabled (OpenCode (Providers cfg)), NewOpenCodeProvider cfg env) ].

(** The providers of the backends whose flag is set, in that order. *)
Definition constructed (cfg : Config) (env : gmap string string) : list Provider :=
  map snd (filter (fun fp => fst fp = true) (declaration_order cfg env)).

(** The last [k] elements of [M], in their original order (all of [M]
    when it has no more than [k]). *)
Definition trailing (k : nat) (M : list Message) : list Message :=
  drop (length M - k) M.

End spec.

(** ** The interfaces the bot is written against *)

Module interfaces.
Import Go sdk.

(** [llm.Router] (router.go). *)
Record Router := {
  GetProvider : option llm.Provider * error;
  SendMessage : Context -> list llm.Message -> Net (string * error)
}.

(** [session.Manager] (manager.go). *)
Record Manager := {
  Get : Z -> gmap string os.node -> list llm.Message * error;
  Save : Z -> list llm.Message -> gmap string os.node -> error * gmap string os.node;
  Delete : Z -> gmap string os.node -> error * gmap string os.node
}.

(** [*router] implements [Router]. *)
Definition router_Router (r : llm.router) : Router :=
  {| GetProvider := llm.router_GetProvider r;
     SendMessage := llm.router_SendMessage r |}.

(** [*manager] implements [Manager]. *)
Definition manager_Manager (codec : json.Codec) (m : session.manager) : Manager :=
  {| Get := session.Get codec m;
     Save := session.Save codec m;
     Delete := session.Delete m |}.

End interfaces.

(** ** go-telegram/bot, the fields and calls the handlers use *)

Module models.

Record User := { ID : Z }.

Record Chat := { Chat_ID : Z }.

(** [From] is a pointer in the library: [None] is nil. *)
Record Message := { From : option User; Chat_ : Chat; Text : string }.

Record CallbackQuery := { CallbackQuery_From : User }.

(** The three optional parts of an update the bot looks at. *)
Record Update := {
  Update_Message : option Message;
  Update_CallbackQuery : option CallbackQuery;
  Update_EditedMessage : option Message
}.

Definition ParseModeMarkdown : string := "Markdown".

Definition ChatActionTyping : string := "typing".

End models.

Module tgbot.

Record SendMessageParams := {
  ChatID : Z;
  Text : string;
  ParseMode : string
}.

Record SendChatActionParams := {
  Action_ChatID : Z;
  Action : string
}.

End tgbot.

(** ** package bot *)

Module bot.
Import Go sdk interfaces models tgbot.

(** What a handler does to the outside, besides the session files and the
    LLM requests: calls on the sender and lines written with [log.Printf]. *)
Inductive Event :=
| Sent (p : SendMessageParams)
| ChatAction (p : SendChatActionParams)
| Logged (line : string).

(** Everything a handler can change. *)
Record World := {
  files : gmap string os.node;
  wire : list Request;
  out : list Event
}.

Definition emit (e : Event) (w : World) : World :=
  {| files := files w; wire := wire w; out := out w ++ [e] |}.

(** The [b any] argument of a handler. *)
Inductive BotArg :=
| TgBot       (* a [*tgbot.Bot] *)
| Sender      (* some other [BotSender] *)
| NotASender. (* anything else, nil included *)

(** The [switch v := b.(type)] every handler starts with: whether
    [sender] ends up non-nil. *)
Definition has_sender (b : BotArg) : bool :=
  match b with
  | TgBot => true
  | Sender => true
  | NotASender => false
  end.

Record Handlers := {
  router : Router;
  sessionManager : Manager;
  allowedUsers : list Z
}.

Definition NewHandlers (router : Router) (sessionManager : Manager)
    (allowedUsers : list Z) : Handlers :=
  {| router := router; sessionManager := sessionManager;
     allowedUsers := allowedUsers |}.

Definition timestamp : string := "2024-01-01 00:00:00".

(** [contains]: the loop [for i := 0; i <= len(s)-len(substr); i++], run
    for its [k] remaining iterations from index [i]. *)
Fixpoint contains_loop (k : nat) (i : nat) (s substr : string) : bool :=
  match k with
  | O => false
  | S k' =>
      if String.eqb (String.substring i (String.length substr) s) substr then true
      else contains_loop k' (S i) s substr
  end.

Definition contains (s substr : string) : bool :=
  contains_loop
    (Z.to_nat (Z.of_nat (String.length s) - Z.of_nat (String.length substr) + 1))
    0 s substr.

(** [update.Message.From.ID]: [None] is the nil-pointer panic. *)
Definition Message_From_ID (msg : Message) : option Z :=
  match From msg with
  | Some u => Some (ID u)
  | None => None
  end.

(** The user id [checkAuth] extracts; [None] is a nil-pointer panic. *)
Definition checkAuth_userID (update : Update) : option Z :=
  match Update_Message update with
  | Some msg => Message_From_ID msg
  | None =>
      match Update_CallbackQuery update with
      | Some cq => Some (ID (CallbackQuery_From cq))
      | None =>
          match Update_EditedMessage update with
          | Some em => Message_From_ID em
          | None => Some 0
          end
      end
  end.

(** [checkAuth]: the verdict and the world with the line it may log;
    [None] is a panic. *)
Definition checkAuth (h : Handlers) (update : Update) (w : World)
    : option (bool * World) :=
  if Z.of_nat (length (allowedUsers h)) =? 0 then Some (true, w)
  else
    match checkAuth_userID update with
    | None => None
    | Some userID =>
        if userID =? 0 then
          Some (false,
                emit (Logged ("[" +:+ timestamp
                              +:+ "] Unauthorized access attempt: missing user info")) w)
        else if existsb (fun allowed => userID =? allowed) (allowedUsers h) then
          Some (true, w)
        else
          Some (false,
                emit (Logged ("[" +:+ timestamp
                              +:+ "] Unauthorized access attempt from user "
                              +:+ Sprintf_d userID)) w)
    end.

Definition say (chatID : Z) (text : string) (w : World) : World :=
  emit (Sent {| ChatID := chatID; Text := text; ParseMode := "" |}) w.

(** The part all six handlers share: resolve the sender, check the user,
    then run [body] on the message of the update.  Reading
    [update.Message] panics when it is nil. *)
Definition guarded (h : Handlers) (b : BotArg) (update : Update) (w : World)
    (body : Message -> World -> option World) : option World :=
  if negb (has_sender b) then Some w
  else
    match checkAuth h update w with
    | None => None
    | Some (false, w) => Some w
    | Some (true, w) =>
        match Update_Message update with
        | None => None
        | Some msg => body msg w
        end
    end.

Definition nl : string := String (Ascii.ascii_of_nat 10) EmptyString.

Definition welcome_text : string :=
  "Welcome to Helpi! I'm here to help you interact with AI models." +:+ nl +:+ nl
  +:+ "Available commands:" +:+ nl
  +:+ "/start - Show this welcome message" +:+ nl
  +:+ "/help - Get detailed help" +:+ nl
  +:+ "/myid - Get your Telegram ID" +:+ nl
  +:+ "/model - Show current model info" +:+ nl
  +:+ "/clear - Clear your conversation history" +:+ nl +:+ nl
  +:+ "Just send me a message and I'll respond using the configured AI provider.".

Definition help_text : string :=
  "Available commands:" +:+ nl +:+ nl
  +:+ "/start - Welcome message" +:+ nl
  +:+ "/help - Show this help message" +:+ nl
  +:+ "/myid - Get your Telegram user ID" +:+ nl
  +:+ "/model - Display current active provider and all available providers" +:+ nl
  +:+ "/clear - Clear your conversation history" +:+ nl +:+ nl
  +:+ "How it works:" +:+ nl
  +:+ "- Send me any message and I'll forward it to the AI" +:+ nl
  +:+ "- Your conversation history is preserved between messages" +:+ nl
  +:+ "- Use /clear to start a fresh conversation".

Definition StartHandler (h : Handlers) (ctx : Context) (b : BotArg)
    (update : Update) (R : Remote) (w : World) : option World :=
  guarded h b update w (fun msg w =>
    Some (say (Chat_ID (Chat_ msg)) welcome_text w)).

Definition HelpHandler (h : Handlers) (ctx : Context) (b : BotArg)
    (update : Update) (R : Remote) (w : World) : option World :=
  guarded h b update w (fun msg w =>
    Some (say (Chat_ID (Chat_ msg)) help_text w)).

Definition MyIDHandler (h : Handlers) (ctx : Context) (b : BotArg)
    (update : Update) (R : Remote) (w : World) : option World :=
  guarded h b update w (fun msg w =>
    let chatID := Chat_ID (Chat_ msg) in
    match Message_From_ID msg with
    | None => None
    | Some id =>
        Some (emit (Sent {| ChatID := chatID;
                            Text := "Your Telegram ID: `" +:+ Sprintf_d id +:+ "`";
                            ParseMode := ParseModeMarkdown |}) w)
    end).

Definition ModelHandler (h : Handlers) (ctx : Context) (b : BotArg)
    (update : Update) (R : Remote) (w : World) : option World :=
  guarded h b update w (fun msg w =>
    match GetProvider (router h) with
    | (_, Some _) =>
        Some (say (Chat_ID (Chat_ msg)) "Error: No LLM provider enabled" w)
    | (Some provider, None) =>
        Some (say (Chat_ID (Chat_ msg))
                ("Active provider: " +:+ llm.Name provider) w)
    | (None, None) => None
    end).

Definition ClearHandler (h : Handlers) (ctx : Context) (b : BotArg)
    (update : Update) (R : Remote) (w : World) : option World :=
  guarded h b update w (fun msg w =>
    match Message_From_ID msg with
    | None => None
    | Some userID =>
        let '(err, fs) := Delete (sessionManager h) userID (files w) in
        let w := {| files := fs; wire := wire w; out := out w |} in
        match err with
        | Some e =>
            Some (say (Chat_ID (Chat_ msg)) ("Error clearing session: " +:+ e) w)
        | None =>
            Some (say (Chat_ID (Chat_ msg)) "Conversation history cleared." w)
        end
    end).

Definition TextMessageHandler (h : Handlers) (ctx : Context) (b : BotArg)
    (update : Update) (R : Remote) (w : World) : option World :=
  guarded h b update w (fun msg w =>
    match Message_From_ID msg with
    | None => None
    | Some userID =>
        let chatID := Chat_ID (Chat_ msg) in
        let w := emit (ChatAction {| Action_ChatID := chatID;
                                     Action := ChatActionTyping |}) w in
        let '(messages, err) := Get (sessionManager h) userID (files w) in
        match err with
        | Some _ => Some (say chatID "Error loading conversation history" w)
        | None =>
            let messages :=
              messages ++ [{| llm.Role := "user"; llm.Content := models.Text msg |}] in
            let '((response, err), wire') :=
              SendMessage (router h) ctx messages R (wire w) in
            let w := {| files := files w; wire := wire'; out := out w |} in
            match err with
            | Some e =>
                if contains e "no LLM provider enabled" then
                  Some (say chatID "No LLM provider enabled. Please check configuration." w)
                else if contains e "timeout" || contains e "context deadline" then
                  Some (say chatID "Request timed out. Please try again." w)
                else if contains e "context canceled" then Some w
                else Some (say chatID "Error communicating with AI" w)
            | None =>
                if String.eqb response "" then
                  Some (say chatID "Empty response from AI" w)
                else
                  let messages :=
                    messages ++ [{| llm.Role := "assistant"; llm.Content := response |}] in
                  let '(err, fs) := Save (sessionManager h) userID messages (files w) in
                  let w := {| files := fs; wire := wire w; out := out w |} in
                  let w :=
                    match err with
                    | Some e =>
                        emit (Logged ("Failed to save session for user "
                                      +:+ Sprintf_d userID +:+ ": " +:+ e)) w
                    | None => w
                    end in
                  Some (say chatID response w)
            end
        end
    end).

End bot.

(** ** package config: loader.go *)

Module loader.
Import Go.

(** [ConfigError] *)
Record ConfigError := { Field : string; Message : string; Path : string }.

Definition ConfigError_Error (e : ConfigError) : string :=
  if negb (String.eqb (Path e) "") then
    Field e +:+ ": " +:+ Message e +:+ " (path: " +:+ Path e +:+ ")"
  else if negb (String.eqb (Field e) "") then
    Field e +:+ ": " +:+ Message e
  else Message e.

(** The whole of [config.Config]: the providers and memory sections the
    other packages read ([core]), the Telegram token, the allow-list (a
    nil slice is [None]) and the API keys map. *)
Record Config := {
  Telegram_Token : string;
  AllowedUsers : option (list Z);
  core : config.Config;
  APIKeys : gmap string string
}.

Definition set_Token (t : string) (cfg : Config) : Config :=
  {| Telegram_Token := t; AllowedUsers := AllowedUsers cfg;
     core := core cfg; APIKeys := APIKeys cfg |}.

Definition set_APIKey (k v : string) (cfg : Config) : Config :=
  {| Telegram_Token := Telegram_Token cfg; AllowedUsers := AllowedUsers cfg;
     core := core cfg; APIKeys := <[k := v]> (APIKeys cfg) |}.

Definition set_Memory (mem : config.MemoryConfig) (cfg : Config) : Config :=
  {| Telegram_Token := Telegram_Token cfg; AllowedUsers := AllowedUsers cfg;
     core := {| config.Providers := config.Providers (core cfg);
                config.Memory := mem |};
     APIKeys := APIKeys cfg |}.

(** [cfg.APIKeys[k]]: the empty string for a missing key. *)
Definition APIKey (cfg : Config) (k : string) : string :=
  default "" (APIKeys cfg !! k).

(** What the loader takes from the platform and from libraries:
    [strings.TrimSpace], [os.Getwd], [os.Executable], [filepath.Dir],
    [yaml.Unmarshal] into a [Config], and [godotenv.Load], which reads a
    file and returns the process environment it leaves behind. *)
Record Platform := {
  TrimSpace : string -> string;
  Getwd : string + string;
  Executable : string + string;
  filepath_Dir : string -> string;
  yaml_Unmarshal : string -> Config + string;
  godotenv_Load :
    gmap string os.node -> string -> gmap string string
    -> gmap string string * error
}.

(** [os.Stat(name)]: the error only. *)
Definition Stat (fs : gmap string os.node) (name : string) : option os.PathError :=
  match fs !! name with
  | None => Some {| os.Op := "stat"; os.Path := name; os.Err := os.ENOENT |}
  | Some _ => None
  end.

Definition provider_model_check (pc : config.ProviderConfig) (field : string)
    : option ConfigError :=
  if config.Enabled pc && String.eqb (config.DefaultModel pc) "" then
    Some {| Field := field; Message := "is required when provider is enabled";
            Path := "" |}
  else None.

Definition validateAPIKeys (cfg : Config) : Config * option ConfigError :=
  let P := config.Providers (core cfg) in
  if config.Enabled (config.OpenAI P) && String.eqb (APIKey cfg "OPENAI_API_KEY") "" then
    (cfg, Some {| Field := "OPENAI_API_KEY";
                  Message := "is required when openai provider is enabled";
                  Path := "" |})
  else if config.Enabled (config.Anthropic P)
          && String.eqb (APIKey cfg "ANTHROPIC_API_KEY") "" then
    (cfg, Some {| Field := "ANTHROPIC_API_KEY";
                  Message := "is required when anthropic provider is enabled";
                  Path := "" |})
  else if config.Enabled (config.OpenRouter P)
          && String.eqb (APIKey cfg "OPENROUTER_API_KEY") "" then
    (cfg, Some {| Field := "OPENROUTER_API_KEY";
                  Message := "is required when openrouter provider is enabled";
                  Path := "" |})
  else if config.Enabled (config.OpenCode P)
          && String.eqb (APIKey cfg "OPENCODE_API_KEY") "" then
    (cfg, Some {| Field := "OPENCODE_API_KEY";
                  Message := "is required when opencode provider is enabled";
                  Path := "" |})
  else
    let cfg :=
      if String.eqb (APIKey cfg "OLLAMA_BASE_URL") "" then
        set_APIKey "OLLAMA_BASE_URL" "http://localhost:11434" cfg
      else cfg in
    (cfg, None).

Section WithPlatform.
Variable P : Platform.

(** [validateConfig]: the configuration as the call leaves it (the token
    is trimmed in place first) and the error. *)
Definition validateConfig (cfg : Config) : Config * option ConfigError :=
  let cfg := set_Token (TrimSpace P (Telegram_Token cfg)) cfg in
  if String.eqb (Telegram_Token cfg) "" then
    (cfg, Some {| Field := "telegram.token";
                  Message := "is required and cannot be empty"; Path := "" |})
  else
    match AllowedUsers cfg with
    | None =>
        (cfg, Some {| Field := "allowed_users";
                      Message := "is required and cannot be nil"; Path := "" |})
    | Some users =>
        if existsb (fun userID => userID <=? 0) users then
          (cfg, Some {| Field := "allowed_users";
                        Message := "each user ID must be a positive integer";
                        Path := "" |})
        else
          let PV := config.Providers (core cfg) in
          match provider_model_check (config.OpenAI PV) "providers.openai.default_model" with
          | Some e => (cfg, Some e)
          | None =>
          match provider_model_check (config.Anthropic PV)
                  "providers.anthropic.default_model" with
          | Some e => (cfg, Some e)
          | None =>
          match provider_model_check (config.OpenRouter PV)
                  "providers.openrouter.default_model" with
          | Some e => (cfg, Some e)
          | None =>
          match provider_model_check (config.OpenCode PV)
                  "providers.opencode.default_model" with
          | Some e => (cfg, Some e)
          | None =>
              if config.MaxMessages (config.Memory (core cfg)) <? 1 then
                (cfg, Some {| Field := "memory.max_messages";
                              Message := "must be >= 1"; Path := "" |})
              else validateAPIKeys cfg
          end end end end
    end.

Definition findConfigDir (fs : gmap string os.node) : string * option ConfigError :=
  match Getwd P with
  | inr _ =>
      ("", Some {| Field := ""; Message := "failed to get current working directory";
                   Path := "" |})
  | inl cwd =>
      let configPath := os.filepath_Join cwd "config.yaml" in
      match Stat fs configPath with
      | None => (cwd, None)
      | Some _ =>
          match Executable P with
          | inr _ =>
              ("", Some {| Field := ""; Message := "failed to get executable path";
                           Path := "" |})
          | inl exePath =>
              let exeDir := filepath_Dir P exePath in
              let exeConfigPath := os.filepath_Join exeDir "config.yaml" in
              match Stat fs exeConfigPath with
              | None => (exeDir, None)
              | Some _ =>
                  ("", Some {| Field := ""; Message := "config.yaml not found";
                               Path := cwd |})
              end
          end
      end
  end.

Definition loadYAML (fs : gmap string os.node) (dir : string)
    : option Config * option ConfigError :=
  let path := os.filepath_Join dir "config.yaml" in
  match os.ReadFile fs path with
  | (_, Some err) =>
      if os.IsNotExist (Some err) then
        (None, Some {| Field := ""; Message := "config.yaml not found"; Path := path |})
      else
        (None, Some {| Field := ""; Message := "failed to read config file";
                       Path := path |})
  | (data, None) =>
      if Z.of_nat (String.length (TrimSpace P data)) =? 0 then
        (None, Some {| Field := ""; Message := "config.yaml is empty"; Path := path |})
      else
        match yaml_Unmarshal P data with
        | inr e =>
            (None, Some {| Field := ""; Message := "failed to parse YAML: " +:+ e;
                           Path := path |})
        | inl cfg =>
            (Some {| Telegram_Token := Telegram_Token cfg;
                     AllowedUsers := AllowedUsers cfg;
                     core := core cfg; APIKeys := ∅ |}, None)
        end
  end.

(** [loadEnv]: the configuration and process environment it leaves, and
    the error. *)
Definition loadEnv (fs : gmap string os.node) (env : gmap string string)
    (dir : string) (cfg : Config)
    : (Config * gmap string string) * option ConfigError :=
  let envPath := os.filepath_Join dir ".env" in
  if os.IsNotExist (Stat fs envPath) then
    let cfg :=
      if negb (String.eqb (Getenv env "TELEGRAM_BOT_TOKEN") "") then
        set_Token (Getenv env "TELEGRAM_BOT_TOKEN") cfg
      else cfg in
    ((cfg, env), None)
  else
    match godotenv_Load P fs envPath env with
    | (env, Some e) =>
        ((cfg, env),
         Some {| Field := ""; Message := "failed to parse .env file: " +:+ e;
                 Path := envPath |})
    | (env, None) =>
        let cfg :=
          if negb (String.eqb (Getenv env "TELEGRAM_BOT_TOKEN") "") then
            set_Token (Getenv env "TELEGRAM_BOT_TOKEN") cfg
          else cfg in
        let cfg := set_APIKey "OPENAI_API_KEY" (Getenv env "OPENAI_API_KEY") cfg in
        let cfg := set_APIKey "ANTHROPIC_API_KEY" (Getenv env "ANTHROPIC_API_KEY") cfg in
        let cfg := set_APIKey "OPENROUTER_API_KEY" (Getenv env "OPENROUTER_API_KEY") cfg in
        let cfg := set_APIKey "OPENCODE_API_KEY" (Getenv env "OPENCODE_API_KEY") cfg in
        let cfg := set_APIKey "OLLAMA_BASE_URL" (Getenv env "OLLAMA_BASE_URL") cfg in
        ((cfg, env), None)
    end.

(** [Load]: the configuration, the error, and the process environment
    after the call. *)
Definition Load (fs : gmap string os.node) (env : gmap string string)
    : (option Config * option ConfigError) * gmap string string :=
  match findConfigDir fs with
  | (_, Some err) => ((None, Some err), env)
  | (dir, None) =>
      match loadYAML fs dir with
      | (_, Some err) => ((None, Some err), env)
      | (None, None) => ((None, None), env)
      | (Some cfg, None) =>
          match loadEnv fs env dir cfg with
          | ((_, env), Some err) => ((None, Some err), env)
          | ((cfg, env), None) =>
              match validateConfig cfg with
              | (_, Some err) => ((None, Some err), env)
              | (cfg, None) =>
                  let mem := config.Memory (core cfg) in
                  let mem :=
                    if String.eqb (config.Path mem) "" then
                      {| config.Path := "./data/sessions";
                         config.MaxMessages := config.MaxMessages mem |}
                    else mem in
                  let mem :=
                    if config.MaxMessages mem =? 0 then
                      {| config.Path := config.Path mem; config.MaxMessages := 50 |}
                    else mem in
                  ((Some (set_Memory mem cfg), None), env)
              end
          end
      end
  end.

End WithPlatform.

End loader.

(** ** cmd/bot/main.go *)

Module main.

(** [maskToken]: what the start-up log line shows of the token. *)
Definition maskToken (token : string) : string :=
  if Z.of_nat (String.length token) <=? 10 then "****"
  else
    String.substring 0 5 token +:+ "..."
    +:+ String.substring (Z.to_nat (Z.of_nat (String.length token) - 5)) 5 token.

End main.

(** ** Further vocabulary and values *)

Module vocab.
Import config sdk llm.

(** The role a chat turn gets: system and assistant are kept, everything
    else is a user turn. *)
Definition native_role (role : string) : string :=
  if String.eqb role "system" then "system"
  else if String.eqb role "assistant" then "assistant"
  else "user".

(** The five names the factory knows. *)
Definition known_names : list string :=
  ["openai"; "anthropic"; "ollama"; "openrouter"; "opencode"].

(** The environment variable a hosted provider reads its key from. *)
Definition hosted_keys : list string :=
  ["OPENAI_API_KEY"; "ANTHROPIC_API_KEY"; "OPENROUTER_API_KEY"; "OPENCODE_API_KEY"].

End vocab.

Module scenarios.
Import config sdk llm.

(** A backend that is down: every request fails. *)
Definition down : Remote :=
  {| chat_completions := fun _ _ _ => inr "connection refused";
     messages := fun _ _ _ => inr "connection refused" |}.

(** A backend that answers with two choices / three blocks. *)
Definition chatty : Remote :=
  {| chat_completions := fun _ _ _ =>
       inl {| Choices := [ {| choice_Content := "first" |};
                           {| choice_Content := "second" |} ] |};
     messages := fun _ _ _ =>
       inl {| am_Content := [TextBlock "Hel"; OtherBlock; TextBlock "lo"] |} |}.

(** The file system [NewManager "data" 3] leaves behind when started on
    an empty one: the session directory exists. *)
Definition data_dir : gmap string os.node :=
  snd (session.NewManager "data" 3 ∅).

(** Hosted backends flagged, but no credential anywhere. *)
Definition flagged_without_keys : Config := examples.two_hosted.

End scenarios.

Module chat.
Import Go sdk interfaces models tgbot bot.

(** [makeUpdate] of handlers_test.go. *)
Definition makeUpdate (userID chatID : Z) (text : string) : Update :=
  {| Update_Message :=
       Some {| From := Some {| ID := userID |};
               Chat_ := {| Chat_ID := chatID |};
               models.Text := text |};
     Update_CallbackQuery := None;
     Update_EditedMessage := None |}.

(** The router [NewRouter] builds from two flagged hosted backends with
    their keys set, and the store of limit 3. *)
Definition live_router : llm.router :=
  llm.newRouter (spec.constructed examples.two_hosted examples.keys) 0.

Definition dead_router : llm.router :=
  llm.newRouter (spec.constructed examples.two_hosted ∅) 0.

Definition handlers (r : llm.router) (allowed : list Z) : Handlers :=
  NewHandlers (router_Router r) (manager_Manager json.tagged examples.store3) allowed.

Definition fresh : World := {| files := ∅; wire := []; out := [] |}.

(** A world where a directory sits at the session path of user 9. *)
Definition blocked : World :=
  {| files := {[ session.sessionPath examples.store3 9 := os.Directory ]};
     wire := []; out := [] |}.

(** A world where the session directory exists and user 9 has a stored
    session of one message. *)
Definition with_history : World :=
  {| files := <[ session.sessionPath examples.store3 9 := os.RegularFile "cucscecr,chci;" ]>
                scenarios.data_dir;
     wire := []; out := [] |}.

End chat.

(** ** Vocabulary and values for the loader *)

Module rules.
Import config loader.

(** What [validateConfig] asks of a configuration. *)
Definition Valid (P : Platform) (cfg : Config) : Prop :=
  TrimSpace P (Telegram_Token cfg) <> ""
  /\ (exists users, AllowedUsers cfg = Some users /\ forall u, u ∈ users -> 0 < u)
  /\ (Enabled (OpenAI (Providers (core cfg))) = true ->
        DefaultModel (OpenAI (Providers (core cfg))) <> ""
        /\ APIKey cfg "OPENAI_API_KEY" <> "")
  /\ (Enabled (Anthropic (Providers (core cfg))) = true ->
        DefaultModel (Anthropic (Providers (core cfg))) <> ""
        /\ APIKey cfg "ANTHROPIC_API_KEY" <> "")
  /\ (Enabled (OpenRouter (Providers (core cfg))) = true ->
        DefaultModel (OpenRouter (Providers (core cfg))) <> ""
        /\ APIKey cfg "OPENROUTER_API_KEY" <> "")
  /\ (Enabled (OpenCode (Providers (core cfg))) = true ->
        DefaultModel (OpenCode (Providers (core cfg))) <> ""
        /\ APIKey cfg "OPENCODE_API_KEY" <> "")
  /\ 1 <= MaxMessages (Memory (core cfg)).

(** No hosted backend is switched on. *)
Definition hosted_off (c : config.Config) : Prop :=
  Enabled (OpenAI (Providers c)) = false
  /\ Enabled (Anthropic (Providers c)) = false
  /\ Enabled (OpenRouter (Providers c)) = false
  /\ Enabled (OpenCode (Providers c)) = false.

End rules.

Module desk.
Import config loader.

(** Drops leading blanks. *)
Fixpoint ltrim (s : string) : string :=
  match s with
  | String c s' => if Ascii.eqb c " "%char then ltrim s' else s
  | EmptyString => EmptyString
  end.

(** The configuration the YAML file of the example holds. *)
Definition yaml_config : Config :=
  {| Telegram_Token := " test-token";
     AllowedUsers := Some [123456789; 987654321];
     core := {| Providers := {| OpenAI := examples.on "gpt-4"; Anthropic := examples.off;
                                OpenRouter := examples.off; OpenCode := examples.off;
                                Ollama := examples.off |};
                Memory := {| config.Path := ""; config.MaxMessages := 20 |} |};
     APIKeys := ∅ |}.

(** A platform whose working directory is /app, whose YAML parser knows
    one file, and whose .env file sets the OpenAI key. *)
Definition platform : Platform :=
  {| TrimSpace := ltrim;
     Getwd := inl "/app";
     Executable := inl "/usr/bin/helpi";
     filepath_Dir := fun _ => "/usr/bin";
     yaml_Unmarshal := fun data =>
       if String.eqb data "config" then inl yaml_config else inr "yaml: bad document";
     godotenv_Load := fun _ _ env =>
       (<["OPENAI_API_KEY" := "sk-test"]> env, None) |}.

(** A configuration with only the local server switched on, and the
    platform whose parser yields it. *)
Definition yaml_local : Config :=
  {| Telegram_Token := "test-token";
     AllowedUsers := Some [];
     core := examples.ollama_only;
     APIKeys := ∅ |}.

Definition platform_local : Platform :=
  {| TrimSpace := ltrim;
     Getwd := inl "/app";
     Executable := inl "/usr/bin/helpi";
     filepath_Dir := fun _ => "/usr/bin";
     yaml_Unmarshal := fun _ => inl yaml_local;
     godotenv_Load := fun _ _ env => (env, None) |}.

Definition disk : gmap string os.node :=
  {[ "/app/config.yaml" := os.RegularFile "config";
     "/app/.env" := os.RegularFile "OPENAI_API_KEY=sk-test" ]}.

(** The same without the .env file. *)
Definition disk_without_env : gmap string os.node :=
  {[ "/app/config.yaml" := os.RegularFile "config" ]}.

End desk.

(** * Properties *)

(** ** Loops and folds *)

Section GoFacts.
Import Go.

Lemma range_assign_app {A B : Type} (f : A -> B) (z : B) (xs : list A) :
  forall pre : list B,
    range_assign f (length pre) xs (pre ++ replicate (length xs) z)
    = pre ++ map f xs.
Proof.
  induction xs as [|x xs IH]; intros pre; simpl.
  - reflexivity.
  - rewrite insert_app_r_alt by lia.
    replace (length pre - length pre)%nat with 0%nat by lia. simpl.
    replace (S (length pre)) with (length (pre ++ [f x])).
    2:{ rewrite length_app. simpl. lia. }
    replace (pre ++ f x :: replicate (length xs) z)
      with ((pre ++ [f x]) ++ replicate (length xs) z)
      by (rewrite <- app_assoc; reflexivity).
    rewrite IH, <- app_assoc. reflexivity.
Qed.

(** The translation loop of the OpenAI-compatible providers is a [map]. *)
Lemma range_assign_make {A B : Type} (f : A -> B) (z : B) (xs : list A) :
  range_assign f 0 xs (make z (length xs)) = map f xs.
Proof. exact (range_assign_app f z xs []). Qed.

End GoFacts.

(** ** Providers *)

Section ProviderFacts.
Import Go config sdk llm spec.

Lemma eqb_ne (a b : string) : a <> b -> String.eqb a b = false.
Proof. intros H. apply String.eqb_neq. exact H. Qed.

Lemma openai_turn_unrecognized (msg : Message) :
  unrecognized (Role msg) ->
  openAIProvider_turn msg = UserMessage (Content msg)
  /\ openRouterProvider_turn msg = UserMessage (Content msg)
  /\ openCodeProvider_turn msg = UserMessage (Content msg)
  /\ ollamaProvider_turn msg = UserMessage (Content msg).
Proof.
  intros (Hs & Hu & Ha).
  unfold openAIProvider_turn, openRouterProvider_turn, openCodeProvider_turn,
    ollamaProvider_turn.
  rewrite !(eqb_ne _ _ Hs), !(eqb_ne _ _ Hu), !(eqb_ne _ _ Ha). auto.
Qed.

Lemma anthropic_turn_unrecognized (msg : Message) :
  unrecognized (Role msg) ->
  anthropicProvider_turn msg = {| mp_Role := "user"; mp_Content := [Content msg] |}.
Proof.
  intros (Hs & Hu & Ha). unfold anthropicProvider_turn.
  rewrite (eqb_ne _ _ Ha). reflexivity.
Qed.

(** The Anthropic loop: the system variable ends up holding the content
    of the last system message seen (or its initial value), and the turn
    list collects the other messages in order. *)
Lemma anthropic_fold (messages : list Message) :
  forall (sys : string) (conv : list MessageParam),
    fold_left anthropicProvider_step messages (sys, conv)
    = (from_option Content sys
         (last (filter (fun m => Role m = "system") messages)),
       conv ++ map anthropicProvider_turn
                 (filter (fun m => Role m <> "system") messages)).
Proof.
  induction messages as [|msg rest IH]; intros sys conv; simpl.
  - rewrite app_nil_r. reflexivity.
  - destruct (String.eqb_spec (Role msg) "system") as [E|E].
    + rewrite IH. rewrite (filter_cons_True (fun m => Role m = "system")) by exact E.
      rewrite (filter_cons_False (fun m => Role m <> "system")) by tauto.
      f_equal.
      destruct (filter (fun m => Role m = "system") rest) as [|y ys] eqn:F.
      * reflexivity.
      * change (last (msg :: y :: ys)) with (last (y :: ys)).
        pose proof (last_None (y :: ys)) as L.
        destruct (last (y :: ys)); [reflexivity|].
        destruct L as [L _]. specialize (L eq_refl). discriminate.
    + rewrite IH. rewrite (filter_cons_False (fun m => Role m = "system")) by exact E.
      rewrite (filter_cons_True (fun m => Role m <> "system")) by exact E.
      simpl. rewrite <- app_assoc. reflexivity.
Qed.

(** The request the Anthropic provider builds, field by field. *)
Lemma anthropic_params_fields (p : anthropicProvider) (messages : list Message) :
  let params := anthropicProvider_params p messages in
  mn_Model params = anthropic_model p
  /\ mn_MaxTokens params = 1024
  /\ mn_Messages params
     = map anthropicProvider_turn (filter (fun m => Role m <> "system") messages)
  /\ mn_System params
     = match last (filter (fun m => Role m = "system") messages) with
       | Some m => if String.eqb (Content m) "" then [] else [Content m]
       | None => []
       end.
Proof.
  unfold anthropicProvider_params. rewrite anthropic_fold. simpl.
  set (conv := map anthropicProvider_turn _).
  set (l := last _).
  assert (Hsys : (if negb (String.eqb (from_option Content "" l) "")
                  then [from_option Content "" l] else [])
                 = match l with
                   | Some m => if String.eqb (Content m) "" then [] else [Content m]
                   | None => []
                   end).
  { destruct l as [m|]; simpl; [destruct (String.eqb (Content m) "")|]; reflexivity. }
  destruct conv as [|c conv']; simpl;
    destruct (negb (String.eqb (from_option Content "" l) "")) eqn:E;
    simpl; rewrite <- Hsys; auto.
Qed.

End ProviderFacts.

Section ProviderClaims.
Import Go config sdk llm spec.

(** C5.  A provider reports not enabled whenever its configured flag is
    off, and also when the flag is on but its credential is empty; this
    holds for the four hosted backends.  The Ollama provider needs no
    credential: it reports enabled exactly when its flag is set. *)
Theorem IsEnabled_flag_and_credential (cfg : Config) (env : gmap string string) :
  (Enabled (OpenAI (Providers cfg)) = false \/ Getenv env "OPENAI_API_KEY" = "" ->
     IsEnabled (NewOpenAIProvider cfg env) = false)
  /\ (Enabled (Anthropic (Providers cfg)) = false \/ Getenv env "ANTHROPIC_API_KEY" = "" ->
     IsEnabled (NewAnthropicProvider cfg env) = false)
  /\ (Enabled (OpenRouter (Providers cfg)) = false \/ Getenv env "OPENROUTER_API_KEY" = "" ->
     IsEnabled (NewOpenRouterProvider cfg env) = false)
  /\ (Enabled (OpenCode (Providers cfg)) = false \/ Getenv env "OPENCODE_API_KEY" = "" ->
     IsEnabled (NewOpenCodeProvider cfg env) = false)
  /\ IsEnabled (NewOllamaProvider cfg env) = Enabled (Ollama (Providers cfg)).
Proof.
  repeat split; try (intros [H|H]; simpl; rewrite H; simpl;
                     rewrite ?andb_false_r; reflexivity).
Qed.

Lemma IsEnabled_flag_and_credential_witness :
  IsEnabled (NewOpenAIProvider examples.two_hosted ∅) = false
  /\ IsEnabled (NewOllamaProvider examples.ollama_only ∅) = true.
Proof.
  destruct (IsEnabled_flag_and_credential examples.two_hosted ∅) as (H1 & _).
  destruct (IsEnabled_flag_and_credential examples.ollama_only ∅) as (_ & _ & _ & _ & H5).
  split.
  - apply H1. right. reflexivity.
  - rewrite H5. reflexivity.
Defined.

(** C6.  Whatever the concrete provider type, when [IsEnabled()] is false
    [SendMessage] returns the error "<name>: provider not enabled", which
    contains the provider's [Name()], and the request log is unchanged:
    nothing was sent. *)
Theorem disabled_SendMessage_sends_nothing (v : implementation) (ctx : Context)
    (messages : list Message) (R : Remote) (log : list Request) :
  IsEnabled (as_Provider v) = false ->
  exists err,
    SendMessage (as_Provider v) ctx messages R log = (("", Some err), log)
    /\ err = Name (as_Provider v) +:+ ": provider not enabled"
    /\ Contains err (Name (as_Provider v)) = true.
Proof.
  destruct v as [p|p|p|p|p]; simpl; intros H;
    [ unfold openAIProvider_SendMessage; unfold openAIProvider_IsEnabled in H
    | unfold anthropicProvider_SendMessage; unfold anthropicProvider_IsEnabled in H
    | unfold ollamaProvider_SendMessage; unfold ollamaProvider_IsEnabled in H
    | unfold openRouterProvider_SendMessage; unfold openRouterProvider_IsEnabled in H
    | unfold openCodeProvider_SendMessage; unfold openCodeProvider_IsEnabled in H ];
    rewrite H; simpl; eexists; (split; [reflexivity|split; reflexivity]).
Qed.

Lemma disabled_SendMessage_sends_nothing_witness :
  exists err,
    SendMessage (as_Provider (ImplOpenAI examples.gpt_off)) examples.background
      examples.five examples.quiet [] = (("", Some err), [])
    /\ err = "openai" +:+ ": provider not enabled"
    /\ Contains err "openai" = true.
Proof.
  apply (disabled_SendMessage_sends_nothing (ImplOpenAI examples.gpt_off)).
  reflexivity.
Defined.

(** Runs [SendMessage] of an enabled provider, from the hypothesis [H]
    that it is enabled, up to the answer of the backend. *)
Ltac run_enabled H :=
  match type of H with
  | ?e = true => simpl in H; unfold openAIProvider_IsEnabled,
      ollamaProvider_IsEnabled, openRouterProvider_IsEnabled,
      openCodeProvider_IsEnabled, anthropicProvider_IsEnabled in H
  end;
  simpl; unfold openAIProvider_SendMessage, ollamaProvider_SendMessage,
    openRouterProvider_SendMessage, openCodeProvider_SendMessage,
    anthropicProvider_SendMessage;
  rewrite H; simpl; unfold bind, Chat_Completions_New, Messages_New;
  rewrite ?range_assign_make.



(** C8.  Every enabled provider, handed a conversation that contains a
    message whose role is none of system, user, assistant, still issues
    its one request, and in that request the message is a user turn
    carrying the message's content, at the place the message has among
    the translated turns. *)
Theorem unrecognized_role_becomes_user (v : implementation) (ctx : Context)
    (pre post : list Message) (msg : Message) (R : Remote) (log : list Request) :
  unrecognized (Role msg) ->
  IsEnabled (as_Provider v) = true ->
  exists req tpre tpost,
    snd (SendMessage (as_Provider v) ctx (pre ++ msg :: post) R log) = log ++ [req]
    /\ request_turns req = tpre ++ Some ("user", Content msg) :: tpost
    /\ length tpre
       = (if openai_compatible v then length pre
          else length (filter (fun m => Role m <> "system") pre)).
Proof.
  intros Hu He.
  destruct (openai_turn_unrecognized msg Hu) as (T1 & T2 & T3 & T4).
  pose proof (anthropic_turn_unrecognized msg Hu) as T5.
  destruct v as [p|p|p|p|p]; run_enabled He.
  2:{ set (params := anthropicProvider_params p (pre ++ msg :: post)).
      destruct (anthropic_params_fields p (pre ++ msg :: post)) as (_ & _ & HM & _).
      fold params in HM.
      exists (MessagesNew (anthropic_client p) params).
      exists (map (fun mp => Some (mp_Role mp, String.concat "" (mp_Content mp)))
                (map anthropicProvider_turn
                   (filter (fun m => Role m <> "system") pre))).
      exists (map (fun mp => Some (mp_Role mp, String.concat "" (mp_Content mp)))
                (map anthropicProvider_turn
                   (filter (fun m => Role m <> "system") post))).
      split; [|split].
      - destruct (messages R ctx _ _) as [m|e]; [|reflexivity].
        destruct (Z.of_nat (length (am_Content m)) =? 0); reflexivity.
      - simpl. rewrite HM. rewrite filter_app.
        rewrite (filter_cons_True (fun m => Role m <> "system")) by apply Hu.
        rewrite !map_app, !map_cons, T5. reflexivity.
      - rewrite !length_map. reflexivity. }
  all: eexists _, (map union_turn (map _ pre)), (map union_turn (map _ post));
    (split; [|split];
     [ destruct (chat_completions R ctx _ _) as [resp|e];
       [destruct (Choices resp)|]; reflexivity
     | cbn [request_turns cc_Messages]; rewrite !map_app, !map_cons;
       rewrite ?T1, ?T2, ?T3, ?T4; reflexivity
     | rewrite !length_map; reflexivity ]).
Qed.

Lemma unrecognized_role_becomes_user_witness :
  exists req tpre tpost,
    snd (SendMessage (as_Provider (ImplAnthropic examples.claude)) examples.background
           ([examples.msg "system" "be brief"; examples.msg "user" "hi"]
            ++ examples.msg "tool" "42" :: [examples.msg "assistant" "ok"])
           examples.quiet [])
    = [] ++ [req]
    /\ request_turns req = tpre ++ Some ("user", "42") :: tpost
    /\ length tpre = 1%nat.
Proof.
  apply (unrecognized_role_becomes_user (ImplAnthropic examples.claude)
           examples.background
           [examples.msg "system" "be brief"; examples.msg "user" "hi"]
           [examples.msg "assistant" "ok"] (examples.msg "tool" "42")).
  - repeat split; discriminate.
  - reflexivity.
Defined.

End ProviderClaims.

Section AnthropicSystemField.
Import Go config sdk llm spec.

(** C1, as amended.  An enabled Anthropic provider sends one request.
    Its turn list is the translation of exactly the messages whose role
    is not system, in order, so no turn carries the system role.  Its
    system field holds the content of the last system-role message only:
    one block with that content, or no block when that content is empty
    or the conversation has no system message. *)
Theorem anthropic_system_is_last_system_message (p : anthropicProvider)
    (ctx : Context) (messages : list Message) (R : Remote) (log : list Request) :
  anthropicProvider_IsEnabled p = true ->
  exists params,
    snd (anthropicProvider_SendMessage p ctx messages R log)
    = log ++ [MessagesNew (anthropic_client p) params]
    /\ mn_Messages params
       = map anthropicProvider_turn (filter (fun m => Role m <> "system") messages)
    /\ (forall t, t ∈ mn_Messages params -> mp_Role t <> "system")
    /\ mn_System params
       = match last (filter (fun m => Role m = "system") messages) with
         | Some m => if String.eqb (Content m) "" then [] else [Content m]
         | None => []
         end
    /\ request_system (MessagesNew (anthropic_client p) params)
       = Some (from_option Content ""
                 (last (filter (fun m => Role m = "system") messages))).
Proof.
  intros He. unfold anthropicProvider_IsEnabled in He.
  exists (anthropicProvider_params p messages).
  destruct (anthropic_params_fields p messages) as (_ & _ & HM & HS).
  repeat split.
  - unfold anthropicProvider_SendMessage. rewrite He. simpl.
    unfold bind, Messages_New.
    destruct (sdk.messages R ctx _ _) as [m|e]; [|reflexivity].
    destruct (Z.of_nat (length (am_Content m)) =? 0); reflexivity.
  - exact HM.
  - intros t Ht. rewrite HM in Ht. apply list_elem_of_fmap in Ht.
    destruct Ht as (m & -> & _). unfold anthropicProvider_turn. simpl.
    destruct (String.eqb (Role m) "assistant"); discriminate.
  - exact HS.
  - simpl. rewrite HS.
    destruct (last (filter (fun m => Role m = "system") messages)) as [m|];
      [|reflexivity].
    simpl. destruct (String.eqb_spec (Content m) "") as [E|E]; simpl.
    + rewrite E. reflexivity.
    + reflexivity.
Qed.

Lemma anthropic_system_is_last_system_message_witness :
  exists params,
    snd (anthropicProvider_SendMessage examples.claude examples.background
           [examples.msg "system" "A"; examples.msg "system" "B";
            examples.msg "user" "hi"] examples.quiet [])
    = [] ++ [MessagesNew (anthropic_client examples.claude) params]
    /\ mn_Messages params
       = map anthropicProvider_turn
           (filter (fun m => Role m <> "system")
              [examples.msg "system" "A"; examples.msg "system" "B";
               examples.msg "user" "hi"])
    /\ (forall t, t ∈ mn_Messages params -> mp_Role t <> "system")
    /\ mn_System params
       = match last (filter (fun m => Role m = "system")
                       [examples.msg "system" "A"; examples.msg "system" "B";
                        examples.msg "user" "hi"]) with
         | Some m => if String.eqb (Content m) "" then [] else [Content m]
         | None => []
         end
    /\ request_system (MessagesNew (anthropic_client examples.claude) params)
       = Some (from_option Content ""
                 (last (filter (fun m => Role m = "system")
                          [examples.msg "system" "A"; examples.msg "system" "B";
                           examples.msg "user" "hi"]))).
Proof.
  apply (anthropic_system_is_last_system_message examples.claude).
  reflexivity.
Defined.

(** C1, as stated, fails: with two system messages "A" and "B" the
    system field of the request is "B", not the concatenation "AB". *)
Lemma anthropic_system_not_concatenated :
  let messages :=
    [examples.msg "system" "A"; examples.msg "system" "B";
     examples.msg "user" "hi"] in
  exists req,
    snd (SendMessage (as_Provider (ImplAnthropic examples.claude))
           examples.background messages examples.quiet []) = [req]
    /\ request_system req = Some "B"
    /\ spec_system_concat messages = "AB"
    /\ request_system req <> Some (spec_system_concat messages).
Proof.
  eexists. split; [vm_compute; reflexivity|].
  split; [reflexivity|]. split; [vm_compute; reflexivity|].
  vm_compute. discriminate.
Qed.

End AnthropicSystemField.

Section RouterClaims.
Import Go config sdk llm spec.

Lemma scan_first_enabled (ps : list Provider) :
  forall i p, first_enabled ps i p -> router_scan ps = Some p.
Proof.
  induction ps as [|q ps IH]; intros i p (Hl & He & Hb).
  - rewrite lookup_nil in Hl. discriminate.
  - simpl. destruct i as [|i].
    + simpl in Hl. injection Hl as ->. rewrite He. reflexivity.
    + rewrite (Hb 0%nat q ltac:(lia) eq_refl).
      apply (IH i). repeat split; [exact Hl|exact He|].
      intros j q' Hj Hq. apply (Hb (S j) q'); [lia|exact Hq].
Qed.

Lemma scan_none_enabled (ps : list Provider) :
  (forall p, p ∈ ps -> IsEnabled p = false) -> router_scan ps = None.
Proof.
  induction ps as [|q ps IH]; intros H; simpl; [reflexivity|].
  rewrite (H q) by apply list_elem_of_here.
  apply IH. intros p Hp. apply H. apply list_elem_of_further. exact Hp.
Qed.

(** The scan finds a provider exactly when one is enabled, and then it
    is the first such. *)
Lemma scan_some (ps : list Provider) (p : Provider) :
  router_scan ps = Some p -> exists i, first_enabled ps i p.
Proof.
  induction ps as [|q ps IH]; simpl; [discriminate|].
  destruct (IsEnabled q) eqn:E.
  - intros [= ->]. exists 0%nat. repeat split; [exact E|]. intros j q' Hj. lia.
  - intros H. destruct (IH H) as (i & Hl & He & Hb). exists (S i).
    repeat split; [exact Hl|exact He|].
    intros [|j] q' Hj Hq; simpl in Hq.
    + injection Hq as <-. exact E.
    + apply (Hb j q'); [lia|exact Hq].
Qed.

Lemma scan_none (ps : list Provider) :
  router_scan ps = None -> forall p, p ∈ ps -> IsEnabled p = false.
Proof.
  induction ps as [|q ps IH]; simpl; intros Hs p Hp; [inversion Hp|].
  destruct (IsEnabled q) eqn:E; [discriminate|].
  inversion Hp; subst; [exact E|]. apply IH; assumption.
Qed.

Lemma scan_cases (ps : list Provider) :
  (exists i p, first_enabled ps i p)
  \/ (forall p, p ∈ ps -> IsEnabled p = false).
Proof.
  destruct (router_scan ps) as [p|] eqn:Hs.
  - left. destruct (scan_some _ _ Hs) as [i Hi]. eauto.
  - right. apply scan_none. exact Hs.
Qed.

(** C3.  [GetProvider] returns the provider at the default index when the
    index is set and that provider reports enabled; otherwise the first
    enabled provider in the order of the slice; and the "no LLM provider
    enabled" error when no held provider is enabled.  One of the three
    cases always applies. *)
Theorem GetProvider_selection (r : router) :
  (forall p, default_usable r p -> router_GetProvider r = (Some p, None))
  /\ ((forall p, ~ default_usable r p) ->
      forall i p, first_enabled (providers r) i p ->
                  router_GetProvider r = (Some p, None))
  /\ ((forall p, p ∈ providers r -> IsEnabled p = false) ->
      router_GetProvider r = (None, Some errNoProvider))
  /\ ((exists p, default_usable r p)
      \/ ((forall p, ~ default_usable r p) /\ exists i p, first_enabled (providers r) i p)
      \/ (forall p, p ∈ providers r -> IsEnabled p = false)).
Proof.
  assert (Hfallback : (forall p, ~ default_usable r p) ->
            router_GetProvider r
            = match router_scan (providers r) with
              | Some p => (Some p, None)
              | None => (None, Some errNoProvider)
              end).
  { intros Hn. unfold router_GetProvider.
    destruct ((0 <=? defaultIdx r) && (defaultIdx r <? Z.of_nat (length (providers r))))
      eqn:Hr; [|reflexivity].
    destruct (providers r !! Z.to_nat (defaultIdx r)) as [q|] eqn:Hq; [|reflexivity].
    destruct (IsEnabled q) eqn:Eq; [|reflexivity].
    exfalso. apply (Hn q). repeat split; [lia|exact Hq|exact Eq]. }
  split; [|split; [|split]].
  - intros p (H0 & Hl & He). unfold router_GetProvider.
    pose proof (lookup_lt_Some _ _ _ Hl) as Hlt.
    replace ((0 <=? defaultIdx r) && (defaultIdx r <? Z.of_nat (length (providers r))))
      with true by (symmetry; apply andb_true_iff; split; lia).
    rewrite Hl, He. reflexivity.
  - intros Hn i p Hf. rewrite (Hfallback Hn).
    rewrite (scan_first_enabled _ _ _ Hf). reflexivity.
  - intros Hall. rewrite Hfallback.
    + rewrite (scan_none_enabled _ Hall). reflexivity.
    + intros p (_ & Hl & He).
      rewrite (Hall p) in He by (eapply list_elem_of_lookup_2; exact Hl).
      discriminate.
  - assert (Hrest : (forall p, ~ default_usable r p) ->
              (forall p, ~ default_usable r p) /\
              (exists i p, first_enabled (providers r) i p)
              \/ (forall p, p ∈ providers r -> IsEnabled p = false)).
    { intros Hn. destruct (scan_cases (providers r)) as [Hs|Hs]; [left|right]; auto. }
    destruct (decide (0 <= defaultIdx r)) as [H0|H0].
    + destruct (providers r !! Z.to_nat (defaultIdx r)) as [q|] eqn:Hq.
      * destruct (IsEnabled q) eqn:Eq.
        -- left. exists q. repeat split; assumption.
        -- right. apply Hrest. intros p (_ & Hl & He). congruence.
      * right. apply Hrest. intros p (_ & Hl & He). congruence.
    + right. apply Hrest. intros p (Hc & _). lia.
Qed.

Lemma GetProvider_selection_witness :
  router_GetProvider examples.fallback_router = (Some (examples.mock "openai" true), None).
Proof.
  destruct (GetProvider_selection examples.fallback_router) as (_ & H2 & _).
  apply (H2 ltac:(intros p (_ & Hl & He); injection Hl as <-; discriminate He) 0%nat).
  repeat split. intros j q Hj. lia.
Defined.

(** The remaining cases of router_test.go. *)
Example GetProvider_default_enabled :
  router_GetProvider (newRouter [examples.mock "openai" false; examples.mock "anthropic" true] 1)
  = (Some (examples.mock "anthropic" true), None).
Proof. reflexivity. Qed.

Example GetProvider_none_enabled :
  router_GetProvider (newRouter [examples.mock "openai" false; examples.mock "anthropic" false] 0)
  = (None, Some "no LLM provider enabled").
Proof. reflexivity. Qed.

Example GetProvider_index_unset :
  router_GetProvider (newRouter [examples.mock "openai" true; examples.mock "anthropic" true] (-1))
  = (Some (examples.mock "openai" true), None).
Proof. reflexivity. Qed.

(** What [NewRouter] has built before its emptiness test: the providers
    of the flagged backends in declaration order, and index 0 unless
    there is none. *)
Lemma NewRouter_built_constructed (cfg : Config) (env : gmap string string) :
  NewRouter_built cfg env
  = (constructed cfg env,
     match constructed cfg env with [] => -1 | _ :: _ => 0 end).
Proof.
  unfold NewRouter_built, constructed, declaration_order, NewRouter_block.
  destruct (Enabled (OpenAI (Providers cfg))),
           (Enabled (Anthropic (Providers cfg))),
           (Enabled (Ollama (Providers cfg))),
           (Enabled (OpenRouter (Providers cfg))),
           (Enabled (OpenCode (Providers cfg))); reflexivity.
Qed.

(** C4.  [NewRouter] returns the "no LLM provider enabled" error exactly
    when it has constructed no provider.  A router it returns comes with
    a nil error, holds the constructed providers (at least one), and its
    default index is 0, the position of the first constructed provider;
    so when a single backend is flagged, the router holds just that
    backend's provider and the default index points at it. *)
Theorem NewRouter_never_empty (cfg : Config) (env : gmap string string) :
  fst (NewRouter_built cfg env) = constructed cfg env
  /\ (NewRouter cfg env = (None, Some errNoProvider) <-> constructed cfg env = [])
  /\ (forall r err, NewRouter cfg env = (Some r, err) ->
        err = None
        /\ providers r = constructed cfg env
        /\ providers r <> []
        /\ defaultIdx r = 0
        /\ providers r !! Z.to_nat (defaultIdx r) = head (constructed cfg env))
  /\ (forall p, constructed cfg env = [p] ->
        NewRouter cfg env = (Some (newRouter [p] 0), None)).
Proof.
  unfold NewRouter. rewrite NewRouter_built_constructed. simpl.
  destruct (constructed cfg env) as [|p ps]; simpl.
  - split; [reflexivity|]. split; [tauto|].
    split; intros; discriminate.
  - split; [reflexivity|]. split; [split; discriminate|].
    split.
    + intros r err [= <- <-]. simpl. repeat split. discriminate.
    + intros q [= -> ->]. reflexivity.
Qed.

Lemma NewRouter_never_empty_witness :
  NewRouter examples.ollama_only ∅
  = (Some (newRouter [NewOllamaProvider examples.ollama_only ∅] 0), None)
  /\ (NewRouter examples.all_off ∅ = (None, Some errNoProvider)).
Proof.
  destruct (NewRouter_never_empty examples.ollama_only ∅) as (_ & _ & _ & H4).
  destruct (NewRouter_never_empty examples.all_off ∅) as (_ & [_ H2] & _).
  split.
  - apply H4. reflexivity.
  - apply H2. reflexivity.
Defined.

(** A router built with only the local server switched on and no
    credential in the environment serves that provider. *)
Example NewRouter_ollama_only_serves_ollama :
  exists r p,
    NewRouter examples.ollama_only ∅ = (Some r, None)
    /\ router_GetProvider r = (Some p, None)
    /\ Name p = "ollama".
Proof. eexists _, _. repeat split. Qed.

End RouterClaims.

(** ** Session store *)

Section SessionClaims.
Import Go llm spec session.

Variable codec : json.Codec.

Lemma trailing_suffix (k : nat) (M : list Message) :
  exists dropped, M = dropped ++ trailing k M
                  /\ length (trailing k M) = Nat.min k (length M).
Proof.
  exists (take (length M - k) M). unfold trailing. split.
  - symmetry. apply take_drop.
  - rewrite length_drop. lia.
Qed.

Lemma trailing_all (k : nat) (M : list Message) :
  (length M <= k)%nat -> trailing k M = M.
Proof.
  intros H. unfold trailing. replace (length M - k)%nat with 0%nat by lia.
  reflexivity.
Qed.

(** The slice [Save] goes on to serialise. *)
Lemma Save_truncation (m : manager) (M : list Message) :
  (if (0 <? maxMessages m) && (maxMessages m <? Z.of_nat (length M))
   then drop (Z.to_nat (Z.of_nat (length M) - maxMessages m)) M
   else M)
  = if 0 <? maxMessages m then trailing (Z.to_nat (maxMessages m)) M else M.
Proof.
  destruct (0 <? maxMessages m) eqn:Hpos; simpl; [|reflexivity].
  apply Z.ltb_lt in Hpos.
  destruct (maxMessages m <? Z.of_nat (length M)) eqn:Hlt.
  - apply Z.ltb_lt in Hlt. unfold trailing. f_equal. lia.
  - apply Z.ltb_ge in Hlt. symmetry. apply trailing_all. lia.
Qed.

(** Writing a session and reading it back, when the path is free for a
    file and the codec reads back what it wrote. *)
Lemma Save_then_Get (m : manager) (u : Z) (M : list Message)
    (fs : gmap string os.node) :
  let kept := if 0 <? maxMessages m
              then trailing (Z.to_nat (maxMessages m)) M else M in
  fs !! sessionPath m u <> Some os.Directory ->
  json.roundtrips codec kept ->
  exists fs',
    Save codec m u M fs = (None, fs')
    /\ Get codec m u fs' = (kept, None).
Proof.
  intros kept Hfree (data & Hm & Hu).
  exists (<[sessionPath m u := os.RegularFile data]> fs).
  unfold Save. rewrite Save_truncation. fold kept. rewrite Hm.
  unfold os.WriteFile.
  assert (Hw : match fs !! sessionPath m u with
               | Some os.Directory =>
                   (Some {| os.Op := "open"; os.Path := sessionPath m u;
                            os.Err := os.EISDIR |}, fs)
               | _ => (None, <[sessionPath m u := os.RegularFile data]> fs)
               end
               = (None, <[sessionPath m u := os.RegularFile data]> fs)).
  { destruct (fs !! sessionPath m u) as [[d|]|]; congruence. }
  rewrite Hw. split; [reflexivity|].
  unfold Get, os.ReadFile. rewrite lookup_insert_eq. simpl.
  rewrite Hu. reflexivity.
Qed.

(** What a [Save] that returned nil has written: the following [Get]
    reads the retained messages back. *)
Lemma Save_ok_Get (m : manager) (u : Z) (M : list Message)
    (fs fs' : gmap string os.node) :
  let kept := if 0 <? maxMessages m
              then trailing (Z.to_nat (maxMessages m)) M else M in
  Save codec m u M fs = (None, fs') ->
  json.roundtrips codec kept ->
  Get codec m u fs' = (kept, None).
Proof.
  intros kept HS (data & Hm & Hu).
  unfold Save in HS. rewrite Save_truncation in HS. fold kept in HS.
  rewrite Hm in HS. unfold os.WriteFile in HS.
  destruct (fs !! sessionPath m u) as [[d|]|]; simpl in HS;
    try discriminate; inversion HS; subst;
    unfold Get, os.ReadFile; rewrite lookup_insert_eq; simpl;
    rewrite Hu; reflexivity.
Qed.

(** C2, as amended.  For a store whose limit is positive: after a [Save]
    that returned no error, and when the codec reads back the retained
    messages, the following [Get] returns the retained messages, which
    are [M] itself when [M] is within the limit and otherwise exactly the
    last [maxMessages] elements of [M] in order; in both cases no more
    than [maxMessages] of them. *)
Theorem Save_Get_positive_limit (m : manager) (u : Z) (M : list Message)
    (fs fs' : gmap string os.node) :
  0 < maxMessages m ->
  Save codec m u M fs = (None, fs') ->
  json.roundtrips codec (trailing (Z.to_nat (maxMessages m)) M) ->
  exists kept,
    Get codec m u fs' = (kept, None)
    /\ (Z.of_nat (length M) <= maxMessages m -> kept = M)
    /\ (maxMessages m < Z.of_nat (length M) ->
        Z.of_nat (length kept) = maxMessages m
        /\ exists dropped, M = dropped ++ kept)
    /\ Z.of_nat (length kept) <= maxMessages m.
Proof.
  intros Hpos HS Hrt.
  pose proof (Save_ok_Get m u M fs fs') as H. simpl in H.
  replace (0 <? maxMessages m) with true in H by (symmetry; apply Z.ltb_lt; lia).
  specialize (H HS Hrt).
  exists (trailing (Z.to_nat (maxMessages m)) M).
  destruct (trailing_suffix (Z.to_nat (maxMessages m)) M) as (dropped & HM & HL).
  repeat split; try assumption.
  - intros Hle. apply trailing_all. lia.
  - lia.
  - exists dropped. exact HM.
  - lia.
Qed.

(** [NewManager] fails only when the path names a regular file. *)
Lemma NewManager_ok (path : string) (n : Z) (fs : gmap string os.node) :
  (forall data, fs !! (if String.eqb path "" then "./data/sessions" else path)
                <> Some (os.RegularFile data)) ->
  exists fs',
    NewManager path n fs
    = ((Some {| session.path := if String.eqb path "" then "./data/sessions" else path;
                maxMessages := if n =? 0 then 50 else n |}, None), fs').
Proof.
  intros Hfree. unfold NewManager, os.MkdirAll.
  destruct (fs !! _) as [[d|]|] eqn:E; eauto.
  exfalso. exact (Hfree d eq_refl).
Qed.

(** C10.  A store returned by [NewManager path n] has limit 50 when [n]
    is zero and limit [n] otherwise, so a negative [n] is kept as it is;
    and with a negative limit [Save] writes the whole sequence, whatever
    its length: the following [Get] returns all of [M], whose length
    exceeds the limit. *)
Theorem negative_limit_never_truncates (path : string) (n : Z)
    (fs fs' : gmap string os.node) (m : manager) :
  NewManager path n fs = ((Some m, None), fs') ->
  maxMessages m = (if n =? 0 then 50 else n)
  /\ (n < 0 ->
      forall (u : Z) (M : list Message),
        fs' !! sessionPath m u <> Some os.Directory ->
        json.roundtrips codec M ->
        exists fs'',
          Save codec m u M fs' = (None, fs'')
          /\ Get codec m u fs'' = (M, None)
          /\ maxMessages m < Z.of_nat (length M)).
Proof.
  intros HN. unfold NewManager in HN.
  destruct (os.MkdirAll fs _) as [[e|] fs1]; [discriminate|].
  injection HN as <- <-. simpl. split; [reflexivity|].
  intros Hneg u M Hfree Hrt.
  replace (n =? 0) with false in * by (symmetry; apply Z.eqb_neq; lia).
  set (m := {| session.path := _; maxMessages := n |}) in *.
  pose proof (Save_then_Get m u M fs1) as H. simpl in H.
  replace (0 <? n) with false in H by (symmetry; apply Z.ltb_ge; lia).
  destruct (H Hfree Hrt) as (fs'' & HS & HG).
  exists fs''. repeat split; try assumption. simpl. lia.
Qed.


End SessionClaims.

Lemma Save_Get_positive_limit_witness :
  exists fs0 fs',
    session.NewManager "data" 3 ∅ = ((Some examples.store3, None), fs0)
    /\ session.Save json.tagged examples.store3 12345 examples.five fs0 = (None, fs')
    /\ exists kept,
         session.Get json.tagged examples.store3 12345 fs' = (kept, None)
         /\ (Z.of_nat (length examples.five) <= session.maxMessages examples.store3 ->
             kept = examples.five)
         /\ (session.maxMessages examples.store3 < Z.of_nat (length examples.five) ->
             Z.of_nat (length kept) = session.maxMessages examples.store3
             /\ exists dropped, examples.five = dropped ++ kept)
         /\ Z.of_nat (length kept) <= session.maxMessages examples.store3.
Proof.
  exists scenarios.data_dir.
  exists (snd (session.Save json.tagged examples.store3 12345 examples.five
                 scenarios.data_dir)).
  split; [vm_compute; reflexivity|].
  split; [vm_compute; reflexivity|].
  apply (Save_Get_positive_limit json.tagged examples.store3 12345 examples.five
           scenarios.data_dir).
  - reflexivity.
  - vm_compute. reflexivity.
  - eexists. split; vm_compute; reflexivity.
Defined.

(** The scenario of the store's own test: a store of limit 3 made by
    [NewManager], five messages saved, the last three read back. *)
Example Save_Get_five_keeps_three :
  exists fs0 fs',
    session.NewManager "data" 3 ∅ = ((Some examples.store3, None), fs0)
    /\ session.Save json.tagged examples.store3 12345 examples.five fs0 = (None, fs')
    /\ session.Get json.tagged examples.store3 12345 fs'
       = ([examples.msg "user" "msg3"; examples.msg "assistant" "msg4";
           examples.msg "user" "msg5"], None).
Proof.
  exists scenarios.data_dir.
  exists (snd (session.Save json.tagged examples.store3 12345 examples.five
                 scenarios.data_dir)).
  repeat split; vm_compute; reflexivity.
Qed.

(** C2, as stated, fails on a store with a negative limit: the store
    [NewManager "data" (-1)] returns has limit -1, so every sequence is
    longer than the limit, yet [Save] keeps all five messages and [Get]
    returns them, more than the limit and not the (empty) trailing part
    the statement asks for. *)
Lemma Save_Get_negative_limit_exceeds :
  exists fs0 fs',
    session.NewManager "data" (-1) ∅ = ((Some examples.store_neg, None), fs0)
    /\ session.Save json.tagged examples.store_neg 12345 examples.five fs0 = (None, fs')
    /\ session.Get json.tagged examples.store_neg 12345 fs' = (examples.five, None)
    /\ session.maxMessages examples.store_neg < Z.of_nat (length examples.five)
    /\ ~ (Z.of_nat (length (fst (session.Get json.tagged examples.store_neg 12345 fs')))
          <= session.maxMessages examples.store_neg)
    /\ fst (session.Get json.tagged examples.store_neg 12345 fs')
       <> spec.trailing (Z.to_nat (session.maxMessages examples.store_neg)) examples.five.
Proof.
  eexists _, _. split; [vm_compute; reflexivity|].
  split; [vm_compute; reflexivity|].
  split; [vm_compute; reflexivity|].
  split; [reflexivity|]. split.
  - vm_compute. intros H. apply H. reflexivity.
  - vm_compute. discriminate.
Qed.

Lemma negative_limit_never_truncates_witness :
  session.maxMessages examples.store_neg = (if -1 =? 0 then 50 else -1)
  /\ (-1 < 0 ->
      forall (u : Z) (M : list llm.Message),
        ({["data" := os.Directory]} : gmap string os.node)
          !! session.sessionPath examples.store_neg u <> Some os.Directory ->
        json.roundtrips json.tagged M ->
        exists fs'',
          session.Save json.tagged examples.store_neg u M {["data" := os.Directory]}
          = (None, fs'')
          /\ session.Get json.tagged examples.store_neg u fs'' = (M, None)
          /\ session.maxMessages examples.store_neg < Z.of_nat (length M)).
Proof.
  apply (negative_limit_never_truncates json.tagged "data" (-1) ∅).
  reflexivity.
Defined.


(** * Further properties of the code *)

(** ** package llm *)

Section LlmExtras.
Import Go config sdk llm spec vocab.

(** Unfolds the [SendMessage] of an enabled provider, given the
    hypothesis [H] that [IsEnabled] holds, down to the backend's answer. *)
Ltac enter_enabled H :=
  simpl in H;
  unfold openAIProvider_IsEnabled, ollamaProvider_IsEnabled,
    openRouterProvider_IsEnabled, openCodeProvider_IsEnabled,
    anthropicProvider_IsEnabled in H;
  simpl;
  unfold openAIProvider_SendMessage, ollamaProvider_SendMessage,
    openRouterProvider_SendMessage, openCodeProvider_SendMessage,
    anthropicProvider_SendMessage;
  rewrite H; simpl; unfold bind, Chat_Completions_New, Messages_New;
  rewrite ?range_assign_make.

Lemma GetProvider_some (r : router) (p : Provider) (e : error) :
  router_GetProvider r = (Some p, e) ->
  e = None /\ p ∈ providers r /\ IsEnabled p = true.
Proof.
  unfold router_GetProvider.
  assert (Hscan : forall q e',
            match router_scan (providers r) with
            | Some p' => (Some p', None)
            | None => (None, Some errNoProvider)
            end = (Some q, e') ->
            e' = None /\ q ∈ providers r /\ IsEnabled q = true).
  { intros q e'. destruct (router_scan (providers r)) as [p'|] eqn:Hs; [|discriminate].
    intros H. inversion H; subst. destruct (scan_some _ _ Hs) as (i & Hl & He & _).
    repeat split; [|exact He]. eapply list_elem_of_lookup_2. exact Hl. }
  destruct ((0 <=? defaultIdx r) && (defaultIdx r <? Z.of_nat (length (providers r))));
    [|apply Hscan].
  destruct (providers r !! Z.to_nat (defaultIdx r)) as [q|] eqn:Hq; [|apply Hscan].
  destruct (IsEnabled q) eqn:Eq; [|apply Hscan].
  intros H. inversion H; subst. repeat split; [|exact Eq].
  eapply list_elem_of_lookup_2. exact Hq.
Qed.

Lemma GetProvider_none (r : router) (e : error) :
  router_GetProvider r = (None, e) ->
  e = Some errNoProvider /\ forall p, p ∈ providers r -> IsEnabled p = false.
Proof.
  unfold router_GetProvider.
  assert (Hscan : forall e',
            match router_scan (providers r) with
            | Some p' => (Some p', None)
            | None => (None, Some errNoProvider)
            end = (None, e') ->
            e' = Some errNoProvider /\ forall p, p ∈ providers r -> IsEnabled p = false).
  { intros e'. destruct (router_scan (providers r)) as [p'|] eqn:Hs; [discriminate|].
    intros H. inversion H; subst. split; [reflexivity|]. apply scan_none. exact Hs. }
  destruct ((0 <=? defaultIdx r) && (defaultIdx r <? Z.of_nat (length (providers r))));
    [|apply Hscan].
  destruct (providers r !! Z.to_nat (defaultIdx r)) as [q|] eqn:Hq; [|apply Hscan].
  destruct (IsEnabled q) eqn:Eq; [discriminate|apply Hscan].
Qed.

(** X1.  [router.SendMessage] either hands the conversation to a held
    provider that reports enabled (and returns whatever that provider
    returns), or, when no held provider is enabled, returns the
    "no LLM provider enabled" error without issuing any request.  It never
    dispatches to a disabled provider. *)
Theorem router_SendMessage_dispatch (r : router) (ctx : Context)
    (messages : list Message) (R : Remote) (log : list Request) :
  (exists p, p ∈ providers r /\ IsEnabled p = true
             /\ router_GetProvider r = (Some p, None)
             /\ router_SendMessage r ctx messages R log = SendMessage p ctx messages R log)
  \/ ((forall p, p ∈ providers r -> IsEnabled p = false)
      /\ router_SendMessage r ctx messages R log = (("", Some errNoProvider), log)).
Proof.
  unfold router_SendMessage.
  destruct (router_GetProvider r) as [[p|] e] eqn:HG.
  - destruct (GetProvider_some r p e HG) as (-> & Hin & He).
    left. exists p. auto.
  - destruct (GetProvider_none r e HG) as (-> & Hall).
    right. split; [exact Hall|reflexivity].
Qed.

(** X2.  The factory maps each of the five known names to a provider whose
    [Name()] is that name, and answers any other name with no provider and
    the error "unknown provider type: <name>". *)
Theorem NewProvider_names (cfg : Config) (env : gmap string string) (name : string) :
  (name ∈ known_names ->
     exists p, NewProvider cfg env name = (Some p, None) /\ Name p = name)
  /\ (name ∉ known_names ->
     NewProvider cfg env name = (None, Some ("unknown provider type: " +:+ name))).
Proof.
  unfold NewProvider, known_names. split.
  - intros Hin. repeat (apply elem_of_cons in Hin; destruct Hin as [->|Hin]);
      [| | | | |inversion Hin]; eexists; split; reflexivity.
  - intros Hn.
    repeat match goal with
    | |- context [String.eqb name ?k] =>
        destruct (String.eqb_spec name k) as [->|_];
        [exfalso; apply Hn; set_solver|]
    end.
    reflexivity.
Qed.

Lemma string_app_assoc (a b c : string) : (a +:+ b) +:+ c = a +:+ (b +:+ c).
Proof.
  induction a as [|x a IH]; [reflexivity|].
  change (String x ((a +:+ b) +:+ c) = String x (a +:+ (b +:+ c))).
  rewrite IH. reflexivity.
Qed.

Lemma string_app_nil_r (a : string) : a +:+ "" = a.
Proof.
  induction a as [|x a IH]; [reflexivity|].
  change (String x (a +:+ "") = String x a). rewrite IH. reflexivity.
Qed.

Lemma concat_empty_cons (x : string) (xs : list string) :
  String.concat "" (x :: xs) = x +:+ String.concat "" xs.
Proof.
  destruct xs as [|y ys]; simpl; [rewrite string_app_nil_r|]; reflexivity.
Qed.

(** The reply loop of the Anthropic provider, [responseText += ...]. *)
Lemma response_fold (blocks : list ContentBlockUnion) :
  forall acc : string,
    fold_left (fun acc content => acc +:+ AsText content) blocks acc
    = acc +:+ String.concat "" (map AsText blocks).
Proof.
  induction blocks as [|b bs IH]; intros acc.
  - simpl. rewrite string_app_nil_r. reflexivity.
  - cbn [fold_left map]. rewrite IH, concat_empty_cons, string_app_assoc.
    reflexivity.
Qed.

(** X3.  Whatever the concrete provider type, an error returned by
    [SendMessage] comes with the empty reply and its text starts with the
    provider's [Name()] followed by a colon and a space. *)
Theorem SendMessage_error_names_provider (v : implementation) (ctx : Context)
    (messages : list Message) (R : Remote) (log : list Request)
    (reply : string) (e : string) :
  fst (SendMessage (as_Provider v) ctx messages R log) = (reply, Some e) ->
  reply = "" /\ exists rest, e = Name (as_Provider v) +:+ ": " +:+ rest.
Proof.
  destruct v as [p|p|p|p|p]; simpl;
    unfold openAIProvider_SendMessage, ollamaProvider_SendMessage,
      openRouterProvider_SendMessage, openCodeProvider_SendMessage,
      anthropicProvider_SendMessage, bind, Chat_Completions_New, Messages_New, ret.
  2:{ destruct (anthropic_enabled p); simpl.
      - destruct (sdk.messages R ctx _ _) as [m|err]; simpl.
        + destruct (Z.of_nat (length (am_Content m)) =? 0); simpl; discriminate.
        + intros [= <- <-]. split; [reflexivity|]. exists err. reflexivity.
      - intros [= <- <-]. split; [reflexivity|]. eexists. reflexivity. }
  all: match goal with |- context [negb ?b] => destruct b end; simpl;
    [ destruct (chat_completions R ctx _ _) as [resp|err]; simpl;
      [ destruct (Choices resp); simpl; discriminate
      | intros [= <- <-]; split; [reflexivity|]; exists err; reflexivity ]
    | intros [= <- <-]; split; [reflexivity|]; eexists; reflexivity ].
Qed.

Lemma SendMessage_error_names_provider_witness :
  "" = "" /\ exists rest, "openai: connection refused" = "openai" +:+ ": " +:+ rest.
Proof.
  apply (SendMessage_error_names_provider (ImplOpenAI examples.gpt)
           examples.background examples.five scenarios.down []).
  reflexivity.
Defined.

Lemma union_turn_native (msg : Message) :
  union_turn (openAIProvider_turn msg) = Some (native_role (Role msg), Content msg)
  /\ union_turn (ollamaProvider_turn msg) = Some (native_role (Role msg), Content msg)
  /\ union_turn (openRouterProvider_turn msg) = Some (native_role (Role msg), Content msg)
  /\ union_turn (openCodeProvider_turn msg) = Some (native_role (Role msg), Content msg).
Proof.
  unfold openAIProvider_turn, ollamaProvider_turn, openRouterProvider_turn,
    openCodeProvider_turn, native_role.
  destruct (String.eqb_spec (Role msg) "system") as [E|E]; [auto|].
  destruct (String.eqb_spec (Role msg) "user") as [E1|E1]; [rewrite E1; auto|].
  destruct (String.eqb (Role msg) "assistant"); auto.
Qed.

(** X4.  An enabled OpenAI-compatible provider issues exactly one
    chat-completion request.  It carries one turn per message, in order,
    with the message's content and its role (system and assistant kept,
    anything else user); and when the reply has at least one choice the
    call returns the content of the first choice and a nil error. *)
Theorem openai_family_translation (v : implementation) (ctx : Context)
    (messages : list Message) (R : Remote) (log : list Request) :
  openai_compatible v = true ->
  IsEnabled (as_Provider v) = true ->
  exists c p,
    snd (SendMessage (as_Provider v) ctx messages R log)
    = log ++ [ChatCompletionsNew c p]
    /\ request_turns (ChatCompletionsNew c p)
       = map (fun m => Some (native_role (Role m), Content m)) messages
    /\ forall resp ch rest,
         chat_completions R ctx c p = inl resp ->
         Choices resp = ch :: rest ->
         fst (SendMessage (as_Provider v) ctx messages R log)
         = (choice_Content ch, None).
Proof.
  intros Hc He.
  assert (Hmap : forall f,
            (forall m, union_turn (f m) = Some (native_role (Role m), Content m)) ->
            map union_turn (map f messages)
            = map (fun m => Some (native_role (Role m), Content m)) messages).
  { intros f Hf. rewrite map_map. apply map_ext. exact Hf. }
  destruct v as [p|p|p|p|p]; try discriminate Hc; enter_enabled He;
    eexists _, _;
    (split; [|split];
     [ destruct (chat_completions R ctx _ _) as [resp|e];
       [destruct (Choices resp)|]; reflexivity
     | cbn [request_turns cc_Messages]; apply Hmap; intros m;
       apply (union_turn_native m)
     | intros resp ch rest Hr Hz; rewrite Hr, Hz; reflexivity ]).
Qed.

Lemma openai_family_translation_witness :
  exists c p,
    snd (SendMessage (as_Provider (ImplOpenAI examples.gpt)) examples.background
           examples.five scenarios.chatty [])
    = [] ++ [ChatCompletionsNew c p]
    /\ request_turns (ChatCompletionsNew c p)
       = map (fun m => Some (native_role (Role m), Content m)) examples.five
    /\ forall resp ch rest,
         chat_completions scenarios.chatty examples.background c p = inl resp ->
         Choices resp = ch :: rest ->
         fst (SendMessage (as_Provider (ImplOpenAI examples.gpt)) examples.background
                examples.five scenarios.chatty [])
         = (choice_Content ch, None).
Proof.
  apply (openai_family_translation (ImplOpenAI examples.gpt)); reflexivity.
Defined.

(** X5.  Every request an enabled Anthropic provider sends names the
    configured model, asks for at most 1024 tokens, and carries one turn per
    non-system message, in order, with the message's content and the role
    assistant or user. *)
Theorem anthropic_request_shape (p : anthropicProvider) (ctx : Context)
    (messages : list Message) (R : Remote) (log : list Request) :
  anthropicProvider_IsEnabled p = true ->
  exists params,
    snd (anthropicProvider_SendMessage p ctx messages R log)
    = log ++ [MessagesNew (anthropic_client p) params]
    /\ mn_Model params = anthropic_model p
    /\ mn_MaxTokens params = 1024
    /\ request_turns (MessagesNew (anthropic_client p) params)
       = map (fun m => Some (native_role (Role m), Content m))
           (filter (fun m => Role m <> "system") messages).
Proof.
  intros He. unfold anthropicProvider_IsEnabled in He.
  exists (anthropicProvider_params p messages).
  destruct (anthropic_params_fields p messages) as (HMo & HT & HM & _).
  split; [|split; [exact HMo|split; [exact HT|]]].
  - unfold anthropicProvider_SendMessage. rewrite He. simpl.
    unfold bind, Messages_New.
    destruct (sdk.messages R ctx _ _) as [m|e]; [|reflexivity].
    destruct (Z.of_nat (length (am_Content m)) =? 0); reflexivity.
  - cbn [request_turns]. rewrite HM, map_map.
    apply Forall_fmap_ext_1. apply Forall_forall. intros m Hm.
    apply list_elem_of_filter in Hm. destruct Hm as [Hns _].
    unfold anthropicProvider_turn, native_role. cbn [mp_Role mp_Content].
    rewrite (eqb_ne _ _ Hns).
    destruct (String.eqb (Role m) "assistant"); simpl;
      rewrite string_app_nil_r || reflexivity; reflexivity.
Qed.

Lemma anthropic_request_shape_witness :
  exists params,
    snd (anthropicProvider_SendMessage examples.claude examples.background
           examples.five examples.quiet [])
    = [] ++ [MessagesNew (anthropic_client examples.claude) params]
    /\ mn_Model params = anthropic_model examples.claude
    /\ mn_MaxTokens params = 1024
    /\ request_turns (MessagesNew (anthropic_client examples.claude) params)
       = map (fun m => Some (native_role (Role m), Content m))
           (filter (fun m => Role m <> "system") examples.five).
Proof.
  apply (anthropic_request_shape examples.claude). reflexivity.
Defined.

(** X6.  When the backend answers an enabled Anthropic provider with a
    message, the reply is the texts of its content blocks concatenated in
    order, a block that is not a text block contributing nothing, and the
    error is nil (so a message with no block gives the empty reply). *)
Theorem anthropic_reply_concatenates (p : anthropicProvider) (ctx : Context)
    (messages : list Message) (R : Remote) (log : list Request)
    (answer : AnthropicMessage) :
  anthropicProvider_IsEnabled p = true ->
  sdk.messages R ctx (anthropic_client p) (anthropicProvider_params p messages)
  = inl answer ->
  fst (anthropicProvider_SendMessage p ctx messages R log)
  = (String.concat "" (map AsText (am_Content answer)), None).
Proof.
  intros He Ha. unfold anthropicProvider_IsEnabled in He.
  unfold anthropicProvider_SendMessage. rewrite He. simpl.
  unfold bind, Messages_New. rewrite Ha.
  destruct (am_Content answer) as [|b bs] eqn:Hc; [reflexivity|].
  replace (Z.of_nat (length (b :: bs)) =? 0) with false
    by (symmetry; apply Z.eqb_neq; simpl; lia).
  unfold ret. cbn [fst]. rewrite response_fold. reflexivity.
Qed.

Lemma anthropic_reply_concatenates_witness :
  fst (anthropicProvider_SendMessage examples.claude examples.background
         examples.five scenarios.chatty [])
  = ("Hello", None).
Proof.
  apply (anthropic_reply_concatenates examples.claude examples.background
           examples.five scenarios.chatty []
           {| am_Content := [TextBlock "Hel"; OtherBlock; TextBlock "lo"] |});
    reflexivity.
Defined.

Lemma GetProvider_all_disabled (r : router) :
  (forall p, p ∈ providers r -> IsEnabled p = false) ->
  router_GetProvider r = (None, Some errNoProvider).
Proof.
  intros Hall. destruct (router_GetProvider r) as [[p|] e] eqn:HG.
  - destruct (GetProvider_some r p e HG) as (_ & Hin & He).
    rewrite (Hall p Hin) in He. discriminate.
  - destruct (GetProvider_none r e HG) as (-> & _). reflexivity.
Qed.

(** X7.  [NewRouter] looks at the configured flags only.  When Ollama is
    off, at least one hosted backend is flagged and none of the four
    credentials is set, construction still succeeds, and the router it
    returns answers [GetProvider] with the "no LLM provider enabled"
    error. *)
Theorem NewRouter_without_credentials (cfg : Config) (env : gmap string string) :
  Enabled (Ollama (Providers cfg)) = false ->
  (forall k, k ∈ hosted_keys -> Getenv env k = "") ->
  constructed cfg env <> [] ->
  exists r,
    NewRouter cfg env = (Some r, None)
    /\ providers r = constructed cfg env
    /\ router_GetProvider r = (None, Some errNoProvider).
Proof.
  intros Hol Hkeys Hne.
  exists (newRouter (constructed cfg env) 0).
  unfold NewRouter. rewrite NewRouter_built_constructed.
  destruct (constructed cfg env) as [|q qs] eqn:Hc; [congruence|].
  simpl. repeat split.
  apply GetProvider_all_disabled. simpl. rewrite <- Hc.
  intros p Hp. unfold constructed, declaration_order in Hp.
  assert (K1 := Hkeys "OPENAI_API_KEY" ltac:(unfold hosted_keys; repeat constructor)).
  assert (K2 := Hkeys "ANTHROPIC_API_KEY" ltac:(unfold hosted_keys; repeat constructor)).
  assert (K3 := Hkeys "OPENROUTER_API_KEY" ltac:(unfold hosted_keys; repeat constructor)).
  assert (K4 := Hkeys "OPENCODE_API_KEY" ltac:(unfold hosted_keys; repeat constructor)).
  rewrite Hol in Hp.
  destruct (Enabled (OpenAI (Providers cfg))) eqn:E1,
           (Enabled (Anthropic (Providers cfg))) eqn:E2,
           (Enabled (OpenRouter (Providers cfg))) eqn:E3,
           (Enabled (OpenCode (Providers cfg))) eqn:E4;
    cbn in Hp;
    repeat (apply elem_of_cons in Hp; destruct Hp as [->|Hp]);
    try (inversion Hp; fail);
    simpl; rewrite ?E1, ?E2, ?E3, ?E4, ?K1, ?K2, ?K3, ?K4; reflexivity.
Qed.

Lemma NewRouter_without_credentials_witness :
  exists r,
    NewRouter scenarios.flagged_without_keys ∅ = (Some r, None)
    /\ providers r = constructed scenarios.flagged_without_keys ∅
    /\ router_GetProvider r = (None, Some errNoProvider).
Proof.
  apply (NewRouter_without_credentials scenarios.flagged_without_keys ∅).
  - reflexivity.
  - intros k _. reflexivity.
  - discriminate.
Defined.

(** X8.  When the Ollama backend is flagged, [NewRouter] succeeds and
    [GetProvider] on the router it returns always finds an enabled
    provider, whatever credentials are or are not set. *)
Theorem NewRouter_with_ollama_serves (cfg : Config) (env : gmap string string) :
  Enabled (Ollama (Providers cfg)) = true ->
  exists r p,
    NewRouter cfg env = (Some r, None)
    /\ router_GetProvider r = (Some p, None)
    /\ p ∈ constructed cfg env
    /\ IsEnabled p = true.
Proof.
  intros Hol.
  assert (Hin : NewOllamaProvider cfg env ∈ constructed cfg env).
  { unfold constructed, declaration_order. rewrite Hol.
    destruct (Enabled (OpenAI (Providers cfg))),
             (Enabled (Anthropic (Providers cfg))),
             (Enabled (OpenRouter (Providers cfg))),
             (Enabled (OpenCode (Providers cfg))); cbn; set_solver. }
  exists (newRouter (constructed cfg env) 0).
  unfold NewRouter. rewrite NewRouter_built_constructed.
  destruct (constructed cfg env) as [|q qs] eqn:Hc; [inversion Hin|].
  simpl.
  destruct (router_GetProvider (newRouter (q :: qs) 0)) as [[p|] e] eqn:HG.
  - destruct (GetProvider_some _ p e HG) as (-> & Hp & He).
    exists p. simpl in Hp. auto.
  - destruct (GetProvider_none _ e HG) as (_ & Hall).
    specialize (Hall _ Hin). simpl in Hall. congruence.
Qed.

Lemma NewRouter_with_ollama_serves_witness :
  exists r p,
    NewRouter examples.ollama_only ∅ = (Some r, None)
    /\ router_GetProvider r = (Some p, None)
    /\ p ∈ constructed examples.ollama_only ∅
    /\ IsEnabled p = true.
Proof.
  apply (NewRouter_with_ollama_serves examples.ollama_only ∅). reflexivity.
Defined.

(** X9.  The Ollama constructor takes the base URL of its client from the
    configured default model: a flagged Ollama provider sends its requests
    through a client whose base URL is the model name (the loopback
    address only when the model is empty), with the placeholder key
    "ollama", and asks for that same model. *)
Theorem ollama_base_url_is_default_model (cfg : Config) (env : gmap string string)
    (ctx : Context) (messages : list Message) (R : Remote) (log : list Request) :
  Enabled (Ollama (Providers cfg)) = true ->
  exists p,
    snd (SendMessage (NewOllamaProvider cfg env) ctx messages R log)
    = log ++ [ChatCompletionsNew
                (NewClient
                   [WithBaseURL
                      (if String.eqb (DefaultModel (Ollama (Providers cfg))) ""
                       then "http://localhost:11434/v1"
                       else DefaultModel (Ollama (Providers cfg)));
                    WithAPIKey "ollama"]) p]
    /\ cc_Model p = DefaultModel (Ollama (Providers cfg)).
Proof.
  intros Hol. simpl. unfold ollamaProvider_SendMessage. simpl. rewrite Hol. simpl.
  unfold bind, Chat_Completions_New. eexists. split.
  - destruct (chat_completions R ctx _ _) as [resp|e];
      [destruct (Choices resp)|]; reflexivity.
  - reflexivity.
Qed.

Lemma ollama_base_url_is_default_model_witness :
  exists p,
    snd (SendMessage (NewOllamaProvider examples.ollama_only ∅) examples.background
           examples.five examples.quiet [])
    = [] ++ [ChatCompletionsNew (NewClient [WithBaseURL "llama2"; WithAPIKey "ollama"]) p]
    /\ cc_Model p = "llama2".
Proof.
  apply (ollama_base_url_is_default_model examples.ollama_only ∅). reflexivity.
Defined.

End LlmExtras.

(** ** package session *)

Section PathFacts.
Import Go session.

Lemma string_length_app (a b : string) :
  String.length (a +:+ b) = (String.length a + String.length b)%nat.
Proof.
  induction a as [|x a IH]; [reflexivity|].
  change (S (String.length (a +:+ b)) = S (String.length a + String.length b)).
  rewrite IH. reflexivity.
Qed.

Lemma string_app_inj_r (a b c : string) : a +:+ c = b +:+ c -> a = b.
Proof.
  revert b. induction a as [|x a IH]; intros [|y b] H.
  - reflexivity.
  - apply (f_equal String.length) in H.
    change (String.length c = S (String.length (b +:+ c))) in H.
    rewrite string_length_app in H. lia.
  - apply (f_equal String.length) in H.
    change (S (String.length (a +:+ c)) = String.length c) in H.
    rewrite string_length_app in H. lia.
  - change (String x (a +:+ c) = String y (b +:+ c)) in H.
    injection H as -> H. f_equal. apply IH. exact H.
Qed.

(** [%d] prints different integers differently. *)
Lemma Sprintf_d_inj (a b : Z) : Sprintf_d a = Sprintf_d b -> a = b.
Proof.
  unfold Sprintf_d. intros H. apply DecimalZ.to_int_inj.
  assert (Hnn : forall z, Z.to_int z <> Decimal.Pos Decimal.Nil
                          /\ Z.to_int z <> Decimal.Neg Decimal.Nil).
  { intros [|p|p]; simpl; split; try discriminate;
      intros [= E]; exact (DecimalPos.Unsigned.to_uint_nonnil p E). }
  destruct (Hnn a) as [A1 A2]. destruct (Hnn b) as [B1 B2].
  pose proof (NilZero.isi _ A1 A2) as Ia. pose proof (NilZero.isi _ B1 B2) as Ib.
  rewrite H in Ia. rewrite Ia in Ib. injection Ib as ->. reflexivity.
Qed.

(** Two users of one store never share a session file. *)
Lemma sessionPath_inj (m : manager) (u1 u2 : Z) :
  sessionPath m u1 = sessionPath m u2 -> u1 = u2.
Proof.
  unfold sessionPath, os.filepath_Join. intros H. apply Sprintf_d_inj.
  destruct (String.eqb (path m) "").
  - apply string_app_inj_r in H. exact H.
  - apply String.app_inj in H. apply String.app_inj in H.
    apply string_app_inj_r in H. exact H.
Qed.

End PathFacts.

Section SessionExtras.
Import Go llm spec session.

Variable codec : json.Codec.

(** What [Get] reads is decided by the node at the user's path. *)
Lemma Get_depends_on_path (m : manager) (u : Z) (fs fs' : gmap string os.node) :
  fs' !! sessionPath m u = fs !! sessionPath m u ->
  Get codec m u fs' = Get codec m u fs.
Proof. intros H. unfold Get, os.ReadFile. rewrite H. reflexivity. Qed.

(** [Save] writes at most the user's own path, and nothing when it fails. *)
Lemma Save_frame (m : manager) (u : Z) (M : list Message) (fs : gmap string os.node) :
  (forall p, p <> sessionPath m u -> snd (Save codec m u M fs) !! p = fs !! p)
  /\ (fst (Save codec m u M fs) <> None -> snd (Save codec m u M fs) = fs).
Proof.
  unfold Save.
  destruct (json.Marshal codec _) as [data|e]; simpl; [|auto].
  unfold os.WriteFile.
  destruct (fs !! sessionPath m u) as [[d|]|]; simpl; split; auto;
    try (intros p Hp; apply lookup_insert_ne; congruence); congruence.
Qed.

Lemma Delete_frame (m : manager) (u : Z) (fs : gmap string os.node) :
  forall p, p <> sessionPath m u -> snd (Delete m u fs) !! p = fs !! p.
Proof.
  intros p Hp. unfold Delete, os.Remove.
  destruct (fs !! sessionPath m u) as [[d|]|]; simpl; auto.
  apply lookup_delete_ne. congruence.
Qed.

(** X10.  Sessions of different users do not interfere: saving or
    deleting the session of one user leaves what [Get] returns for any
    other user unchanged. *)
Theorem other_users_untouched (m : manager) (u1 u2 : Z) (M : list Message)
    (fs : gmap string os.node) :
  u1 <> u2 ->
  Get codec m u2 (snd (Save codec m u1 M fs)) = Get codec m u2 fs
  /\ Get codec m u2 (snd (Delete m u1 fs)) = Get codec m u2 fs.
Proof.
  intros Hne.
  assert (Hp : sessionPath m u2 <> sessionPath m u1).
  { intros E. apply Hne. symmetry. apply (sessionPath_inj m). exact E. }
  split; apply Get_depends_on_path.
  - apply (proj1 (Save_frame m u1 M fs)). exact Hp.
  - apply Delete_frame. exact Hp.
Qed.

(** X11.  [Save] replaces, it does not append: whatever an earlier [Save]
    for the same user did, after a later [Save] of [M2] that returned no
    error [Get] returns the retained part of [M2] alone. *)
Theorem last_Save_wins (m : manager) (u : Z) (M1 M2 : list Message)
    (fs fs2 : gmap string os.node) :
  let kept := if 0 <? maxMessages m
              then trailing (Z.to_nat (maxMessages m)) M2 else M2 in
  Save codec m u M2 (snd (Save codec m u M1 fs)) = (None, fs2) ->
  json.roundtrips codec kept ->
  Get codec m u fs2 = (kept, None).
Proof.
  intros kept HS Hrt.
  exact (Save_ok_Get codec m u M2 _ fs2 HS Hrt).
Qed.

(** X12.  After a [Delete] that returned nil, [Get] for that user returns
    the empty history and a nil error, whatever had been stored. *)
Theorem Get_after_Delete (m : manager) (u : Z) (fs fs1 : gmap string os.node) :
  Delete m u fs = (None, fs1) ->
  Get codec m u fs1 = ([], None).
Proof.
  unfold Delete, os.Remove.
  destruct (fs !! sessionPath m u) as [[d|]|] eqn:E; simpl; intros H;
    inversion H; subst; unfold Get, os.ReadFile.
  - rewrite lookup_delete_eq. reflexivity.
  - rewrite E. reflexivity.
Qed.


(** X14.  With a positive limit the newest message is never the one that
    is dropped: after a [Save] of a non-empty [M] that returned no error,
    the last message [Get] returns is the last message of [M]. *)
Theorem Save_keeps_newest (m : manager) (u : Z) (M : list Message)
    (fs fs' : gmap string os.node) :
  0 < maxMessages m ->
  M <> [] ->
  Save codec m u M fs = (None, fs') ->
  json.roundtrips codec (trailing (Z.to_nat (maxMessages m)) M) ->
  exists kept,
    Get codec m u fs' = (kept, None)
    /\ last kept = last M.
Proof.
  intros Hpos Hne HS Hrt.
  pose proof (Save_ok_Get codec m u M fs fs') as H. simpl in H.
  replace (0 <? maxMessages m) with true in H by (symmetry; apply Z.ltb_lt; lia).
  specialize (H HS Hrt).
  exists (trailing (Z.to_nat (maxMessages m)) M).
  split; [exact H|].
  destruct (trailing_suffix (Z.to_nat (maxMessages m)) M) as (dropped & HM & HL).
  rewrite HM at 2. rewrite last_app.
  destruct (last (trailing (Z.to_nat (maxMessages m)) M)) eqn:L; [reflexivity|].
  apply last_None in L. rewrite L in HL. simpl in HL.
  destruct M; [congruence|]. simpl in HL. lia.
Qed.


End SessionExtras.

Lemma other_users_untouched_witness :
  session.Get json.tagged examples.store3 2
    (snd (session.Save json.tagged examples.store3 1 examples.five ∅))
  = session.Get json.tagged examples.store3 2 ∅
  /\ session.Get json.tagged examples.store3 2
       (snd (session.Delete examples.store3 1 ∅))
     = session.Get json.tagged examples.store3 2 ∅.
Proof.
  apply (other_users_untouched json.tagged examples.store3 1 2 examples.five ∅).
  discriminate.
Defined.

Lemma last_Save_wins_witness :
  session.Save json.tagged examples.store3 1 [examples.msg "user" "again"]
    (snd (session.Save json.tagged examples.store3 1 examples.five scenarios.data_dir))
  = (None,
     snd (session.Save json.tagged examples.store3 1 [examples.msg "user" "again"]
            (snd (session.Save json.tagged examples.store3 1 examples.five
                    scenarios.data_dir))))
  /\ session.Get json.tagged examples.store3 1
       (snd (session.Save json.tagged examples.store3 1 [examples.msg "user" "again"]
               (snd (session.Save json.tagged examples.store3 1 examples.five
                       scenarios.data_dir))))
     = ([examples.msg "user" "again"], None).
Proof.
  split; [vm_compute; reflexivity|].
  apply (last_Save_wins json.tagged examples.store3 1 examples.five
           [examples.msg "user" "again"] scenarios.data_dir).
  - vm_compute. reflexivity.
  - eexists. split; vm_compute; reflexivity.
Defined.

Lemma Get_after_Delete_witness :
  session.Get json.tagged examples.store3 1
    (delete (session.sessionPath examples.store3 1)
       ({[session.sessionPath examples.store3 1 := os.RegularFile "cucscecr,chci;"]}
          : gmap string os.node))
  = ([], None).
Proof.
  apply (Get_after_Delete json.tagged examples.store3 1
           {[session.sessionPath examples.store3 1 := os.RegularFile "cucscecr,chci;"]}).
  unfold session.Delete, os.Remove. rewrite lookup_singleton_eq. reflexivity.
Defined.

Lemma Save_keeps_newest_witness :
  session.Save json.tagged examples.store3 1 examples.five scenarios.data_dir
  = (None, snd (session.Save json.tagged examples.store3 1 examples.five
                  scenarios.data_dir))
  /\ exists kept,
       session.Get json.tagged examples.store3 1
         (snd (session.Save json.tagged examples.store3 1 examples.five
                 scenarios.data_dir))
       = (kept, None)
       /\ last kept = last examples.five.
Proof.
  split; [vm_compute; reflexivity|].
  apply (Save_keeps_newest json.tagged examples.store3 1 examples.five
           scenarios.data_dir).
  - reflexivity.
  - discriminate.
  - vm_compute. reflexivity.
  - eexists. split; vm_compute; reflexivity.
Defined.

(** A directory at the user's path: [Save] reports it and leaves the
    files alone. *)
Example Save_on_directory_fails :
  session.Save json.tagged examples.store3 9 examples.five (bot.files chat.blocked)
  = (Some "failed to write session: open data/9.json: is a directory",
     bot.files chat.blocked).
Proof. vm_compute. reflexivity. Qed.

(** ** package bot *)

Section ContainsFacts.
Import bot.

Lemma contains_loop_shift (k : nat) (c : ascii) (s substr : string) :
  forall i, contains_loop k (S i) (String c s) substr = contains_loop k i s substr.
Proof.
  induction k as [|k IH]; intros i; [reflexivity|].
  cbn [contains_loop].
  change (String.substring (S i) (String.length substr) (String c s))
    with (String.substring i (String.length substr) s).
  rewrite IH. reflexivity.
Qed.

(** The comparison in the loop body, at index 0. *)
Lemma substring_is_prefix (substr : string) :
  forall s,
    String.eqb (String.substring 0 (String.length substr) s) substr = true
    <-> exists post, s = substr +:+ post.
Proof.
  induction substr as [|a substr IH]; intros s.
  - split; [intros _; exists s; reflexivity|intros _].
    destruct s; reflexivity.
  - destruct s as [|c s].
    + split; [discriminate|]. intros [post H]. discriminate H.
    + change (String.substring 0 (String.length (String a substr)) (String c s))
        with (String c (String.substring 0 (String.length substr) s)).
      cbn [String.eqb]. destruct (Ascii.eqb_spec c a) as [->|Hne].
      * rewrite IH. split; intros [post H]; exists post.
        -- rewrite H. reflexivity.
        -- change (String a s = String a (substr +:+ post)) in H.
           injection H as H. exact H.
      * split; [discriminate|]. intros [post H].
        change (String c s = String a (substr +:+ post)) in H.
        injection H as H _. contradiction.
Qed.

Lemma contains_loop_spec (substr : string) :
  forall s,
    contains_loop (String.length s + 1 - String.length substr) 0 s substr = true
    <-> exists pre post, s = pre +:+ substr +:+ post.
Proof.
  induction s as [|c s IH].
  - destruct substr as [|a substr]; simpl.
    + split; [intros _; exists "", ""; reflexivity|reflexivity].
    + split; [discriminate|]. intros (pre & post & H).
      apply (f_equal String.length) in H.
      rewrite string_length_app in H. simpl in H. lia.
  - destruct (le_lt_dec (String.length substr) (S (String.length s))) as [Hle|Hgt].
    + replace (String.length (String c s) + 1 - String.length substr)%nat
        with (S (String.length s + 1 - String.length substr)) by (simpl; lia).
      cbn [contains_loop]. rewrite contains_loop_shift.
      destruct (String.eqb (String.substring 0 (String.length substr) (String c s)) substr)
        eqn:Hp.
      * split; [intros _|reflexivity].
        apply substring_is_prefix in Hp. destruct Hp as [post Hp].
        exists "", post. exact Hp.
      * rewrite IH. split.
        -- intros (pre & post & H). exists (String c pre), post. rewrite H. reflexivity.
        -- intros ([|c' pre] & post & H).
           ++ assert (Hp' : String.eqb
                      (String.substring 0 (String.length substr) (String c s)) substr
                    = true) by (apply substring_is_prefix; exists post; exact H).
              congruence.
           ++ change (String c s = String c' (pre +:+ substr +:+ post)) in H.
              injection H as _ H. eauto.
    + replace (String.length (String c s) + 1 - String.length substr)%nat
        with 0%nat by (simpl; lia).
      split; [discriminate|]. intros (pre & post & H).
      apply (f_equal String.length) in H.
      rewrite !string_length_app in H. simpl in H. lia.
Qed.

(** X16.  The handlers' own [contains] is a correct substring test: it
    returns true exactly when the second string occurs somewhere in the
    first (so always for the empty string), and false when it is longer
    than the first. *)
Theorem contains_correct (s substr : string) :
  contains s substr = true <-> exists pre post, s = pre +:+ substr +:+ post.
Proof.
  unfold contains.
  replace (Z.to_nat (Z.of_nat (String.length s) - Z.of_nat (String.length substr) + 1))
    with (String.length s + 1 - String.length substr)%nat by lia.
  apply contains_loop_spec.
Qed.

End ContainsFacts.

Section HandlerFacts.
Import Go sdk interfaces models tgbot bot.

(** The membership loop of [checkAuth]. *)
Lemma allowed_loop (userID : Z) (allowed : list Z) :
  existsb (fun a => userID =? a) allowed = true <-> userID ∈ allowed.
Proof.
  rewrite existsb_exists. split.
  - intros (a & Hin & Heq). apply Z.eqb_eq in Heq. subst a.
    apply list_elem_of_In. exact Hin.
  - intros Hin. exists userID. split; [apply list_elem_of_In; exact Hin|].
    apply Z.eqb_refl.
Qed.

(** X17.  For an update that carries a message with a sender,
    [checkAuth] lets the user through exactly when the allow-list is
    empty, or the user's id is not 0 and is on the list.  It never touches
    the session files or the LLM; it leaves the world as it is when it
    accepts and writes one log line when it rejects. *)
Theorem checkAuth_verdict (h : Handlers) (update : Update) (msg : Message)
    (u : User) (w : World) :
  Update_Message update = Some msg ->
  From msg = Some u ->
  exists ok w',
    checkAuth h update w = Some (ok, w')
    /\ (ok = true <->
          allowedUsers h = [] \/ (ID u <> 0 /\ ID u ∈ allowedUsers h))
    /\ files w' = files w
    /\ wire w' = wire w
    /\ (ok = true -> w' = w)
    /\ (ok = false -> exists line, out w' = out w ++ [Logged line]).
Proof.
  intros Hm Hf. unfold checkAuth, checkAuth_userID, Message_From_ID.
  rewrite Hm, Hf.
  destruct (allowedUsers h) as [|a rest] eqn:Ha.
  - simpl. exists true, w. repeat split; auto; discriminate.
  - replace (Z.of_nat (length (a :: rest)) =? 0) with false
      by (symmetry; apply Z.eqb_neq; simpl; lia).
    destruct (Z.eqb_spec (ID u) 0) as [E0|E0].
    + eexists false, _. repeat split; try discriminate; eauto.
      intros [H|[H _]]; [discriminate|contradiction].
    + destruct (existsb (fun allowed => ID u =? allowed) (a :: rest)) eqn:Hex.
      * apply allowed_loop in Hex. exists true, w.
        repeat split; auto; discriminate.
      * eexists false, _. repeat split; try discriminate; eauto.
        intros [H|[_ H]]; [discriminate|].
        apply allowed_loop in H. congruence.
Qed.

Lemma checkAuth_verdict_witness :
  exists ok w',
    checkAuth (chat.handlers chat.live_router [7; 9]) (chat.makeUpdate 9 9 "hi") chat.fresh
    = Some (ok, w')
    /\ (ok = true <->
          allowedUsers (chat.handlers chat.live_router [7; 9]) = []
          \/ (ID {| ID := 9 |} <> 0
              /\ ID {| ID := 9 |} ∈ allowedUsers (chat.handlers chat.live_router [7; 9])))
    /\ files w' = files chat.fresh
    /\ wire w' = wire chat.fresh
    /\ (ok = true -> w' = chat.fresh)
    /\ (ok = false -> exists line, out w' = out chat.fresh ++ [Logged line]).
Proof.
  apply (checkAuth_verdict (chat.handlers chat.live_router [7; 9])
           (chat.makeUpdate 9 9 "hi")
           {| From := Some {| ID := 9 |}; Chat_ := {| Chat_ID := 9 |};
              models.Text := "hi" |}); reflexivity.
Defined.

(** A rejection changes nothing but the log. *)
Lemma checkAuth_reject (h : Handlers) (update : Update) (w w' : World) :
  checkAuth h update w = Some (false, w') ->
  files w' = files w /\ wire w' = wire w
  /\ exists line, out w' = out w ++ [Logged line].
Proof.
  unfold checkAuth.
  destruct (Z.of_nat (length (allowedUsers h)) =? 0); [discriminate|].
  destruct (checkAuth_userID update) as [userID|]; [|discriminate].
  destruct (userID =? 0).
  - intros [= <-]. simpl. eauto.
  - destruct (existsb _ _); [discriminate|]. intros [= <-]. simpl. eauto.
Qed.

(** X18.  When [checkAuth] rejects an update, none of the six handlers
    does anything for it: each returns having sent no message and no chat
    action, issued no LLM request and changed no session file; the only
    trace is the line [checkAuth] logged. *)
Theorem rejected_update_is_ignored (h : Handlers) (ctx : Context) (b : BotArg)
    (update : Update) (R : Remote) (w w' : World) :
  has_sender b = true ->
  checkAuth h update w = Some (false, w') ->
  StartHandler h ctx b update R w = Some w'
  /\ HelpHandler h ctx b update R w = Some w'
  /\ MyIDHandler h ctx b update R w = Some w'
  /\ ModelHandler h ctx b update R w = Some w'
  /\ ClearHandler h ctx b update R w = Some w'
  /\ TextMessageHandler h ctx b update R w = Some w'
  /\ files w' = files w
  /\ wire w' = wire w
  /\ exists line, out w' = out w ++ [Logged line].
Proof.
  intros Hs Hc.
  unfold StartHandler, HelpHandler, MyIDHandler, ModelHandler, ClearHandler,
    TextMessageHandler, guarded.
  rewrite Hs, Hc. simpl.
  destruct (checkAuth_reject h update w w' Hc) as (Hf & Hw & Ho).
  repeat split; auto.
Qed.

Lemma rejected_update_is_ignored_witness :
  exists w',
    TextMessageHandler (chat.handlers chat.live_router [7; 9]) examples.background
      Sender (chat.makeUpdate 8 8 "hi") scenarios.chatty chat.fresh = Some w'
    /\ files w' = files chat.fresh
    /\ wire w' = wire chat.fresh.
Proof.
  eexists.
  destruct (rejected_update_is_ignored (chat.handlers chat.live_router [7; 9])
              examples.background Sender (chat.makeUpdate 8 8 "hi") scenarios.chatty
              chat.fresh _ eq_refl eq_refl)
    as (_ & _ & _ & _ & _ & HT & Hf & Hw & _).
  split; [exact HT|]. split; [exact Hf|exact Hw].
Defined.

(** An authorised user: the allow-list is empty, or the id is not 0 and
    is on the list. *)
Lemma checkAuth_accept (h : Handlers) (update : Update) (msg : Message)
    (u : User) (w : World) :
  Update_Message update = Some msg ->
  From msg = Some u ->
  allowedUsers h = [] \/ (ID u <> 0 /\ ID u ∈ allowedUsers h) ->
  checkAuth h update w = Some (true, w).
Proof.
  intros Hm Hf Hok. unfold checkAuth, checkAuth_userID, Message_From_ID.
  rewrite Hm, Hf. destruct Hok as [->|[H0 Hin]]; [reflexivity|].
  destruct (Z.of_nat (length (allowedUsers h)) =? 0); [reflexivity|].
  apply Z.eqb_neq in H0. rewrite H0.
  apply allowed_loop in Hin. rewrite Hin. reflexivity.
Qed.

(** Runs a handler for an authorised user up to its body. *)
Ltac enter_handler Hs Hm Hf Hok :=
  unfold StartHandler, HelpHandler, MyIDHandler, ModelHandler, ClearHandler,
    TextMessageHandler, guarded;
  rewrite Hs; cbn [negb];
  rewrite (checkAuth_accept _ _ _ _ _ Hm Hf Hok), Hm;
  unfold Message_From_ID; rewrite Hf.

(** X19.  A failed turn persists nothing.  When an authorised user's
    history loads but the router returns an error or an empty reply, the
    handler shows the typing action, sends at most one message to the
    chat and leaves every session file as it was: the user's text is not
    saved.  It stays silent only for an error that mentions
    "context canceled". *)
Theorem TextMessageHandler_failure_saves_nothing (h : Handlers) (ctx : Context)
    (b : BotArg) (update : Update) (R : Remote) (w : World) (msg : Message)
    (u : User) (hist : list llm.Message) (resp : string) (err : error)
    (wire' : list Request) :
  has_sender b = true ->
  Update_Message update = Some msg ->
  From msg = Some u ->
  allowedUsers h = [] \/ (ID u <> 0 /\ ID u ∈ allowedUsers h) ->
  Get (sessionManager h) (ID u) (files w) = (hist, None) ->
  SendMessage (router h) ctx
    (hist ++ [{| llm.Role := "user"; llm.Content := models.Text msg |}]) R (wire w)
  = ((resp, err), wire') ->
  err <> None \/ resp = "" ->
  exists w' tail,
    TextMessageHandler h ctx b update R w = Some w'
    /\ files w' = files w
    /\ wire w' = wire'
    /\ out w' = out w
                ++ ChatAction {| Action_ChatID := Chat_ID (Chat_ msg);
                                 Action := ChatActionTyping |} :: tail
    /\ (tail = []
        \/ exists text, tail = [Sent {| ChatID := Chat_ID (Chat_ msg); Text := text;
                                        ParseMode := "" |}])
    /\ (tail = [] -> exists e, err = Some e /\ contains e "context canceled" = true).
Proof.
  intros Hs Hm Hf Hok HG HS Hfail.
  enter_handler Hs Hm Hf Hok. cbn [emit files wire out].
  rewrite HG. cbn [files wire out]. rewrite HS.
  assert (Hone : forall text w0,
            files w0 = files w -> wire w0 = wire' ->
            out w0 = out w ++ [ChatAction {| Action_ChatID := Chat_ID (Chat_ msg);
                                             Action := ChatActionTyping |}] ->
            exists w' tail,
              Some (say (Chat_ID (Chat_ msg)) text w0) = Some w'
              /\ files w' = files w /\ wire w' = wire'
              /\ out w' = out w
                          ++ ChatAction {| Action_ChatID := Chat_ID (Chat_ msg);
                                           Action := ChatActionTyping |} :: tail
              /\ (tail = []
                  \/ exists text, tail = [Sent {| ChatID := Chat_ID (Chat_ msg);
                                                  Text := text; ParseMode := "" |}])
              /\ (tail = [] ->
                  exists e, err = Some e /\ contains e "context canceled" = true)).
  { intros text w0 H1 H2 H3. eexists _, [_].
    split; [reflexivity|]. split; [exact H1|]. split; [exact H2|].
    split; [unfold say, emit; cbn [out]; rewrite H3, <- app_assoc; reflexivity|].
    split; [right; eexists; reflexivity|discriminate]. }
  destruct err as [e|].
  - destruct (contains e "no LLM provider enabled"); [apply Hone; reflexivity|].
    destruct (contains e "timeout" || contains e "context deadline");
      [apply Hone; reflexivity|].
    destruct (contains e "context canceled") eqn:Hc; [|apply Hone; reflexivity].
    eexists _, []. repeat split. left. reflexivity. intros _. eauto.
  - destruct Hfail as [Hn| ->]; [congruence|]. cbn [String.eqb].
    apply Hone; reflexivity.
Qed.

Lemma TextMessageHandler_failure_saves_nothing_witness :
  exists w' tail,
    TextMessageHandler (chat.handlers chat.live_router []) examples.background Sender
      (chat.makeUpdate 9 9 "hi") scenarios.down chat.fresh = Some w'
    /\ files w' = files chat.fresh
    /\ wire w' = snd (SendMessage (router (chat.handlers chat.live_router []))
                        examples.background
                        ([] ++ [{| llm.Role := "user"; llm.Content := "hi" |}])
                        scenarios.down (wire chat.fresh))
    /\ out w' = out chat.fresh
                ++ ChatAction {| Action_ChatID := 9; Action := ChatActionTyping |} :: tail
    /\ (tail = []
        \/ exists text, tail = [Sent {| ChatID := 9; Text := text; ParseMode := "" |}])
    /\ (tail = [] ->
        exists e, Some "openai: connection refused" = Some e
                  /\ contains e "context canceled" = true).
Proof.
  apply (TextMessageHandler_failure_saves_nothing (chat.handlers chat.live_router [])
           examples.background Sender (chat.makeUpdate 9 9 "hi") scenarios.down
           chat.fresh
           {| From := Some {| ID := 9 |}; Chat_ := {| Chat_ID := 9 |};
              models.Text := "hi" |}
           {| ID := 9 |} [] "" (Some "openai: connection refused")).
  - reflexivity.
  - reflexivity.
  - reflexivity.
  - left. reflexivity.
  - reflexivity.
  - reflexivity.
  - left. discriminate.
Defined.

(** X20.  When an authorised user's history cannot be loaded, the handler
    tells the user so and stops: no request goes to the LLM and no session
    file is written. *)
Theorem TextMessageHandler_load_error (h : Handlers) (ctx : Context)
    (b : BotArg) (update : Update) (R : Remote) (w : World) (msg : Message)
    (u : User) (hist : list llm.Message) (e : string) :
  has_sender b = true ->
  Update_Message update = Some msg ->
  From msg = Some u ->
  allowedUsers h = [] \/ (ID u <> 0 /\ ID u ∈ allowedUsers h) ->
  Get (sessionManager h) (ID u) (files w) = (hist, Some e) ->
  exists w',
    TextMessageHandler h ctx b update R w = Some w'
    /\ files w' = files w
    /\ wire w' = wire w
    /\ out w' = out w
                ++ [ChatAction {| Action_ChatID := Chat_ID (Chat_ msg);
                                  Action := ChatActionTyping |};
                    Sent {| ChatID := Chat_ID (Chat_ msg);
                            Text := "Error loading conversation history";
                            ParseMode := "" |}].
Proof.
  intros Hs Hm Hf Hok HG.
  enter_handler Hs Hm Hf Hok. cbn [emit files wire out].
  rewrite HG. eexists. repeat split.
  unfold say, emit. cbn [out]. rewrite <- app_assoc. reflexivity.
Qed.

Lemma TextMessageHandler_load_error_witness :
  exists w',
    TextMessageHandler (chat.handlers chat.live_router []) examples.background Sender
      (chat.makeUpdate 9 9 "hi") scenarios.chatty chat.blocked = Some w'
    /\ files w' = files chat.blocked
    /\ wire w' = wire chat.blocked
    /\ out w' = out chat.blocked
                ++ [ChatAction {| Action_ChatID := 9; Action := ChatActionTyping |};
                    Sent {| ChatID := 9; Text := "Error loading conversation history";
                            ParseMode := "" |}].
Proof.
  apply (TextMessageHandler_load_error (chat.handlers chat.live_router [])
           examples.background Sender (chat.makeUpdate 9 9 "hi") scenarios.chatty
           chat.blocked
           {| From := Some {| ID := 9 |}; Chat_ := {| Chat_ID := 9 |};
              models.Text := "hi" |}
           {| ID := 9 |} []
           "failed to read session: read data/9.json: is a directory").
  - reflexivity.
  - reflexivity.
  - reflexivity.
  - left. reflexivity.
  - vm_compute. reflexivity.
Defined.

(** X21.  A turn with the file-backed store.  When an authorised user's
    history [hist] loads and the router answers with a non-empty reply,
    the handler shows the typing action, asks [Save] to store [hist]
    followed by the user's text and the reply, and sends exactly the reply
    to the chat whether or not that [Save] succeeds.  When [Save] returns
    no error nothing else is written out and [Get] then returns that
    history cut to the store's limit (oldest dropped first); when [Save]
    returns an error the handler logs "Failed to save session for user
    <id>: <error>" before it sends the reply. *)
Theorem TextMessageHandler_turn (codec : json.Codec) (m : session.manager)
    (rt : Router) (allowed : list Z) (ctx : Context) (b : BotArg)
    (update : Update) (R : Remote) (w : World) (msg : Message) (u : User)
    (hist : list llm.Message) (resp : string) (wire' : list Request) :
  let h := NewHandlers rt (manager_Manager codec m) allowed in
  let turn :=
    hist ++ [{| llm.Role := "user"; llm.Content := models.Text msg |}]
         ++ [{| llm.Role := "assistant"; llm.Content := resp |}] in
  let kept :=
    if 0 <? session.maxMessages m
    then spec.trailing (Z.to_nat (session.maxMessages m)) turn else turn in
  let typing := ChatAction {| Action_ChatID := Chat_ID (Chat_ msg);
                              Action := ChatActionTyping |} in
  let reply := Sent {| ChatID := Chat_ID (Chat_ msg); Text := resp;
                       ParseMode := "" |} in
  has_sender b = true ->
  Update_Message update = Some msg ->
  From msg = Some u ->
  allowed = [] \/ (ID u <> 0 /\ ID u ∈ allowed) ->
  session.Get codec m (ID u) (files w) = (hist, None) ->
  SendMessage rt ctx
    (hist ++ [{| llm.Role := "user"; llm.Content := models.Text msg |}]) R (wire w)
  = ((resp, None), wire') ->
  resp <> "" ->
  exists w',
    TextMessageHandler h ctx b update R w = Some w'
    /\ wire w' = wire'
    /\ files w' = snd (session.Save codec m (ID u) turn (files w))
    /\ (forall fs', session.Save codec m (ID u) turn (files w) = (None, fs') ->
          out w' = out w ++ [typing; reply]
          /\ (json.roundtrips codec kept ->
                session.Get codec m (ID u) (files w') = (kept, None)))
    /\ (forall e fs', session.Save codec m (ID u) turn (files w) = (Some e, fs') ->
          out w' = out w
                   ++ [typing;
                       Logged ("Failed to save session for user "
                               +:+ Sprintf_d (ID u) +:+ ": " +:+ e);
                       reply]).
Proof.
  intros h turn kept typing reply Hs Hm Hf Hok HG HS Hne.
  assert (Hok' : allowedUsers h = [] \/ (ID u <> 0 /\ ID u ∈ allowedUsers h)) by exact Hok.
  enter_handler Hs Hm Hf Hok'. cbn [emit files wire out h sessionManager router
    NewHandlers manager_Manager Get Save].
  rewrite HG. cbn [files wire out]. rewrite HS.
  apply String.eqb_neq in Hne. rewrite Hne.
  rewrite <- app_assoc. fold turn.
  destruct (session.Save codec m (ID u) turn (files w)) as [[e|] fs1] eqn:HSave.
  - eexists. split; [reflexivity|]. split; [reflexivity|]. split; [reflexivity|].
    split; [intros fs' H; discriminate|].
    intros e' fs' H. injection H as <- <-.
    unfold say, emit. cbn [out]. rewrite <- !app_assoc. reflexivity.
  - eexists. split; [reflexivity|]. split; [reflexivity|]. split; [reflexivity|].
    split; [|intros e' fs' H; discriminate].
    intros fs' H. injection H as <-. split.
    + unfold say, emit. cbn [out]. rewrite <- app_assoc. reflexivity.
    + intros Hrt. cbn [say emit files].
      exact (Save_ok_Get codec m (ID u) turn (files w) fs1 HSave Hrt).
Qed.

Lemma TextMessageHandler_turn_witness :
  exists w',
    TextMessageHandler
      (NewHandlers (router_Router chat.live_router)
         (manager_Manager json.tagged examples.store3) [7; 9])
      examples.background Sender (chat.makeUpdate 9 9 "more") scenarios.chatty
      chat.with_history = Some w'
    /\ wire w' = snd (SendMessage (router_Router chat.live_router) examples.background
                        ([examples.msg "user" "hi"] ++ [examples.msg "user" "more"])
                        scenarios.chatty [])
    /\ out w' = out chat.with_history
                ++ [ChatAction {| Action_ChatID := 9; Action := ChatActionTyping |};
                    Sent {| ChatID := 9; Text := "first"; ParseMode := "" |}]
    /\ session.Get json.tagged examples.store3 9 (files w')
       = ([examples.msg "user" "hi"; examples.msg "user" "more";
           examples.msg "assistant" "first"], None).
Proof.
  destruct (TextMessageHandler_turn json.tagged examples.store3
              (router_Router chat.live_router) [7; 9] examples.background Sender
              (chat.makeUpdate 9 9 "more") scenarios.chatty chat.with_history
              {| From := Some {| ID := 9 |}; Chat_ := {| Chat_ID := 9 |};
                 models.Text := "more" |}
              {| ID := 9 |} [examples.msg "user" "hi"] "first"
              (snd (SendMessage (router_Router chat.live_router) examples.background
                      ([examples.msg "user" "hi"] ++ [examples.msg "user" "more"])
                      scenarios.chatty []))
              eq_refl eq_refl eq_refl
              ltac:(right; split; [discriminate|repeat constructor])
              ltac:(vm_compute; reflexivity)
              ltac:(vm_compute; reflexivity)
              ltac:(discriminate))
    as (w' & HT & Hw & _ & Hok & _).
  exists w'. split; [exact HT|]. split; [exact Hw|].
  destruct (Hok (snd (session.Save json.tagged examples.store3 9
                        ([examples.msg "user" "hi"] ++ [examples.msg "user" "more"]
                         ++ [examples.msg "assistant" "first"])
                        (files chat.with_history)))
              ltac:(vm_compute; reflexivity)) as (Ho & HG).
  split; [exact Ho|].
  apply HG. eexists. split; vm_compute; reflexivity.
Defined.

(** X22.  With the real router and no enabled provider, a message from
    an authorised user whose history loads gets the reply "No LLM provider
    enabled. Please check configuration."; no request is issued and no
    session file is written. *)
Theorem TextMessageHandler_no_provider (r : llm.router) (mgr : Manager)
    (allowed : list Z) (ctx : Context) (b : BotArg) (update : Update)
    (R : Remote) (w : World) (msg : Message) (u : User) (hist : list llm.Message) :
  let h := NewHandlers (router_Router r) mgr allowed in
  has_sender b = true ->
  Update_Message update = Some msg ->
  From msg = Some u ->
  allowed = [] \/ (ID u <> 0 /\ ID u ∈ allowed) ->
  Get mgr (ID u) (files w) = (hist, None) ->
  (forall p, p ∈ llm.providers r -> llm.IsEnabled p = false) ->
  exists w',
    TextMessageHandler h ctx b update R w = Some w'
    /\ files w' = files w
    /\ wire w' = wire w
    /\ out w' = out w
                ++ [ChatAction {| Action_ChatID := Chat_ID (Chat_ msg);
                                  Action := ChatActionTyping |};
                    Sent {| ChatID := Chat_ID (Chat_ msg);
                            Text := "No LLM provider enabled. Please check configuration.";
                            ParseMode := "" |}].
Proof.
  intros h Hs Hm Hf Hok HG Hall.
  assert (Hok' : allowedUsers h = [] \/ (ID u <> 0 /\ ID u ∈ allowedUsers h)) by exact Hok.
  enter_handler Hs Hm Hf Hok'.
  cbn [emit files wire out h sessionManager router NewHandlers router_Router
       SendMessage].
  rewrite HG. cbn [files wire out].
  unfold llm.router_SendMessage. rewrite (GetProvider_all_disabled r Hall).
  unfold ret. cbn [files wire out].
  replace (contains llm.errNoProvider "no LLM provider enabled") with true
    by (vm_compute; reflexivity).
  eexists. repeat split.
  unfold say, emit. cbn [out]. rewrite <- app_assoc. reflexivity.
Qed.

Lemma TextMessageHandler_no_provider_witness :
  exists w',
    TextMessageHandler
      (NewHandlers (router_Router chat.dead_router)
         (manager_Manager json.tagged examples.store3) [])
      examples.background Sender (chat.makeUpdate 9 9 "hi") scenarios.chatty
      chat.fresh = Some w'
    /\ files w' = files chat.fresh
    /\ wire w' = wire chat.fresh
    /\ out w' = out chat.fresh
                ++ [ChatAction {| Action_ChatID := 9; Action := ChatActionTyping |};
                    Sent {| ChatID := 9;
                            Text := "No LLM provider enabled. Please check configuration.";
                            ParseMode := "" |}].
Proof.
  apply (TextMessageHandler_no_provider chat.dead_router
           (manager_Manager json.tagged examples.store3) [] examples.background
           Sender (chat.makeUpdate 9 9 "hi") scenarios.chatty chat.fresh
           {| From := Some {| ID := 9 |}; Chat_ := {| Chat_ID := 9 |};
              models.Text := "hi" |}
           {| ID := 9 |} []).
  - reflexivity.
  - reflexivity.
  - reflexivity.
  - left. reflexivity.
  - reflexivity.
  - intros p Hp. vm_compute in Hp.
    repeat (apply elem_of_cons in Hp; destruct Hp as [->|Hp]);
      [reflexivity|reflexivity|inversion Hp].
Defined.

(** X23.  [/clear] with the file-backed store.  For an authorised user
    the handler calls [Delete] for that user, sends one message and issues
    no LLM request; what [Get] returns for every other user is unchanged.
    When [Delete] returns no error the message is "Conversation history
    cleared." and [Get] then returns the empty history for the user; when
    it returns an error the message is "Error clearing session: "
    followed by that error. *)
Theorem ClearHandler_clears (codec : json.Codec) (m : session.manager)
    (rt : Router) (allowed : list Z) (ctx : Context) (b : BotArg)
    (update : Update) (R : Remote) (w : World) (msg : Message) (u : User) :
  let h := NewHandlers rt (manager_Manager codec m) allowed in
  has_sender b = true ->
  Update_Message update = Some msg ->
  From msg = Some u ->
  allowed = [] \/ (ID u <> 0 /\ ID u ∈ allowed) ->
  exists w' text,
    ClearHandler h ctx b update R w = Some w'
    /\ wire w' = wire w
    /\ files w' = snd (session.Delete m (ID u) (files w))
    /\ out w' = out w ++ [Sent {| ChatID := Chat_ID (Chat_ msg); Text := text;
                                  ParseMode := "" |}]
    /\ (forall u', u' <> ID u ->
          session.Get codec m u' (files w') = session.Get codec m u' (files w))
    /\ (fst (session.Delete m (ID u) (files w)) = None ->
          text = "Conversation history cleared."
          /\ session.Get codec m (ID u) (files w') = ([], None))
    /\ (forall e, fst (session.Delete m (ID u) (files w)) = Some e ->
          text = "Error clearing session: " +:+ e).
Proof.
  intros h Hs Hm Hf Hok.
  assert (Hok' : allowedUsers h = [] \/ (ID u <> 0 /\ ID u ∈ allowedUsers h)) by exact Hok.
  enter_handler Hs Hm Hf Hok'.
  cbn [h sessionManager NewHandlers manager_Manager Delete].
  assert (Hother : forall u', u' <> ID u ->
            session.Get codec m u' (snd (session.Delete m (ID u) (files w)))
            = session.Get codec m u' (files w)).
  { intros u' Hne. apply Get_depends_on_path. apply Delete_frame.
    intros E. apply Hne. apply (sessionPath_inj m). exact E. }
  assert (Hgone : forall fs1, session.Delete m (ID u) (files w) = (None, fs1) ->
            session.Get codec m (ID u) fs1 = ([], None)).
  { intros fs1. unfold session.Delete, os.Remove.
    destruct (files w !! session.sessionPath m (ID u)) as [[d|]|] eqn:E; simpl;
      intros H; inversion H; subst; unfold session.Get, os.ReadFile.
    - rewrite lookup_delete_eq. reflexivity.
    - rewrite E. reflexivity. }
  destruct (session.Delete m (ID u) (files w)) as [[e|] fs1] eqn:HD;
    cbn [fst snd] in *.
  - eexists _, _. split; [reflexivity|]. cbn [say emit files wire out].
    split; [reflexivity|]. split; [reflexivity|]. split; [reflexivity|].
    split; [exact Hother|]. split; [discriminate|].
    intros e' H. injection H as <-. reflexivity.
  - eexists _, _. split; [reflexivity|]. cbn [say emit files wire out].
    split; [reflexivity|]. split; [reflexivity|]. split; [reflexivity|].
    split; [exact Hother|]. split; [|discriminate].
    intros _. split; [reflexivity|]. apply Hgone. reflexivity.
Qed.

Lemma ClearHandler_clears_witness :
  exists w',
    ClearHandler
      (NewHandlers (router_Router chat.live_router)
         (manager_Manager json.tagged examples.store3) [])
      examples.background Sender (chat.makeUpdate 9 9 "/clear") scenarios.chatty
      chat.with_history = Some w'
    /\ wire w' = wire chat.with_history
    /\ out w' = out chat.with_history
                ++ [Sent {| ChatID := 9; Text := "Conversation history cleared.";
                            ParseMode := "" |}]
    /\ session.Get json.tagged examples.store3 9 (files chat.with_history)
       = ([examples.msg "user" "hi"], None)
    /\ session.Get json.tagged examples.store3 9 (files w') = ([], None).
Proof.
  destruct (ClearHandler_clears json.tagged examples.store3
              (router_Router chat.live_router)
              [] examples.background Sender (chat.makeUpdate 9 9 "/clear")
              scenarios.chatty chat.with_history
              {| From := Some {| ID := 9 |}; Chat_ := {| Chat_ID := 9 |};
                 models.Text := "/clear" |}
              {| ID := 9 |} eq_refl eq_refl eq_refl (or_introl eq_refl))
    as (w' & text & HC & Hw & _ & Ho & _ & Hnil & _).
  destruct (Hnil ltac:(vm_compute; reflexivity)) as (-> & HG).
  exists w'. split; [exact HC|]. split; [exact Hw|]. split; [exact Ho|].
  split; [vm_compute; reflexivity|exact HG].
Defined.

(** X24.  [/model] with the real router: an authorised user is told
    "Active provider: <name>", the name being that of a held provider that
    reports enabled, or "Error: No LLM provider enabled" when no held
    provider is enabled.  The handler issues no LLM request and touches no
    session file. *)
Theorem ModelHandler_reports (r : llm.router) (mgr : Manager)
    (allowed : list Z) (ctx : Context) (b : BotArg) (update : Update)
    (R : Remote) (w : World) (msg : Message) (u : User) :
  let h := NewHandlers (router_Router r) mgr allowed in
  has_sender b = true ->
  Update_Message update = Some msg ->
  From msg = Some u ->
  allowed = [] \/ (ID u <> 0 /\ ID u ∈ allowed) ->
  exists w' text,
    ModelHandler h ctx b update R w = Some w'
    /\ files w' = files w
    /\ wire w' = wire w
    /\ out w' = out w ++ [Sent {| ChatID := Chat_ID (Chat_ msg); Text := text;
                                  ParseMode := "" |}]
    /\ ((exists p, p ∈ llm.providers r /\ llm.IsEnabled p = true
                   /\ llm.router_GetProvider r = (Some p, None)
                   /\ text = "Active provider: " +:+ llm.Name p)
        \/ ((forall p, p ∈ llm.providers r -> llm.IsEnabled p = false)
            /\ text = "Error: No LLM provider enabled")).
Proof.
  intros h Hs Hm Hf Hok.
  assert (Hok' : allowedUsers h = [] \/ (ID u <> 0 /\ ID u ∈ allowedUsers h)) by exact Hok.
  unfold ModelHandler, guarded. rewrite Hs. cbn [negb].
  rewrite (checkAuth_accept _ _ _ _ _ Hm Hf Hok'), Hm.
  cbn [h router NewHandlers router_Router GetProvider].
  destruct (llm.router_GetProvider r) as [[p|] e] eqn:HG.
  - destruct (GetProvider_some r p e HG) as (-> & Hin & He).
    eexists _, _. repeat split. left. exists p. auto.
  - destruct (GetProvider_none r e HG) as (-> & Hall).
    eexists _, _. repeat split. right. auto.
Qed.

Lemma ModelHandler_reports_witness :
  exists w' text,
    ModelHandler
      (NewHandlers (router_Router chat.live_router)
         (manager_Manager json.tagged examples.store3) [])
      examples.background Sender (chat.makeUpdate 9 9 "/model") scenarios.chatty
      chat.fresh = Some w'
    /\ files w' = files chat.fresh
    /\ wire w' = wire chat.fresh
    /\ out w' = out chat.fresh
                ++ [Sent {| ChatID := 9; Text := text; ParseMode := "" |}]
    /\ ((exists p, p ∈ llm.providers chat.live_router /\ llm.IsEnabled p = true
                   /\ llm.router_GetProvider chat.live_router = (Some p, None)
                   /\ text = "Active provider: " +:+ llm.Name p)
        \/ ((forall p, p ∈ llm.providers chat.live_router -> llm.IsEnabled p = false)
            /\ text = "Error: No LLM provider enabled")).
Proof.
  apply (ModelHandler_reports chat.live_router
           (manager_Manager json.tagged examples.store3) [] examples.background
           Sender (chat.makeUpdate 9 9 "/model") scenarios.chatty chat.fresh
           {| From := Some {| ID := 9 |}; Chat_ := {| Chat_ID := 9 |};
              models.Text := "/model" |}
           {| ID := 9 |}).
  - reflexivity.
  - reflexivity.
  - reflexivity.
  - left. reflexivity.
Defined.

End HandlerFacts.

(** ** package config: the loader *)

Section LoaderFacts.
Import Go config loader rules.

Variable P : Platform.

Lemma users_loop (users : list Z) :
  existsb (fun userID => userID <=? 0) users = false
  <-> forall u, u ∈ users -> 0 < u.
Proof.
  split.
  - intros H u Hin. destruct (Z.leb_spec u 0) as [Hle|Hgt]; [|exact Hgt].
    assert (existsb (fun userID => userID <=? 0) users = true); [|congruence].
    apply existsb_exists. exists u. split; [apply list_elem_of_In; exact Hin|].
    apply Z.leb_le. exact Hle.
  - intros H. destruct (existsb _ users) eqn:E; [|reflexivity].
    apply existsb_exists in E. destruct E as (u & Hin & Hle).
    apply list_elem_of_In in Hin. apply Z.leb_le in Hle.
    specialize (H u Hin). lia.
Qed.

Lemma model_check_none (pc : ProviderConfig) (field : string) :
  provider_model_check pc field = None
  <-> (Enabled pc = true -> DefaultModel pc <> "").
Proof.
  unfold provider_model_check.
  destruct (Enabled pc); simpl; [|split; [discriminate|reflexivity]].
  destruct (String.eqb_spec (DefaultModel pc) "") as [E|E].
  - split; [discriminate|]. intros H. exfalso. apply (H eq_refl). exact E.
  - split; [auto|reflexivity].
Qed.

Lemma key_check (flag : bool) (key : string) :
  flag && String.eqb key "" = false <-> (flag = true -> key <> "").
Proof.
  destruct flag; simpl; [|split; [discriminate|reflexivity]].
  destruct (String.eqb_spec key "") as [E|E].
  - split; [discriminate|]. intros H. exfalso. apply (H eq_refl). exact E.
  - split; [auto|reflexivity].
Qed.

(** [validateAPIKeys] changes at most the Ollama base URL entry. *)
Lemma validateAPIKeys_result (cfg : Config) :
  let '(cfg', err) := validateAPIKeys cfg in
  core cfg' = core cfg
  /\ Telegram_Token cfg' = Telegram_Token cfg
  /\ AllowedUsers cfg' = AllowedUsers cfg
  /\ (forall k, k <> "OLLAMA_BASE_URL" -> APIKey cfg' k = APIKey cfg k)
  /\ (err = None <->
        (Enabled (OpenAI (Providers (core cfg))) = true ->
           APIKey cfg "OPENAI_API_KEY" <> "")
        /\ (Enabled (Anthropic (Providers (core cfg))) = true ->
           APIKey cfg "ANTHROPIC_API_KEY" <> "")
        /\ (Enabled (OpenRouter (Providers (core cfg))) = true ->
           APIKey cfg "OPENROUTER_API_KEY" <> "")
        /\ (Enabled (OpenCode (Providers (core cfg))) = true ->
           APIKey cfg "OPENCODE_API_KEY" <> ""))
  /\ (err = None -> APIKey cfg' "OLLAMA_BASE_URL" <> "").
Proof.
  unfold validateAPIKeys.
  destruct (_ && String.eqb (APIKey cfg "OPENAI_API_KEY") "") eqn:K1.
  { repeat split; try discriminate. intros (H & _). apply key_check in H. congruence. }
  destruct (_ && String.eqb (APIKey cfg "ANTHROPIC_API_KEY") "") eqn:K2.
  { repeat split; try discriminate. intros (_ & H & _). apply key_check in H. congruence. }
  destruct (_ && String.eqb (APIKey cfg "OPENROUTER_API_KEY") "") eqn:K3.
  { repeat split; try discriminate. intros (_ & _ & H & _). apply key_check in H. congruence. }
  destruct (_ && String.eqb (APIKey cfg "OPENCODE_API_KEY") "") eqn:K4.
  { repeat split; try discriminate. intros (_ & _ & _ & H). apply key_check in H. congruence. }
  pose proof (proj1 (key_check _ _) K1) as K1'.
  pose proof (proj1 (key_check _ _) K2) as K2'.
  pose proof (proj1 (key_check _ _) K3) as K3'.
  pose proof (proj1 (key_check _ _) K4) as K4'.
  destruct (String.eqb_spec (APIKey cfg "OLLAMA_BASE_URL") "") as [E|E].
  - repeat split; auto.
    + intros k Hk. unfold APIKey, set_APIKey. cbn [APIKeys].
      rewrite lookup_insert_ne by congruence. reflexivity.
    + intros _. unfold APIKey, set_APIKey. cbn [APIKeys].
      rewrite lookup_insert_eq. discriminate.
  - repeat split; auto.
Qed.

(** What a call of [validateConfig] that returns nil has checked, and
    what it leaves. *)
Lemma validateConfig_sound (cfg cfg' : Config) :
  validateConfig P cfg = (cfg', None) ->
  Valid P cfg
  /\ core cfg' = core cfg
  /\ Telegram_Token cfg' = TrimSpace P (Telegram_Token cfg)
  /\ AllowedUsers cfg' = AllowedUsers cfg
  /\ (forall k, k <> "OLLAMA_BASE_URL" -> APIKey cfg' k = APIKey cfg k).
Proof.
  unfold validateConfig, Valid. cbn [set_Token Telegram_Token AllowedUsers core].
  destruct (String.eqb_spec (TrimSpace P (Telegram_Token cfg)) "") as [T|T];
    [discriminate|].
  destruct (AllowedUsers cfg) as [users|] eqn:HA; [|discriminate].
  destruct (existsb _ users) eqn:HU'; [discriminate|].
  pose proof (proj1 (users_loop users) HU') as HU.
  destruct (provider_model_check (OpenAI _) _) eqn:M1'; [discriminate|].
  destruct (provider_model_check (Anthropic _) _) eqn:M2'; [discriminate|].
  destruct (provider_model_check (OpenRouter _) _) eqn:M3'; [discriminate|].
  destruct (provider_model_check (OpenCode _) _) eqn:M4'; [discriminate|].
  pose proof (proj1 (model_check_none _ _) M1') as M1.
  pose proof (proj1 (model_check_none _ _) M2') as M2.
  pose proof (proj1 (model_check_none _ _) M3') as M3.
  pose proof (proj1 (model_check_none _ _) M4') as M4.
  destruct (MaxMessages _ <? 1) eqn:HM; [discriminate|]. apply Z.ltb_ge in HM.
  match goal with |- context [validateAPIKeys ?c] => set (c1 := c) end.
  pose proof (validateAPIKeys_result c1) as HK.
  destruct (validateAPIKeys c1) as [c2 err]. intros [= -> ->].
  destruct HK as (Hc & Ht & Hu & Hk & Hok & _).
  destruct (proj1 Hok eq_refl) as (K1 & K2 & K3 & K4).
  split.
  - split; [exact T|]. split; [exists users; split; [reflexivity|exact HU]|].
    split; [intros H; split; [exact (M1 H)|exact (K1 H)]|].
    split; [intros H; split; [exact (M2 H)|exact (K2 H)]|].
    split; [intros H; split; [exact (M3 H)|exact (K3 H)]|].
    split; [intros H; split; [exact (M4 H)|exact (K4 H)]|].
    exact HM.
  - split; [exact Hc|]. split; [exact Ht|].
    split; [rewrite Hu; exact HA|exact Hk].
Qed.

Lemma validateConfig_complete (cfg : Config) :
  Valid P cfg -> snd (validateConfig P cfg) = None.
Proof.
  intros (T & (users & HA & HU) & V1 & V2 & V3 & V4 & HM).
  unfold validateConfig. cbn [set_Token Telegram_Token AllowedUsers core].
  apply String.eqb_neq in T. rewrite T, HA.
  rewrite (proj2 (users_loop users) HU).
  rewrite (proj2 (model_check_none _ _) (fun H => proj1 (V1 H))).
  rewrite (proj2 (model_check_none _ _) (fun H => proj1 (V2 H))).
  rewrite (proj2 (model_check_none _ _) (fun H => proj1 (V3 H))).
  rewrite (proj2 (model_check_none _ _) (fun H => proj1 (V4 H))).
  replace (MaxMessages (Memory (core cfg)) <? 1) with false
    by (symmetry; apply Z.ltb_ge; lia).
  match goal with |- context [validateAPIKeys ?c] => set (c1 := c) end.
  pose proof (validateAPIKeys_result c1) as HK.
  destruct (validateAPIKeys c1) as [c2 err]. simpl.
  destruct HK as (_ & _ & _ & _ & Hok & _). apply Hok.
  repeat split; intros H; [apply (V1 H)|apply (V2 H)|apply (V3 H)|apply (V4 H)].
Qed.

(** X25.  [validateConfig] returns nil exactly for a configuration whose
    trimmed token is non-empty, whose allow-list is not nil and holds only
    positive ids, whose flagged hosted backends each have a model and a
    key in the keys map, and whose message limit is at least 1 (the
    Ollama backend needs neither model nor key).  Whatever it returns, it
    leaves the providers and memory sections untouched. *)
Theorem validateConfig_accepts_exactly (cfg : Config) :
  (snd (validateConfig P cfg) = None <-> Valid P cfg)
  /\ (snd (validateConfig P cfg) = None ->
        core (fst (validateConfig P cfg)) = core cfg
        /\ Telegram_Token (fst (validateConfig P cfg)) = TrimSpace P (Telegram_Token cfg)
        /\ APIKey (fst (validateConfig P cfg)) "OLLAMA_BASE_URL" <> "").
Proof.
  split; [split|].
  - intros H. destruct (validateConfig P cfg) as [cfg' err] eqn:E. simpl in H. subst err.
    apply (validateConfig_sound cfg cfg' E).
  - apply validateConfig_complete.
  - intros H. destruct (validateConfig P cfg) as [cfg' err] eqn:E. simpl in H. subst err.
    destruct (validateConfig_sound cfg cfg' E) as (_ & Hc & Ht & _).
    cbn [fst]. split; [exact Hc|]. split; [exact Ht|].
    revert E. unfold validateConfig. cbn [set_Token Telegram_Token AllowedUsers core].
    destruct (String.eqb _ ""); [discriminate|].
    destruct (AllowedUsers cfg); [|discriminate].
    destruct (existsb _ _); [discriminate|].
    repeat (destruct (provider_model_check _ _); [discriminate|]).
    destruct (_ <? 1); [discriminate|].
    match goal with |- context [validateAPIKeys ?c] => set (c1 := c) end.
    pose proof (validateAPIKeys_result c1) as HK.
    destruct (validateAPIKeys c1) as [c2 err]. intros [= -> ->].
    destruct HK as (_ & _ & _ & _ & _ & Hol). apply Hol. reflexivity.
Qed.

(** What [loadYAML] returns on success: what the parser produced, with a
    fresh empty keys map. *)
Lemma loadYAML_ok (fs : gmap string os.node) (dir : string) (cfg0 : Config) :
  loadYAML P fs dir = (Some cfg0, None) ->
  exists data y,
    fs !! os.filepath_Join dir "config.yaml" = Some (os.RegularFile data)
    /\ yaml_Unmarshal P data = inl y
    /\ core cfg0 = core y
    /\ AllowedUsers cfg0 = AllowedUsers y
    /\ Telegram_Token cfg0 = Telegram_Token y
    /\ APIKeys cfg0 = ∅.
Proof.
  unfold loadYAML, os.ReadFile.
  destruct (fs !! os.filepath_Join dir "config.yaml") as [[data|]|] eqn:E;
    cbn [os.IsNotExist]; try discriminate.
  destruct (Z.of_nat _ =? 0); [discriminate|].
  destruct (yaml_Unmarshal P data) as [y|e] eqn:Y; [|discriminate].
  intros [= <-]. exists data, y. repeat split; assumption.
Qed.

(** What [loadEnv] leaves on success. *)
Lemma loadEnv_ok (fs : gmap string os.node) (env env' : gmap string string)
    (dir : string) (cfg0 cfg1 : Config) :
  loadEnv P fs env dir cfg0 = ((cfg1, env'), None) ->
  core cfg1 = core cfg0
  /\ AllowedUsers cfg1 = AllowedUsers cfg0
  /\ ((fs !! os.filepath_Join dir ".env" = None
       /\ env' = env /\ APIKeys cfg1 = APIKeys cfg0)
      \/ (fs !! os.filepath_Join dir ".env" <> None
          /\ forall k, k ∈ vocab.hosted_keys -> APIKey cfg1 k = Getenv env' k)).
Proof.
  unfold loadEnv, Stat.
  destruct (fs !! os.filepath_Join dir ".env") as [n|] eqn:E; cbn [os.IsNotExist].
  - destruct (godotenv_Load P fs _ env) as [env1 [e|]]; [discriminate|].
    intros [= <- <-]. cbn [core AllowedUsers set_APIKey].
    split; [destruct (negb _); reflexivity|].
    split; [destruct (negb _); reflexivity|].
    right. split; [discriminate|]. intros k Hk. unfold APIKey.
    cbn [APIKeys set_APIKey]. unfold vocab.hosted_keys in Hk.
    repeat (apply elem_of_cons in Hk; destruct Hk as [->|Hk]);
      [| | | |inversion Hk];
      repeat (rewrite lookup_insert_ne by discriminate);
      rewrite lookup_insert_eq; reflexivity.
  - intros [= <- <-].
    split; [destruct (negb _); reflexivity|].
    split; [destruct (negb _); reflexivity|].
    left. repeat split. destruct (negb _); reflexivity.
Qed.

(** The stages a successful [Load] went through. *)
Lemma Load_stages (fs : gmap string os.node) (env env' : gmap string string)
    (cfg : Config) :
  Load P fs env = ((Some cfg, None), env') ->
  exists dir cfg0 cfg1 cfg2,
    findConfigDir P fs = (dir, None)
    /\ loadYAML P fs dir = (Some cfg0, None)
    /\ loadEnv P fs env dir cfg0 = ((cfg1, env'), None)
    /\ validateConfig P cfg1 = (cfg2, None)
    /\ Telegram_Token cfg = Telegram_Token cfg2
    /\ AllowedUsers cfg = AllowedUsers cfg2
    /\ APIKeys cfg = APIKeys cfg2
    /\ Providers (core cfg) = Providers (core cfg2)
    /\ config.Path (Memory (core cfg))
       = (if String.eqb (config.Path (Memory (core cfg2))) ""
          then "./data/sessions" else config.Path (Memory (core cfg2)))
    /\ MaxMessages (Memory (core cfg))
       = (if MaxMessages (Memory (core cfg2)) =? 0
          then 50 else MaxMessages (Memory (core cfg2))).
Proof.
  unfold Load.
  destruct (findConfigDir P fs) as [dir [e|]] eqn:F; [discriminate|].
  destruct (loadYAML P fs dir) as [[cfg0|] [e|]] eqn:Y; try discriminate.
  destruct (loadEnv P fs env dir cfg0) as [[cfg1 env1] [e|]] eqn:L; [discriminate|].
  destruct (validateConfig P cfg1) as [cfg2 [e|]] eqn:V; [discriminate|].
  intros [= <- <-]. exists dir, cfg0, cfg1, cfg2.
  cbn [set_Memory Telegram_Token AllowedUsers APIKeys core Providers Memory].
  repeat split; try assumption.
  - destruct (String.eqb (config.Path (Memory (core cfg2))) "");
      destruct (_ =? 0); reflexivity.
  - destruct (String.eqb (config.Path (Memory (core cfg2))) ""); cbn [MaxMessages];
      destruct (MaxMessages (Memory (core cfg2)) =? 0); reflexivity.
Qed.

(** X26.  A configuration returned by [Load] carries the providers
    section, the allow-list and the message limit that [yaml.Unmarshal]
    read from config.yaml, and the session path from the file or
    "./data/sessions" when the file gives none.  Its limit is at least 1:
    validation runs before the defaults, so a limit of zero is rejected,
    never replaced by 50. *)
Theorem Load_returns_the_file (fs : gmap string os.node)
    (env env' : gmap string string) (cfg : Config) :
  Load P fs env = ((Some cfg, None), env') ->
  exists dir data y,
    fs !! os.filepath_Join dir "config.yaml" = Some (os.RegularFile data)
    /\ yaml_Unmarshal P data = inl y
    /\ Providers (core cfg) = Providers (core y)
    /\ AllowedUsers cfg = AllowedUsers y
    /\ MaxMessages (Memory (core cfg)) = MaxMessages (Memory (core y))
    /\ 1 <= MaxMessages (Memory (core cfg))
    /\ config.Path (Memory (core cfg))
       = (if String.eqb (config.Path (Memory (core y))) ""
          then "./data/sessions" else config.Path (Memory (core y))).
Proof.
  intros HL.
  destruct (Load_stages fs env env' cfg HL)
    as (dir & cfg0 & cfg1 & cfg2 & _ & HY & HE & HV & _ & HA & _ & HP & HPa & HM).
  destruct (loadYAML_ok fs dir cfg0 HY) as (data & y & Hf & Hy & Hc0 & Ha0 & _).
  destruct (loadEnv_ok fs env env' dir cfg0 cfg1 HE) as (Hc1 & Ha1 & _).
  destruct (validateConfig_sound cfg1 cfg2 HV) as (Hvalid & Hc2 & _ & Ha2 & _).
  destruct Hvalid as (_ & _ & _ & _ & _ & _ & Hmax).
  assert (Hcore : core cfg2 = core y) by congruence.
  rewrite Hcore in HP, HPa, HM. rewrite Hc1, Hc0 in Hmax.
  exists dir, data, y.
  replace (MaxMessages (Memory (core y)) =? 0) with false in HM
    by (symmetry; apply Z.eqb_neq; lia).
  repeat split; try assumption; try congruence.
Qed.

(** After a successful [Load], the key of every flagged hosted backend
    is set in the process environment [Load] leaves behind; and without a
    .env file no hosted backend can be flagged. *)
Lemma Load_hosted_keys (fs : gmap string os.node) (env env' : gmap string string)
    (cfg : Config) :
  Load P fs env = ((Some cfg, None), env') ->
  (Enabled (OpenAI (Providers (core cfg))) = true ->
     Getenv env' "OPENAI_API_KEY" <> "")
  /\ (Enabled (Anthropic (Providers (core cfg))) = true ->
     Getenv env' "ANTHROPIC_API_KEY" <> "")
  /\ (Enabled (OpenRouter (Providers (core cfg))) = true ->
     Getenv env' "OPENROUTER_API_KEY" <> "")
  /\ (Enabled (OpenCode (Providers (core cfg))) = true ->
     Getenv env' "OPENCODE_API_KEY" <> "")
  /\ ((forall dir, findConfigDir P fs = (dir, None) ->
         fs !! os.filepath_Join dir ".env" = None) ->
      hosted_off (core cfg) /\ env' = env).
Proof.
  intros HL.
  destruct (Load_stages fs env env' cfg HL)
    as (dir & cfg0 & cfg1 & cfg2 & HF & HY & HE & HV & _ & _ & _ & HP & _).
  destruct (loadYAML_ok fs dir cfg0 HY) as (_ & _ & _ & _ & _ & _ & _ & Hk0).
  destruct (loadEnv_ok fs env env' dir cfg0 cfg1 HE) as (_ & _ & Hcases).
  destruct (validateConfig_sound cfg1 cfg2 HV) as (Hvalid & Hc2 & _).
  destruct Hvalid as (_ & _ & V1 & V2 & V3 & V4 & _).
  rewrite HP, Hc2.
  destruct Hcases as [(Habs & -> & Hkeys)|(Hpres & Hkeys)].
  - assert (Hempty : forall k, APIKey cfg1 k = "").
    { intros k. unfold APIKey. rewrite Hkeys, Hk0, lookup_empty. reflexivity. }
    assert (Hoff : hosted_off (core cfg)).
    { unfold hosted_off. rewrite HP, Hc2.
      destruct (Enabled (OpenAI _)) eqn:E1;
        [exfalso; apply (proj2 (V1 eq_refl)); apply Hempty|].
      destruct (Enabled (Anthropic _)) eqn:E2;
        [exfalso; apply (proj2 (V2 eq_refl)); apply Hempty|].
      destruct (Enabled (OpenRouter _)) eqn:E3;
        [exfalso; apply (proj2 (V3 eq_refl)); apply Hempty|].
      destruct (Enabled (OpenCode _)) eqn:E4;
        [exfalso; apply (proj2 (V4 eq_refl)); apply Hempty|].
      auto. }
    destruct Hoff as (O1 & O2 & O3 & O4). rewrite HP, Hc2 in O1, O2, O3, O4.
    rewrite O1, O2, O3, O4.
    repeat split; try discriminate; unfold hosted_off; rewrite ?HP, ?Hc2; auto.
  - split; [|split; [|split; [|split]]].
    + intros H. rewrite <- Hkeys by (unfold vocab.hosted_keys; repeat constructor).
      apply (V1 H).
    + intros H. rewrite <- Hkeys by (unfold vocab.hosted_keys; repeat constructor).
      apply (V2 H).
    + intros H. rewrite <- Hkeys by (unfold vocab.hosted_keys; repeat constructor).
      apply (V3 H).
    + intros H. rewrite <- Hkeys by (unfold vocab.hosted_keys; repeat constructor).
      apply (V4 H).
    + intros Hno. exfalso. apply Hpres. apply Hno. exact HF.
Qed.

(** X27.  Without a .env file next to config.yaml, [Load] accepts only
    configurations in which no hosted backend is flagged, whatever keys
    the process environment holds: the keys map is filled from the
    environment only when the file exists.  The environment is then left
    as it was. *)
Theorem Load_without_dotenv (fs : gmap string os.node)
    (env env' : gmap string string) (cfg : Config) :
  Load P fs env = ((Some cfg, None), env') ->
  (forall dir, findConfigDir P fs = (dir, None) ->
     fs !! os.filepath_Join dir ".env" = None) ->
  hosted_off (core cfg) /\ env' = env.
Proof.
  intros HL Hno. apply (Load_hosted_keys fs env env' cfg HL). exact Hno.
Qed.

(** X28.  Every provider [NewRouter] constructs from a configuration
    returned by [Load], in the environment [Load] left, reports enabled.
    So the router either cannot be built because no backend is flagged, or
    [GetProvider] returns the first constructed provider. *)
Theorem Load_then_NewRouter (fs : gmap string os.node)
    (env env' : gmap string string) (cfg : Config) :
  Load P fs env = ((Some cfg, None), env') ->
  (forall p, p ∈ spec.constructed (core cfg) env' -> llm.IsEnabled p = true)
  /\ (spec.constructed (core cfg) env' = [] ->
        llm.NewRouter (core cfg) env' = (None, Some llm.errNoProvider))
  /\ (forall p ps, spec.constructed (core cfg) env' = p :: ps ->
        exists r, llm.NewRouter (core cfg) env' = (Some r, None)
                  /\ llm.router_GetProvider r = (Some p, None)).
Proof.
  intros HL.
  destruct (Load_hosted_keys fs env env' cfg HL) as (K1 & K2 & K3 & K4 & _).
  assert (Hall : forall p, p ∈ spec.constructed (core cfg) env' -> llm.IsEnabled p = true).
  { intros p Hp. unfold spec.constructed, spec.declaration_order in Hp.
    destruct (Enabled (OpenAI (Providers (core cfg)))) eqn:E1,
             (Enabled (Anthropic (Providers (core cfg)))) eqn:E2,
             (Enabled (Ollama (Providers (core cfg)))) eqn:E3,
             (Enabled (OpenRouter (Providers (core cfg)))) eqn:E4,
             (Enabled (OpenCode (Providers (core cfg)))) eqn:E5;
      cbn in Hp;
      repeat (apply elem_of_cons in Hp; destruct Hp as [->|Hp]);
      try (inversion Hp; fail);
      simpl; rewrite ?E1, ?E2, ?E3, ?E4, ?E5; try reflexivity;
      simpl; apply negb_true_iff; apply String.eqb_neq;
      first [apply K1|apply K2|apply K3|apply K4]; reflexivity. }
  split; [exact Hall|].
  unfold llm.NewRouter. rewrite NewRouter_built_constructed.
  destruct (spec.constructed (core cfg) env') as [|q qs] eqn:Hc.
  - split; [reflexivity|]. intros p ps H. discriminate.
  - split; [discriminate|]. intros p ps [= -> ->].
    eexists. split; [reflexivity|].
    unfold llm.router_GetProvider. cbn [llm.providers llm.defaultIdx llm.newRouter].
    replace ((0 <=? 0) && (0 <? Z.of_nat (length (p :: ps)))) with true
      by (symmetry; apply andb_true_iff; split;
          [reflexivity|apply Z.ltb_lt; simpl; lia]).
    change ((p :: ps) !! Z.to_nat 0) with (Some p). cbv beta iota.
    rewrite (Hall p) by apply list_elem_of_here. reflexivity.
Qed.

(** The memory section of a loaded configuration. *)
Lemma Load_memory_section (fs : gmap string os.node)
    (env env' : gmap string string) (cfg : Config) :
  Load P fs env = ((Some cfg, None), env') ->
  1 <= MaxMessages (Memory (core cfg))
  /\ config.Path (Memory (core cfg)) <> "".
Proof.
  intros HL.
  destruct (Load_stages fs env env' cfg HL)
    as (dir & cfg0 & cfg1 & cfg2 & _ & _ & _ & HV & _ & _ & _ & _ & HPa & HM).
  destruct (validateConfig_sound cfg1 cfg2 HV) as (Hvalid & Hc2 & _).
  destruct Hvalid as (_ & _ & _ & _ & _ & _ & Hmax).
  rewrite <- Hc2 in Hmax.
  replace (MaxMessages (Memory (core cfg2)) =? 0) with false in HM
    by (symmetry; apply Z.eqb_neq; lia).
  split; [lia|]. rewrite HPa.
  destruct (String.eqb_spec (config.Path (Memory (core cfg2))) ""); [discriminate|assumption].
Qed.

End LoaderFacts.

Section StartupFacts.
Import Go config loader rules.

Variable P : Platform.
Variable codec : json.Codec.

(** X29.  The store [main] builds from a loaded configuration keeps its
    promise: [NewManager] on the loaded path and limit yields a store with
    that path and a positive limit, and after any [Save] through it that
    returned no error, [Get] returns at most that many messages. *)
Theorem loaded_store_is_bounded (fs : gmap string os.node)
    (env env' : gmap string string) (cfg : Config)
    (fs0 fs1 fs2 fs3 : gmap string os.node) (m : session.manager)
    (u : Z) (M : list llm.Message) :
  Load P fs env = ((Some cfg, None), env') ->
  session.NewManager (config.Path (Memory (core cfg)))
    (MaxMessages (Memory (core cfg))) fs0 = ((Some m, None), fs1) ->
  session.Save codec m u M fs2 = (None, fs3) ->
  json.roundtrips codec (spec.trailing (Z.to_nat (session.maxMessages m)) M) ->
  session.path m = config.Path (Memory (core cfg))
  /\ session.maxMessages m = MaxMessages (Memory (core cfg))
  /\ 0 < session.maxMessages m
  /\ exists kept,
       session.Get codec m u fs3 = (kept, None)
       /\ Z.of_nat (length kept) <= session.maxMessages m.
Proof.
  intros HL HN HS Hrt.
  destruct (Load_memory_section P fs env env' cfg HL) as (Hmax & Hpath).
  unfold session.NewManager in HN.
  apply String.eqb_neq in Hpath. rewrite Hpath in HN.
  replace (MaxMessages (Memory (core cfg)) =? 0) with false in HN
    by (symmetry; apply Z.eqb_neq; lia).
  destruct (os.MkdirAll fs0 _) as [[e|] fsx]; [discriminate|].
  injection HN as <- <-. cbn [session.path session.maxMessages] in *.
  repeat split; try lia.
  pose proof (Save_ok_Get codec
                {| session.path := config.Path (Memory (core cfg));
                   session.maxMessages := MaxMessages (Memory (core cfg)) |}
                u M fs2 fs3) as H.
  cbn [session.maxMessages] in H.
  replace (0 <? MaxMessages (Memory (core cfg))) with true in H
    by (symmetry; apply Z.ltb_lt; lia).
  specialize (H HS Hrt).
  exists (spec.trailing (Z.to_nat (MaxMessages (Memory (core cfg)))) M).
  split; [exact H|].
  destruct (trailing_suffix (Z.to_nat (MaxMessages (Memory (core cfg)))) M)
    as (dropped & _ & HLn).
  lia.
Qed.

End StartupFacts.

Lemma Load_returns_the_file_witness :
  exists cfg env',
    loader.Load desk.platform desk.disk ∅ = ((Some cfg, None), env')
    /\ exists dir data y,
         desk.disk !! os.filepath_Join dir "config.yaml" = Some (os.RegularFile data)
         /\ loader.yaml_Unmarshal desk.platform data = inl y
         /\ config.Providers (loader.core cfg) = config.Providers (loader.core y)
         /\ loader.AllowedUsers cfg = loader.AllowedUsers y
         /\ config.MaxMessages (config.Memory (loader.core cfg))
            = config.MaxMessages (config.Memory (loader.core y))
         /\ 1 <= config.MaxMessages (config.Memory (loader.core cfg))
         /\ config.Path (config.Memory (loader.core cfg))
            = (if String.eqb (config.Path (config.Memory (loader.core y))) ""
               then "./data/sessions"
               else config.Path (config.Memory (loader.core y))).
Proof.
  eexists _, _. split.
  - vm_compute. reflexivity.
  - eapply (Load_returns_the_file desk.platform desk.disk ∅). vm_compute. reflexivity.
Defined.

Lemma Load_without_dotenv_witness :
  exists cfg env',
    loader.Load desk.platform_local desk.disk_without_env examples.keys
    = ((Some cfg, None), env')
    /\ rules.hosted_off (loader.core cfg) /\ env' = examples.keys.
Proof.
  eexists _, _. split.
  - vm_compute. reflexivity.
  - eapply (Load_without_dotenv desk.platform_local desk.disk_without_env examples.keys).
    + vm_compute. reflexivity.
    + intros dir H. vm_compute in H. injection H as <-. reflexivity.
Defined.

Lemma Load_then_NewRouter_witness :
  exists cfg env',
    loader.Load desk.platform desk.disk ∅ = ((Some cfg, None), env')
    /\ (forall p, p ∈ spec.constructed (loader.core cfg) env' -> llm.IsEnabled p = true)
    /\ (spec.constructed (loader.core cfg) env' = [] ->
          llm.NewRouter (loader.core cfg) env' = (None, Some llm.errNoProvider))
    /\ (forall p ps, spec.constructed (loader.core cfg) env' = p :: ps ->
          exists r, llm.NewRouter (loader.core cfg) env' = (Some r, None)
                    /\ llm.router_GetProvider r = (Some p, None)).
Proof.
  eexists _, _. split.
  - vm_compute. reflexivity.
  - eapply (Load_then_NewRouter desk.platform desk.disk ∅). vm_compute. reflexivity.
Defined.

Lemma loaded_store_is_bounded_witness :
  exists cfg env' m fs1 fs3,
    loader.Load desk.platform desk.disk ∅ = ((Some cfg, None), env')
    /\ session.NewManager (config.Path (config.Memory (loader.core cfg)))
         (config.MaxMessages (config.Memory (loader.core cfg))) ∅
       = ((Some m, None), fs1)
    /\ session.Save json.tagged m 9 examples.five fs1 = (None, fs3)
    /\ session.path m = config.Path (config.Memory (loader.core cfg))
    /\ session.maxMessages m = config.MaxMessages (config.Memory (loader.core cfg))
    /\ 0 < session.maxMessages m
    /\ exists kept,
         session.Get json.tagged m 9 fs3 = (kept, None)
         /\ Z.of_nat (length kept) <= session.maxMessages m.
Proof.
  eexists _, _, _, _, _.
  match goal with
  | |- ?L /\ _ => assert (HL : L) by (vm_compute; reflexivity); split; [exact HL|]
  end.
  match goal with
  | |- ?N /\ _ => assert (HN : N) by (vm_compute; reflexivity); split; [exact HN|]
  end.
  match goal with
  | |- ?S /\ _ => assert (HS : S) by (vm_compute; reflexivity); split; [exact HS|]
  end.
  apply (loaded_store_is_bounded desk.platform json.tagged desk.disk ∅ _ _ ∅
           _ _ _ _ _ _ HL HN HS).
  eexists. split; vm_compute; reflexivity.
Defined.

Lemma validateConfig_accepts_exactly_witness :
  snd (loader.validateConfig desk.platform
         (loader.set_APIKey "OPENAI_API_KEY" "sk-test" desk.yaml_config)) = None.
Proof.
  destruct (validateConfig_accepts_exactly desk.platform
              (loader.set_APIKey "OPENAI_API_KEY" "sk-test" desk.yaml_config))
    as [[_ H] _].
  apply H. unfold rules.Valid.
  split; [vm_compute; discriminate|].
  split; [eexists; split; [reflexivity|]; intros u Hu;
          repeat (apply elem_of_cons in Hu; destruct Hu as [->|Hu]);
          [reflexivity|reflexivity|inversion Hu]|].
  repeat split; try discriminate; vm_compute; discriminate.
Defined.

(** ** cmd/bot *)

Section MaskFacts.

(** Cutting a string at [n]: the slices the two halves answer for. *)
Lemma string_cut (n : nat) :
  forall s, (n <= String.length s)%nat ->
    exists a b,
      s = a +:+ b /\ String.length a = n
      /\ String.substring 0 n s = a
      /\ forall i m, String.substring (n + i) m s = String.substring i m b.
Proof.
  induction n as [|n IH]; intros s Hn.
  - exists "", s. repeat split. destruct s; reflexivity.
  - destruct s as [|c s]; [simpl in Hn; lia|].
    destruct (IH s ltac:(simpl in Hn; lia)) as (a & b & Hs & Ha & Hp & Hsub).
    exists (String c a), b. repeat split.
    + rewrite Hs at 1. reflexivity.
    + simpl. rewrite Ha. reflexivity.
    + change (String c (String.substring 0 n s) = String c a). rewrite Hp. reflexivity.
    + intros i m. change (String.substring (n + i) m s = String.substring i m b).
      apply Hsub.
Qed.

Lemma substring_all (s : string) : String.substring 0 (String.length s) s = s.
Proof.
  induction s as [|c s IH]; [reflexivity|].
  change (String c (String.substring 0 (String.length s) s) = String c s).
  rewrite IH. reflexivity.
Qed.

(** X30.  [maskToken] never shows more than ten characters of the token:
    a token of at most ten characters is printed as "****", a longer one
    as its first five characters, three dots and its last five, the
    (non-empty) middle left out. *)
Theorem maskToken_hides_the_middle (token : string) :
  ((String.length token <= 10)%nat -> main.maskToken token = "****")
  /\ ((10 < String.length token)%nat ->
      exists first middle final,
        token = first +:+ middle +:+ final
        /\ String.length first = 5%nat
        /\ String.length final = 5%nat
        /\ middle <> ""
        /\ main.maskToken token = first +:+ "..." +:+ final).
Proof.
  unfold main.maskToken. split; intros H.
  - replace (Z.of_nat (String.length token) <=? 10) with true
      by (symmetry; apply Z.leb_le; lia).
    reflexivity.
  - replace (Z.of_nat (String.length token) <=? 10) with false
      by (symmetry; apply Z.leb_gt; lia).
    destruct (string_cut 5 token ltac:(lia)) as (first & rest & Ht & Hf & Hp & Hsub).
    assert (Hrest : String.length rest = (String.length token - 5)%nat).
    { rewrite Ht, string_length_app, Hf. lia. }
    destruct (string_cut (String.length rest - 5) rest ltac:(lia))
      as (middle & final & Hr & Hm & _ & Hsub2).
    assert (Hfin : String.length final = 5%nat).
    { apply (f_equal String.length) in Hr. rewrite string_length_app, Hm in Hr. lia. }
    exists first, middle, final. repeat split; try assumption.
    + rewrite Ht at 1. rewrite Hr at 1. reflexivity.
    + intros ->. simpl in Hm. lia.
    + rewrite Hp. f_equal. f_equal.
      replace (Z.to_nat (Z.of_nat (String.length token) - 5))
        with (5 + (String.length rest - 5 + 0))%nat by lia.
      rewrite Hsub, Hsub2. rewrite <- Hfin. apply substring_all.
Qed.

End MaskFacts.
